(** * CatalyST NGD wrappers: a shallow embedding of [NGD_API_Wrappers.py]

    The development follows the two variants of the wrapper library,
    [src/Azure/NGD_API_Wrappers.py] (module [Azure] below, the variant the
    serverless facade imports) and [src/app_flask/NGD_API_Wrappers.py]
    (module [Flask]).

    Python objects are modelled as follows.
    - JSON-like data (responses, features, error payloads, dictionary
      contents) is a [value]; a dictionary is an association list in
      insertion order, as Python dictionaries iterate.  Floating point
      numbers are not part of the model.
    - The three mappings a caller hands to the wrappers ([query_params],
      [filter_params], [headers]) are dictionary *objects*: they live in a
      store and are passed by reference, so that [.copy()] and in-place
      assignment can be told apart.
    - A call either returns or raises: [outcome].  Effectful code runs in
      the state-and-exception monad [M] over a [world] (store, process
      environment, state of the remote services, journal of the calls that
      were issued). *)

From stdpp Require Import base numbers list strings pretty.
From Stdlib Require Import Ascii String ZArith Lia.

Set Default Proof Using "Type".
Set Warnings "-register-all".
Local Open Scope string_scope.
Local Open Scope list_scope.

(** ** Python values *)

Inductive value : Type :=
| VNone
| VBool (b : bool)
| VInt (n : Z)
| VStr (s : string)
| VList (l : list value)
| VDict (d : list (string * value)).

(** A dictionary with string keys, in insertion order. *)
Abbreviation dict := (list (string * value)).

Inductive exn : Type :=
| TypeError (msg : string)
| KeyError (key : string)
| IndexError
| ValueError (msg : string)
| AttributeError (msg : string)
| PermissionError
| JSONDecodeError (msg : string)
| TransportError (msg : string).

Inductive outcome (A : Type) : Type :=
| Ret (a : A)
| Raise (e : exn).
Arguments Ret {A} a.
Arguments Raise {A} e.

Definition obind {A B} (c : outcome A) (k : A -> outcome B) : outcome B :=
  match c with
  | Ret a => k a
  | Raise e => Raise e
  end.

Notation "'let?' x ':=' c 'in' k" := (obind c (fun x => k))
  (at level 10, x pattern, c at level 100, k at level 200).

(** *** Dictionaries *)

Fixpoint dict_get (k : string) (d : dict) : option value :=
  match d with
  | [] => None
  | (k', v) :: d' => if String.eqb k k' then Some v else dict_get k d'
  end.

(** [d[k] = v]: an existing key keeps its position, a new key goes last. *)
Fixpoint dict_set (k : string) (v : value) (d : dict) : dict :=
  match d with
  | [] => [(k, v)]
  | (k', v') :: d' =>
      if String.eqb k k' then (k, v) :: d' else (k', v') :: dict_set k v d'
  end.

(** [d.pop(k, None)], keeping only the dictionary. *)
Fixpoint dict_remove (k : string) (d : dict) : dict :=
  match d with
  | [] => []
  | (k', v') :: d' =>
      if String.eqb k k' then d' else (k', v') :: dict_remove k d'
  end.

Definition dict_mem (k : string) (d : dict) : bool :=
  match dict_get k d with Some _ => true | None => false end.

(** [d[k]], raising [KeyError]. *)
Definition dict_item (k : string) (d : dict) : outcome value :=
  match dict_get k d with
  | Some v => Ret v
  | None => Raise (KeyError k)
  end.

Definition dict_values (d : dict) : list value := map snd d.
Definition dict_keys (d : dict) : list string := map fst d.

(** *** Truth value, equality, [str()] *)

Definition truthy (v : value) : bool :=
  match v with
  | VNone => false
  | VBool b => b
  | VInt n => negb (n =? 0)%Z
  | VStr s => negb (String.eqb s EmptyString)
  | VList l => match l with [] => false | _ => true end
  | VDict d => match d with [] => false | _ => true end
  end.

Definition Z_of_bool (b : bool) : Z := if b then 1%Z else 0%Z.

(** [a == b].  Booleans are integers; lists compare element-wise;
    dictionaries compare as mappings (order-insensitive). *)
Fixpoint py_eq (a b : value) {struct a} : bool :=
  match a, b with
  | VNone, VNone => true
  | VBool x, VBool y => Bool.eqb x y
  | VBool x, VInt y => (Z_of_bool x =? y)%Z
  | VInt x, VBool y => (x =? Z_of_bool y)%Z
  | VInt x, VInt y => (x =? y)%Z
  | VStr s, VStr t => String.eqb s t
  | VList l, VList m =>
      (fix eq_list (l m : list value) {struct l} : bool :=
         match l, m with
         | [], [] => true
         | x :: l', y :: m' => py_eq x y && eq_list l' m'
         | _, _ => false
         end) l m
  | VDict d, VDict e =>
      Nat.eqb (List.length d) (List.length e) &&
      (fix eq_items (d : dict) {struct d} : bool :=
         match d with
         | [] => true
         | (k, v) :: d' =>
             match dict_get k e with
             | Some w => py_eq v w && eq_items d'
             | None => false
             end
         end) d
  | _, _ => false
  end.

(** [x in l] for a list [l]. *)
Definition py_in (x : value) (l : list value) : bool :=
  existsb (fun e => py_eq e x) l.

Definition str_join (sep : string) (l : list string) : string :=
  match l with
  | [] => EmptyString
  | s :: l' => fold_left (fun acc t => acc +:+ sep +:+ t) l' s
  end.

(** [str(v)] and [repr(v)].  [repr] of a string is rendered with single
    quotes and no escaping, which is what Python prints for strings free of
    quotes, backslashes and control characters. *)
Fixpoint py_repr (v : value) : string :=
  match v with
  | VNone => "None"
  | VBool true => "True"
  | VBool false => "False"
  | VInt n => pretty n
  | VStr s => "'" +:+ s +:+ "'"
  | VList l => "[" +:+ str_join ", " (map py_repr l) +:+ "]"
  | VDict d =>
      "{" +:+ str_join ", "
        (map (fun kv => "'" +:+ fst kv +:+ "': " +:+ py_repr (snd kv)) d) +:+ "}"
  end.

Definition py_str (v : value) : string :=
  match v with
  | VStr s => s
  | _ => py_repr v
  end.

(** *** Types and [isinstance] *)

Inductive pytype : Type := TNoneType | TBool | TInt | TStr | TList | TDict.

(** What a Python expression may denote here: a datum or a type object
    such as the builtin [str]. *)
Inductive pyobj : Type :=
| Obj (v : value)
| TypeObj (t : pytype).

Definition type_of (v : value) : pytype :=
  match v with
  | VNone => TNoneType
  | VBool _ => TBool
  | VInt _ => TInt
  | VStr _ => TStr
  | VList _ => TList
  | VDict _ => TDict
  end.

Definition pytype_eqb (a b : pytype) : bool :=
  match a, b with
  | TNoneType, TNoneType | TBool, TBool | TInt, TInt
  | TStr, TStr | TList, TList | TDict, TDict => true
  | _, _ => false
  end.

(** [bool] is a subclass of [int]. *)
Definition subtype (a b : pytype) : bool :=
  pytype_eqb a b || match a, b with TBool, TInt => true | _, _ => false end.

(** [isinstance(obj, classinfo)]: the second argument must be a type. *)
Definition isinstance (obj classinfo : pyobj) : outcome bool :=
  match classinfo with
  | TypeObj t =>
      Ret match obj with
          | Obj v => subtype (type_of v) t
          | TypeObj _ => false
          end
  | Obj _ =>
      Raise (TypeError "isinstance() arg 2 must be a type, a tuple of types, or a union")
  end.

(** *** Arithmetic and comparison on values *)

(** The integer a value stands for in arithmetic, if it is one. *)
Definition as_int (v : value) : option Z :=
  match v with
  | VInt n => Some n
  | VBool b => Some (Z_of_bool b)
  | _ => None
  end.

(** [v >= n] for an integer literal [n]. *)
Definition py_ge (v : value) (n : Z) : outcome bool :=
  match as_int v with
  | Some m => Ret (n <=? m)%Z
  | None => Raise (TypeError "'>=' not supported between these operands")
  end.

(** [acc + v] for an integer accumulator [acc]. *)
Definition py_add (acc : Z) (v : value) : outcome Z :=
  match as_int v with
  | Some m => Ret (acc + m)%Z
  | None => Raise (TypeError "unsupported operand type(s) for +=")
  end.

(** [a < b] and [a > b]: numbers by value, strings and lists in
    lexicographic order, a list at the first place where the two differ
    ([==]); anything else is not ordered. *)
Fixpoint py_less (a b : value) {struct a} : outcome bool :=
  match a, b with
  | VStr s, VStr t => Ret (String.ltb s t)
  | VList l, VList m =>
      (fix less_list (l m : list value) {struct l} : outcome bool :=
         match l, m with
         | x :: l', y :: m' => if py_eq x y then less_list l' m' else py_less x y
         | [], _ :: _ => Ret true
         | _, [] => Ret false
         end) l m
  | _, _ =>
      match as_int a, as_int b with
      | Some x, Some y => Ret (x <? y)%Z
      | _, _ => Raise (TypeError "'<' not supported between these operands")
      end
  end.

Fixpoint py_more (a b : value) {struct a} : outcome bool :=
  match a, b with
  | VStr s, VStr t => Ret (String.ltb t s)
  | VList l, VList m =>
      (fix more_list (l m : list value) {struct l} : outcome bool :=
         match l, m with
         | x :: l', y :: m' => if py_eq x y then more_list l' m' else py_more x y
         | _ :: _, [] => Ret true
         | [], _ => Ret false
         end) l m
  | _, _ =>
      match as_int a, as_int b with
      | Some x, Some y => Ret (y <? x)%Z
      | _, _ => Raise (TypeError "'>' not supported between these operands")
      end
  end.

(** What [list += v] appends: the elements [v] iterates over. *)
Definition py_iter (v : value) : outcome (list value) :=
  match v with
  | VList l => Ret l
  | VDict d => Ret (map VStr (dict_keys d))
  | VStr s => Ret (map (fun c => VStr (String c EmptyString)) (list_ascii_of_string s))
  | _ => Raise (TypeError "object is not iterable")
  end.

(** [v.get(k)] and [v[k]] for an arbitrary value [v]. *)
Definition py_get (v : value) (k : string) : outcome value :=
  match v with
  | VDict d => Ret (default VNone (dict_get k d))
  | _ => Raise (AttributeError "object has no attribute 'get'")
  end.

Definition py_item (v : value) (k : string) : outcome value :=
  match v with
  | VDict d => dict_item k d
  | _ => Raise (TypeError "indices must be integers or slices, not str")
  end.

(** *** Strings *)

Fixpoint str_prefix (p s : string) : bool :=
  match p, s with
  | EmptyString, _ => true
  | String a p', String b s' => Ascii.eqb a b && str_prefix p' s'
  | String _ _, EmptyString => false
  end.

(** [p in s] *)
Fixpoint str_contains (p s : string) : bool :=
  str_prefix p s ||
  match s with
  | EmptyString => false
  | String _ s' => str_contains p s'
  end.

Fixpoint str_drop (n : nat) (s : string) : string :=
  match n, s with
  | O, _ => s
  | S n', String _ s' => str_drop n' s'
  | S _, EmptyString => EmptyString
  end.

(** [s.replace(old, new)] for a non-empty [old]: the occurrences, left to
    right, without overlap. *)
Fixpoint str_replace_go (fuel : nat) (old new s : string) : string :=
  match fuel with
  | O => s
  | S fuel' =>
      match s with
      | EmptyString => EmptyString
      | String c s' =>
          if str_prefix old s
          then new +:+ str_replace_go fuel' old new (str_drop (String.length old) s)
          else String c (str_replace_go fuel' old new s')
      end
  end.

Definition str_replace (old new s : string) : string :=
  str_replace_go (S (String.length s)) old new s.

Definition is_digit (c : ascii) : bool :=
  let n := nat_of_ascii c in (48 <=? n)%nat && (n <=? 57)%nat.

(** ** The store, the process and the remote services *)

Definition loc := nat.

(** One HTTP response: status and the result of [response.json()]
    (the decoded body, or the message of the decode error). *)
Record http_response := {
  status_code : Z;
  json_body : value + string
}.

Record world (U : Type) := {
  heap : list dict;                     (* the dictionary objects *)
  environ : list (string * string);     (* os.environ *)
  ext : U                               (* remote services, clock *)
}.
Arguments heap {U} w.
Arguments environ {U} w.
Arguments ext {U} w.

(** The monad of effectful code: state, exceptions, and [None] for a
    computation that has not finished within the fuel given to its loops. *)
Definition M (U A : Type) : Type := world U -> option (outcome A * world U).

Definition ret {U A} (a : A) : M U A := fun w => Some (Ret a, w).
Definition raise {U A} (e : exn) : M U A := fun w => Some (Raise e, w).
Definition bind {U A B} (c : M U A) (k : A -> M U B) : M U B :=
  fun w =>
    match c w with
    | Some (Ret a, w') => k a w'
    | Some (Raise e, w') => Some (Raise e, w')
    | None => None
    end.
Definition lift {U A} (c : outcome A) : M U A := fun w => Some (c, w).

Notation "'let*' x ':=' c 'in' k" := (bind c (fun x => k))
  (at level 10, x pattern, c at level 100, k at level 200).

(** [try: c except PermissionError: ...]: [None] when [c] raised it. *)
Definition try_permission {U A} (c : M U A) : M U (option A) :=
  fun w =>
    match c w with
    | Some (Ret a, w') => Some (Ret (Some a), w')
    | Some (Raise PermissionError, w') => Some (Ret None, w')
    | Some (Raise e, w') => Some (Raise e, w')
    | None => None
    end.

(** A [for] loop whose body has effects. *)
Fixpoint for_eachM {U A S} (body : S -> A -> M U S) (l : list A) (s : S) : M U S :=
  match l with
  | [] => ret s
  | x :: l' => let* s' := body s x in for_eachM body l' s'
  end.

(** Dictionary objects. *)
Definition with_heap {U} (w : world U) (h : list dict) : world U :=
  {| heap := h; environ := environ w; ext := ext w |}.

Definition deref {U} (l : loc) : M U dict :=
  fun w => Some (Ret (default [] (heap w !! l)), w).

Definition alloc {U} (d : dict) : M U loc :=
  fun w => Some (Ret (List.length (heap w)), with_heap w (heap w ++ [d])).

Definition update {U} (l : loc) (f : dict -> dict) : M U unit :=
  fun w => Some (Ret tt, with_heap w (<[l := f (default [] (heap w !! l))]> (heap w))).

(** [x.copy() if x else {}] for an optional mapping argument [x]. *)
Definition copy_or_empty {U} (x : option loc) : M U loc :=
  match x with
  | Some l => let* d := deref l in alloc d
  | None => alloc []
  end.

(** [os.environ] *)
Fixpoint env_lookup (k : string) (e : list (string * string)) : option string :=
  match e with
  | [] => None
  | (k', v) :: e' => if String.eqb k k' then Some v else env_lookup k e'
  end.

Fixpoint env_store (k v : string) (e : list (string * string)) : list (string * string) :=
  match e with
  | [] => [(k, v)]
  | (k', v') :: e' =>
      if String.eqb k k' then (k, v) :: e' else (k', v') :: env_store k v e'
  end.

Definition getenv {U} (k : string) : M U (option string) :=
  fun w => Some (Ret (env_lookup k (environ w)), w).

Definition setenv {U} (k v : string) : M U unit :=
  fun w => Some (Ret tt,
            {| heap := heap w; environ := env_store k v (environ w); ext := ext w |}).

(** An action of the outside world, which sees and changes [ext] only. *)
Definition external {U A} (f : U -> outcome A * U) : M U A :=
  fun w =>
    let '(r, u) := f (ext w) in
    Some (r, {| heap := heap w; environ := environ w; ext := u |}).

(** A reading of the outside world. *)
Definition observe {U A} (f : U -> outcome A) : M U A :=
  fun w => Some (f (ext w), w).

Definition now {U} (clock : U -> string) : M U string :=
  observe (fun u => Ret (clock u)).

(** *** Geometries (shapely)

    A geometry is a point, a line string or a polygon, or a collection of
    geometries ([.geoms]).  Coordinates stay inside the well-known text. *)

Inductive atomic_kind : Type := Point | LineString | Polygon.

Inductive geometry : Type :=
| Atomic (kind : atomic_kind) (wkt : string) (is_empty : bool)
| Multi (wkt : string) (geoms : list geometry).

Definition geom_wkt (g : geometry) : string :=
  match g with
  | Atomic _ t _ => t
  | Multi t _ => t
  end.

Fixpoint geom_is_empty (g : geometry) : bool :=
  match g with
  | Atomic _ _ e => e
  | Multi _ gs => forallb geom_is_empty gs
  end.

(** The [wkt] argument: a string or a geometry object. *)
Inductive wkt_arg : Type :=
| WktStr (s : string)
| WktGeom (g : geometry).

Definition wkt_truthy (w : wkt_arg) : bool :=
  match w with
  | WktStr s => negb (String.eqb s EmptyString)
  | WktGeom g => negb (geom_is_empty g)
  end.

Definition wkt_str (w : wkt_arg) : string :=
  match w with
  | WktStr s => s
  | WktGeom g => geom_wkt g
  end.

(** *** Keyword arguments

    The keyword arguments the wrappers name.  [None] is an argument that
    was not passed.  [kw_limit] and [kw_request_limit] hold the value
    passed, which may itself be Python's [None]. *)

Record kwargs := {
  kw_collection : option value;
  kw_query_params : option loc;
  kw_filter_params : option loc;
  kw_wkt : option wkt_arg;
  kw_use_latest_collection : option bool;
  kw_add_metadata : option bool;
  kw_headers : option loc;
  kw_hierarchical_output : option bool;
  kw_request_limit : option (option Z);
  kw_limit : option (option Z)
}.

Definition no_kwargs : kwargs :=
  {| kw_collection := None; kw_query_params := None; kw_filter_params := None;
     kw_wkt := None; kw_use_latest_collection := None; kw_add_metadata := None;
     kw_headers := None; kw_hierarchical_output := None;
     kw_request_limit := None; kw_limit := None |}.

(** A wrapped function: keyword arguments in, a JSON object out. *)
Definition callable (U : Type) : Type := kwargs -> M U value.

(** The collaborators outside the library. *)
Record services (U : Type) := {
  (* datetime.now().isoformat() *)
  clock : U -> string;
  (* requests.get(url, params, headers) on the items endpoint *)
  get_items : string -> dict -> dict -> U -> outcome http_response * U;
  (* requests.get on the collections catalogue *)
  get_collections : U -> outcome http_response * U;
  (* requests.post on the token endpoint, with basic authentication *)
  post_token : option string -> option string -> U -> outcome http_response * U;
  (* track_event('OS NGD API - Features', custom_dimensions=...) *)
  track_event : dict -> U -> outcome unit * U;
  (* datetime.now() - timedelta(days=...), as a point on the time line *)
  cutoff : Z -> U -> outcome Z;
  (* datetime.strptime(s, '%Y-%m-%dT%H:%M:%SZ'), as a point on the time line *)
  strptime : value -> outcome Z;
  (* shapely.from_wkt; None stands for GEOSException *)
  from_wkt : string -> option geometry
}.
Arguments clock {U} s.
Arguments get_items {U} s.
Arguments get_collections {U} s.
Arguments post_token {U} s.
Arguments track_event {U} s.
Arguments cutoff {U} s.
Arguments strptime {U} s.
Arguments from_wkt {U} s.

(** Folding a body that may raise over the elements of a [for] loop. *)
Fixpoint for_each {A S} (body : S -> A -> outcome S) (l : list A) (s : S) : outcome S :=
  match l with
  | [] => Ret s
  | x :: l' => let? s' := body s x in for_each body l' s'
  end.

(** [int(s)] for a string of ASCII decimal digits.  Python also accepts a
    sign, surrounding blanks, underscores and other Unicode digits; those
    forms are rejected here. *)
Fixpoint digits_value (acc : N) (s : string) : option N :=
  match s with
  | EmptyString => Some acc
  | String c s' =>
      if is_digit c
      then digits_value (acc * 10 + (N.of_nat (nat_of_ascii c) - 48))%N s'
      else None
  end.

Definition py_int (s : string) : outcome Z :=
  match s with
  | EmptyString => Raise (ValueError "invalid literal for int() with base 10")
  | _ =>
      match digits_value 0%N s with
      | Some n => Ret (Z.of_N n)
      | None => Raise (ValueError "invalid literal for int() with base 10")
      end
  end.

(** The two pieces around the last hyphen of [s], if it has one. *)
Fixpoint split_last_hyphen (s : string) : option (string * string) :=
  match s with
  | EmptyString => None
  | String c s' =>
      match split_last_hyphen s' with
      | Some (b, v) => Some (String c b, v)
      | None => if Ascii.eqb c "-" then Some (EmptyString, s') else None
      end
  end.

(** [max(l)] for a non-empty list of integers. *)
Definition py_max (l : list Z) : outcome Z :=
  match l with
  | [] => Raise (ValueError "max() arg is an empty sequence")
  | x :: l' => Ret (fold_left Z.max l' x)
  end.

(** [min(l)] and [max(l)]: the first of the smallest and of the largest
    elements, found with [<] and with [>]. *)
Definition min_of (l : list value) : outcome value :=
  match l with
  | [] => Raise (ValueError "min() arg is an empty sequence")
  | x :: l' =>
      for_each
        (fun best item =>
           let? smaller := py_less item best in
           Ret (if (smaller : bool) then item else best))
        l' x
  end.

Definition max_of (l : list value) : outcome value :=
  match l with
  | [] => Raise (ValueError "max() arg is an empty sequence")
  | x :: l' =>
      for_each
        (fun best item =>
           let? larger := py_more item best in
           Ret (if (larger : bool) then item else best))
        l' x
  end.

Definition is_list (v : value) : bool :=
  match v with
  | VList _ => true
  | _ => false
  end.

(** ** Coordinates: [flatten_coords]

    The coordinates of a geometry are nested lists whose innermost lists
    are positions.  Positions are kept as they are; the model does not look
    inside them. *)

(** [item[0]] *)
Definition first_item (item : value) : outcome value :=
  match item with
  | VList (x :: _) => Ret x
  | VList [] => Raise IndexError
  | VStr (String c _) => Ret (VStr (String c EmptyString))
  | VStr EmptyString => Raise IndexError
  | VDict _ => Raise (KeyError "0")
  | _ => Raise (TypeError "object is not subscriptable")
  end.

(** [pair[1]] *)
Definition second_item (pair : value) : outcome value :=
  match pair with
  | VList (_ :: y :: _) => Ret y
  | VList _ => Raise IndexError
  | VStr (String _ (String c _)) => Ret (VStr (String c EmptyString))
  | VStr _ => Raise IndexError
  | VDict _ => Raise (KeyError "1")
  | _ => Raise (TypeError "object is not subscriptable")
  end.

(** [flatten_coords(list_of_lists)].  The recursive call is made on an item
    whose first element is a list, which is itself a list; what is not a
    list is iterated over as Python iterates over it. *)
Fixpoint flatten_coords (list_of_lists : value) : outcome (list value) :=
  match list_of_lists with
  | VList items =>
      (fix loop (items : list value) : outcome (list value) :=
         match items with
         | [] => Ret []
         | item :: rest =>
             let? first := first_item item in
             let? flattened :=
               if is_list first then flatten_coords item else Ret [item] in
             let? result := loop rest in
             Ret (flattened ++ result)
         end) items
  | _ =>
      let? items := py_iter list_of_lists in
      for_each
        (fun result item => let? _ := first_item item in Ret (result ++ [item]))
        items []
  end.

(** An item that [flatten_coords] keeps: its first element is not a list. *)
Definition is_position (item : value) : bool :=
  match first_item item with
  | Ret first => negb (is_list first)
  | Raise _ => false
  end.

(** ** The Azure variant: [src/Azure/NGD_API_Wrappers.py] *)

Module Azure.

(** [construct_filter_param], called with the mapping as keyword arguments. *)
Definition construct_filter_param (params : dict) : outcome string :=
  let? params :=
    for_each
      (fun (params : dict) '(k, v) =>
         let? is_str := isinstance (TypeObj TStr) (Obj v) in
         if (is_str : bool)
         then Ret (dict_set k (VStr ("'" +:+ py_str v +:+ "'")) params)
         else Ret params)
      params params in
  let filter_list :=
    map (fun '(k, v) => "(" +:+ k +:+ "=" +:+ py_str v +:+ ")") params in
  Ret (str_join "and" filter_list).

(** [wkt_to_spatial_filter(wkt)] with the default predicate. *)
Definition wkt_to_spatial_filter (wkt : wkt_arg) : string :=
  "(INTERSECTS(geometry," +:+ wkt_str wkt +:+ "))".

(** *** Collection versions *)

(** [re.split(r'-(?=[^-]*$)', col)], unpacked into two names. *)
Definition split_name (col : value) : outcome (string * string) :=
  match col with
  | VStr s =>
      match split_last_hyphen s with
      | Some bv => Ret bv
      | None => Raise (ValueError "not enough values to unpack (expected 2, got 1)")
      end
  | _ => Raise (TypeError "expected string or bytes-like object")
  end.

(** The first loop of [get_latest_collection_versions]: the versions seen
    for every base name, in order of first appearance. *)
Fixpoint versions_get (b : string) (m : list (string * list Z)) : option (list Z) :=
  match m with
  | [] => None
  | (b', vs) :: m' => if String.eqb b b' then Some vs else versions_get b m'
  end.

Fixpoint versions_append (b : string) (v : Z) (m : list (string * list Z))
  : list (string * list Z) :=
  match m with
  | [] => [(b, [v])]
  | (b', vs) :: m' =>
      if String.eqb b b' then (b', vs ++ [v]) :: m'
      else (b', vs) :: versions_append b v m'
  end.

Definition group_versions (collections_list : list value)
  : outcome (list (string * list Z)) :=
  for_each
    (fun collections_dict col =>
       let? (basename, version) := split_name col in
       let? version := py_int version in
       Ret (versions_append basename version collections_dict))
    collections_list [].

(** The second loop: the name of the latest version of every base name. *)
Definition latest_lookup (collections_dict : list (string * list Z)) : outcome dict :=
  for_each
    (fun (output_lookup : dict) '(basename, versions) =>
       let? latest_version := py_max versions in
       Ret (dict_set basename (VStr (basename +:+ "-" +:+ pretty latest_version))
              output_lookup))
    collections_dict [].

(** Lines 39-53: from the catalogue entries to [output_lookup]. *)
Definition collection_ids (collections_data : list value) : outcome (list value) :=
  for_each (fun ids c => let? i := py_item c "id" in Ret (ids ++ [i]))
    collections_data [].

Definition output_lookup_of (collections_data : list value) : outcome dict :=
  let? collections_list := collection_ids collections_data in
  let? collections_dict := group_versions collections_list in
  latest_lookup collections_dict.

(** *** Keyword arguments passed on with one of them replaced *)

Definition with_headers (kw : kwargs) (h : option loc) : kwargs :=
  {| kw_collection := kw_collection kw; kw_query_params := kw_query_params kw;
     kw_filter_params := kw_filter_params kw; kw_wkt := kw_wkt kw;
     kw_use_latest_collection := kw_use_latest_collection kw;
     kw_add_metadata := kw_add_metadata kw; kw_headers := h;
     kw_hierarchical_output := kw_hierarchical_output kw;
     kw_request_limit := kw_request_limit kw; kw_limit := kw_limit kw |}.

(** [query_params=..., add_metadata=False, **kwargs], where [kwargs] is what
    is left once [request_limit], [limit] and [query_params] are taken. *)
Definition for_page (kw : kwargs) (q : loc) : kwargs :=
  {| kw_collection := kw_collection kw; kw_query_params := Some q;
     kw_filter_params := kw_filter_params kw; kw_wkt := kw_wkt kw;
     kw_use_latest_collection := kw_use_latest_collection kw;
     kw_add_metadata := Some false; kw_headers := kw_headers kw;
     kw_hierarchical_output := kw_hierarchical_output kw;
     kw_request_limit := None; kw_limit := None |}.

(** [wkt=geom, **kwargs], where [kwargs] is what is left once [wkt] and
    [hierarchical_output] are taken. *)
Definition for_part (kw : kwargs) (g : geometry) : kwargs :=
  {| kw_collection := kw_collection kw; kw_query_params := kw_query_params kw;
     kw_filter_params := kw_filter_params kw; kw_wkt := Some (WktGeom g);
     kw_use_latest_collection := kw_use_latest_collection kw;
     kw_add_metadata := kw_add_metadata kw; kw_headers := kw_headers kw;
     kw_hierarchical_output := None;
     kw_request_limit := kw_request_limit kw; kw_limit := kw_limit kw |}.

(** [collection=col, hierarchical_output=..., **kwargs], where [kwargs] is
    what is left once [collection], [hierarchical_output] and
    [use_latest_collection] are taken. *)
Definition for_collection (kw : kwargs) (col : value) (hierarchical_output : bool)
  : kwargs :=
  {| kw_collection := Some col; kw_query_params := kw_query_params kw;
     kw_filter_params := kw_filter_params kw; kw_wkt := kw_wkt kw;
     kw_use_latest_collection := None;
     kw_add_metadata := kw_add_metadata kw; kw_headers := kw_headers kw;
     kw_hierarchical_output := Some hierarchical_output;
     kw_request_limit := kw_request_limit kw; kw_limit := kw_limit kw |}.

(** [response.json()] *)
Definition response_json {U} (r : http_response) : M U value :=
  match json_body r with
  | inl v => ret v
  | inr msg => raise (JSONDecodeError msg)
  end.

(** Whether a value can be a dictionary key. *)
Definition hashable (v : value) : bool :=
  match v with
  | VList _ | VDict _ => false
  | _ => true
  end.

(** The dictionary comprehension of [get_specific_latest_collections]:
    [inr col] is the [KeyError] for the first name that is not a key. *)
Fixpoint specific_latest (latest_collections : dict) (collection : list value)
    (acc : dict) : outcome (dict + value) :=
  match collection with
  | [] => Ret (inl acc)
  | col :: rest =>
      if hashable col then
        match col with
        | VStr s =>
            match dict_get s latest_collections with
            | Some v => specific_latest latest_collections rest (dict_set s v acc)
            | None => Ret (inr col)
            end
        | _ => Ret (inr col)
        end
      else Raise (TypeError "unhashable type")
  end.

Definition not_found_payload (col : value) : value :=
  VDict [
    ("code", VInt 404);
    ("description", VStr ("Collection " +:+ py_repr col +:+
       " is not a supported Collection base name. The name must not include a version suffix. Please refer to the documentation for a list of supported Collections."));
    ("help", VStr "https://api.os.uk/features/ngd/ofa/v1/collections")
  ].

(** *** Pieces of [ngd_items_request] *)

(** [f'({current_filters})and{addition}' if current_filters else addition] *)
Definition merge_filter (current_filters : value) (addition : string) : value :=
  if truthy current_filters
  then VStr ("(" +:+ py_str current_filters +:+ ")and" +:+ addition)
  else VStr addition.

(** The loop that spells out integer coordinate reference systems. *)
Definition normalise_crs (query_params : dict) : outcome dict :=
  for_each
    (fun (query_params : dict) '(k, v) =>
       let? is_int := isinstance (Obj v) (TypeObj TInt) in
       if str_contains "crs" k && (is_int : bool)
       then Ret (dict_set k (VStr ("http://www.opengis.net/def/crs/EPSG/0/" +:+ py_str v))
                   query_params)
       else Ret query_params)
    query_params query_params.

(** [a | b] on dictionaries. *)
Definition dict_union (a b : dict) : dict :=
  fold_left (fun acc '(k, v) => dict_set k v acc) b a.

(** The payload for an undecodable body. *)
Definition decode_error_payload (status_code : Z) (error_string : string) : value :=
  if str_prefix "Expecting value" error_string
  then VDict [
         ("code", VInt 414);
         ("description", VDict [
            ("Error Text", VStr error_string);
            ("Help (Catalyst)", VStr "This could be due to a request URI which is too long or an input geometry which is too complex.")]);
         ("errorSource", VStr "OS NGD API")]
  else VDict [
         ("code", VInt status_code);
         ("description", VStr error_string);
         ("errorSource", VStr "OS NGD API")].

(** The branch [status_code >= 400]. *)
Definition upstream_error_payload (status_code : Z) (json_response : value)
  : outcome value :=
  match json_response with
  | VDict json_response =>
      let descr := default (VStr EmptyString) (dict_get "description" json_response) in
      let? json_response :=
        if negb (truthy descr) then
          let descr := VDict (dict_remove "code" json_response) in
          Ret [("code", VInt status_code); ("description", descr)]
        else
          match descr with
          | VStr descr =>
              if str_prefix "Not supported query parameter" descr then
                let descr :=
                  str_replace "Supported parameters are" "Supported NGD parameters are" descr in
                let descr :=
                  descr +:+ ". Additional supported Catalyst parameters for this function are: {attr}." in
                Ret (dict_set "description" (VStr descr) json_response)
              else Ret json_response
          | _ => Raise (AttributeError "object has no attribute 'startswith'")
          end in
      let json_response :=
        if negb (truthy (default VNone (dict_get "code" json_response)))
        then dict_union [("code", VInt status_code)] json_response
        else json_response in
      Ret (VDict (dict_set "errorSource" (VStr "OS NGD API") json_response))
  | _ => Raise (AttributeError "object has no attribute 'get'")
  end.

(** The bounding box of the coordinates returned: lines 309-313.  The
    tuple is written as a list. *)
Definition response_bbox (flattened_coords : list value) : outcome value :=
  let? (xcoords, ycoords) :=
    for_each
      (fun '(xcoords, ycoords) pair =>
         let? x := first_item pair in
         let? y := second_item pair in
         Ret (xcoords ++ [x], ycoords ++ [y]))
      flattened_coords ([], []) in
  if truthy (VList xcoords) && truthy (VList ycoords) then
    let? xmin := min_of xcoords in
    let? ymin := min_of ycoords in
    let? xmax := max_of xcoords in
    let? ymax := max_of ycoords in
    Ret (VList [xmin; ymin; xmax; ymax])
  else Ret (VStr EmptyString).

(** What is reported of a successful request: lines 307-322. *)
Definition custom_dimensions (url : string) (collection : value) (query_params : dict)
    (json_response : value) : outcome dict :=
  let? features := py_item json_response "features" in
  let? features := py_iter features in
  let? compiled_features :=
    for_each
      (fun acc feature =>
         let? geometry := py_item feature "geometry" in
         let? coordinates := py_item geometry "coordinates" in
         Ret (acc ++ [coordinates]))
      features [] in
  let? flattened_coords := flatten_coords (VList compiled_features) in
  let? bbox := response_bbox flattened_coords in
  let? number_returned := py_item json_response "numberReturned" in
  let custom_dimensions :=
    [("method", VStr "GET");
     ("url.path", VStr url);
     ("url.path_params.collection", collection);
     ("response.bbox", bbox);
     ("response.numberReturned", number_returned)] in
  let str_query_params :=
    fold_left
      (fun (acc : dict) '(k, v) => dict_set ("url.query_params." +:+ k) (VStr (py_str v)) acc)
      query_params [] in
  Ret (dict_union custom_dimensions str_query_params).

(** [collection_data['extent']['temporal']['interval'][0][0]] *)
Definition version_startdate (collection_data : value) : outcome value :=
  let? extent := py_item collection_data "extent" in
  let? temporal := py_item extent "temporal" in
  let? interval := py_item temporal "interval" in
  let? first := first_item interval in
  first_item first.

(** [feature[key] = v; feature['properties'][key] = v] *)
Definition tag_feature (key : string) (v : value) (feature : value) : outcome value :=
  match feature with
  | VDict f =>
      let f := dict_set key v f in
      let? properties := dict_item "properties" f in
      match properties with
      | VDict p => Ret (VDict (dict_set "properties" (VDict (dict_set key v p)) f))
      | VList _ => Raise (TypeError "list indices must be integers or slices, not str")
      | _ => Raise (TypeError "object does not support item assignment")
      end
  | VList _ => Raise (TypeError "list indices must be integers or slices, not str")
  | _ => Raise (TypeError "object does not support item assignment")
  end.

(** The same two assignments for every element that [features] iterates
    over; the elements of a list are updated in place. *)
Definition tag_features (key : string) (v : value) (features : value)
  : outcome value :=
  let? elems := py_iter features in
  let? tagged :=
    for_each (fun acc f => let? f := tag_feature key v f in Ret (acc ++ [f])) elems [] in
  match features with
  | VList _ => Ret (VList tagged)
  | _ => Ret features
  end.

(** The check every coordinator applies to an inner result:
    [json_response.get('code') and json_response['code'] >= 400]. *)
Definition is_error_response (json_response : value) : outcome bool :=
  let? code := py_get json_response "code" in
  if truthy code then
    let? code := py_item json_response "code" in
    py_ge code 400
  else Ret false.

(** *** Pieces of [limit_extension] *)

Definition offset_payload : value :=
  VDict [
    ("code", VInt 400);
    ("description", VStr "'offset' is not a valid attribute for functions using this Catalyst wrapper.");
    ("errorSource", VStr "Catalyst Wrapper")
  ].

(** [not(limit)] for an optional integer. *)
Definition falsy (n : option Z) : bool :=
  match n with
  | None => true
  | Some n => (n =? 0)%Z
  end.

(** [a == b] and [a < b] between an integer and an optional integer. *)
Definition eq_opt (a : Z) (b : option Z) : bool :=
  match b with
  | Some b => (a =? b)%Z
  | None => false
  end.

Definition int_or_none (n : option Z) : value :=
  match n with
  | Some n => VInt n
  | None => VNone
  end.

(** [[link for link in json_response['links'] if link['rel'] == 'next']] *)
Definition next_links (json_response : value) : outcome (list value) :=
  let? links := py_item json_response "links" in
  let? links := py_iter links in
  for_each
    (fun acc link =>
       let? rel := py_item link "rel" in
       Ret (if py_eq rel (VStr "next") then acc ++ [link] else acc))
    links [].

(** *** Pieces of [multigeometry_search_extension] *)

(** [multilevel_explode(shape)] *)
Fixpoint multilevel_explode (shape : geometry) : list geometry :=
  match shape with
  | Atomic _ _ _ => [shape]
  | Multi _ lower_shapes => List.flat_map multilevel_explode lower_shapes
  end.

Definition invalid_geometry_payload : value :=
  VDict [
    ("code", VInt 400);
    ("description", VStr "The input geometry is not valid. Please ensure you have the correct formatting for your input geometry type.");
    ("help", VStr "http://libgeos.org/specifications/wkt/");
    ("errorSource", VStr "Catalyst Wrapper")
  ].

(** [[v for v, gf in enumerate(geojson_fts) if gf['id'] == fid][0]] *)
Fixpoint first_index (geojson_fts : list value) (fid : value) (v : nat)
  : outcome nat :=
  match geojson_fts with
  | [] => Raise IndexError
  | gf :: rest =>
      let? gid := py_item gf "id" in
      if py_eq gid fid
      then (let? _ := for_each (fun _ gf => let? _ := py_item gf "id" in Ret tt) rest tt in
            Ret v)
      else first_index rest fid (Datatypes.S v)
  end.

(** The accumulators of [flatten_search_areas]. *)
Record flat_state := {
  fs_requests : Z;              (* geojson['numberOfRequests'] *)
  fs_returned : Z;              (* geojson['numberReturned'] *)
  fs_features : list value;     (* geojson_fts *)
  fs_ids : list value           (* ids *)
}.

(** One turn of the loop over the features of an area: either the feature
    seen before gets the area number appended, or the feature is new. *)
Definition merge_feature (search_area_number : value)
    (st : list value * list value * list value) (feat : value)
  : outcome (list value * list value * list value) :=
  let '(geojson_fts, new_features, ids) := st in
  let? fid := py_item feat "id" in
  if py_in fid ids then
    let? index := first_index geojson_fts fid 0 in
    match geojson_fts !! index with
    | Some gf =>
        let? n := py_item gf "searchAreaNumber" in
        let n := match n with VList ns => ns | _ => [n] end in
        let n := n ++ [search_area_number] in
        match gf with
        | VDict gf =>
            Ret (<[index := VDict (dict_set "searchAreaNumber" (VList n) gf)]> geojson_fts,
                 new_features, ids)
        | _ => Raise (TypeError "object does not support item assignment")
        end
    | None => Raise IndexError
    end
  else
    match feat with
    | VDict f =>
        Ret (geojson_fts,
             new_features ++ [VDict (dict_set "searchAreaNumber" search_area_number f)],
             ids ++ [fid])
    | _ => Raise (TypeError "object does not support item assignment")
    end.

(** One turn of the loop over the areas. *)
Definition flatten_area (st : flat_state) (area : value) : outcome flat_state :=
  match area with
  | VDict area =>
      let? search_area_number := dict_item "searchAreaNumber" area in
      let area := dict_remove "searchAreaNumber" area in
      let? features := dict_item "features" area in
      let? features := tag_features "searchAreaNumber" search_area_number features in
      let? features := py_iter features in
      let? (geojson_fts, new_features, ids) :=
        for_each (merge_feature search_area_number) features
          (fs_features st, [], fs_ids st) in
      let geojson_fts := geojson_fts ++ new_features in
      let? number_of_requests := dict_item "numberOfRequests" area in
      let? requests := py_add (fs_requests st) number_of_requests in
      Ret {| fs_requests := requests;
             fs_returned := (fs_returned st + Z.of_nat (List.length new_features))%Z;
             fs_features := geojson_fts;
             fs_ids := ids |}
  | _ => Raise (TypeError "pop expected an integer")
  end.

Definition flat_init : flat_state :=
  {| fs_requests := 0; fs_returned := 0; fs_features := []; fs_ids := [] |}.

(** [flatten_search_areas], up to the time stamp. *)
Definition flatten_areas (search_areas : list value) : outcome flat_state :=
  for_each flatten_area search_areas flat_init.

Definition flat_geojson (st : flat_state) (time_stamp : string) : value :=
  VDict [
    ("type", VStr "FeatureCollection");
    ("numberOfRequests", VInt (fs_requests st));
    ("numberReturned", VInt (fs_returned st));
    ("features", VList (fs_features st));
    ("timeStamp", VStr time_stamp)
  ].

(** *** Pieces of [multiple_collections_extension] *)

Definition str_last (s : string) : option ascii :=
  last (list_ascii_of_string s).

(** [c[-1].isdigit()], with ASCII digits. *)
Definition ends_with_digit (c : value) : outcome bool :=
  match c with
  | VStr s =>
      match str_last s with
      | Some a => Ret (is_digit a)
      | None => Raise IndexError
      end
  | VList l =>
      match last l with
      | Some (VStr s) =>
          Ret (negb (String.eqb s EmptyString) && forallb is_digit (list_ascii_of_string s))
      | Some _ => Raise (AttributeError "object has no attribute 'isdigit'")
      | None => Raise IndexError
      end
  | VDict _ => Raise (KeyError "-1")
  | _ => Raise (TypeError "object is not subscriptable")
  end.

(** The first loop of [apply_latest_collection]: [(has_version, no_version)]. *)
Definition partition_versions (collection : list value)
  : outcome (list value * list value) :=
  for_each
    (fun '(has_version, no_version) c =>
       let? versioned := ends_with_digit c in
       if (versioned : bool)
       then Ret (has_version ++ [c], no_version)
       else Ret (has_version, no_version ++ [c]))
    collection ([], []).

(** [needle in v] for a string [needle]. *)
Definition py_contains (needle : string) (v : value) : outcome bool :=
  match v with
  | VStr s => Ret (str_contains needle s)
  | VList l => Ret (py_in (VStr needle) l)
  | VDict d => Ret (dict_mem needle d)
  | _ => Raise (TypeError "argument is not iterable")
  end.

(** [results], keyed by what the caller listed as collections. *)
Fixpoint results_set (col : value) (r : value) (results : list (value * value))
  : list (value * value) :=
  match results with
  | [] => [(col, r)]
  | (col', r') :: rest =>
      if py_eq col' col then (col', r) :: rest
      else (col', r') :: results_set col r rest
  end.

(** A dictionary keyed by collection as a JSON object: a key that is not a
    string is written the way [json.dumps] writes it. *)
Definition keyed (results : list (value * value)) : value :=
  VDict (fold_left (fun acc '(col, r) => dict_set (py_str col) r acc) results []).

(** The merge loop over [results.items()]. *)
Record merge_state := {
  ms_features : list value;
  ms_requests : Z;
  ms_requests_by : list (value * value);
  ms_returned : Z;
  ms_returned_by : list (value * value)
}.

Definition merge_init : merge_state :=
  {| ms_features := []; ms_requests := 0; ms_requests_by := [];
     ms_returned := 0; ms_returned_by := [] |}.

Definition merge_collection (st : merge_state) (item : value * value)
  : outcome merge_state :=
  let '(col, col_results) := item in
  let? features := py_item col_results "features" in
  let? features := py_iter features in
  let? number_of_requests := py_item col_results "numberOfRequests" in
  let? requests := py_add (ms_requests st) number_of_requests in
  let? number_returned := py_item col_results "numberReturned" in
  let? returned := py_add (ms_returned st) number_returned in
  Ret {| ms_features := ms_features st ++ features;
         ms_requests := requests;
         ms_requests_by := results_set col number_of_requests (ms_requests_by st);
         ms_returned := returned;
         ms_returned_by := results_set col number_returned (ms_returned_by st) |}.

Definition merge_collections (results : list (value * value)) : outcome merge_state :=
  for_each merge_collection results merge_init.

Definition merged_geojson (st : merge_state) (time_stamp : string) : value :=
  VDict [
    ("type", VStr "FeatureCollection");
    ("numberOfRequests", VInt (ms_requests st));
    ("numberOfRequestsByCollection", keyed (ms_requests_by st));
    ("numberReturned", VInt (ms_returned st));
    ("numberReturnedByCollection", keyed (ms_returned_by st));
    ("features", VList (ms_features st));
    ("timeStamp", VStr time_stamp)
  ].

Section Effects.
Context {U : Type} (svc : services U).

(** [get_latest_collection_versions(flag_recent_updates, recent_update_days)] *)
Definition get_latest_collection_versions
    (flag_recent_updates : bool) (recent_update_days : Z) : M U value :=
  let* response := external (get_collections svc) in
  let* body := response_json response in
  let* collections_data := lift (py_item body "collections") in
  let* collections_data := lift (py_iter collections_data) in
  let* output_lookup := lift (output_lookup_of collections_data) in
  if negb flag_recent_updates then ret (VDict output_lookup)
  else
    let* recent_update_cutoff := observe (cutoff svc recent_update_days) in
    let* latest_versions_data :=
      lift (for_each
              (fun acc c =>
                 let? i := py_item c "id" in
                 Ret (if py_in i (dict_values output_lookup) then acc ++ [c] else acc))
              collections_data []) in
    let* recent_collections :=
      for_eachM
        (fun acc collection_data =>
           let* version_startdate := lift (version_startdate collection_data) in
           let* time_obj := lift (strptime svc version_startdate) in
           if (recent_update_cutoff <? time_obj)%Z
           then let* collection := lift (py_item collection_data "id") in
                ret (acc ++ [collection])
           else ret acc)
        latest_versions_data [] in
    ret (VDict [
      ("collection-lookup", VDict output_lookup);
      ("recent-update-threshold-days", VInt recent_update_days);
      ("recent-collection-updates", VList recent_collections)
    ]).

(** [get_specific_latest_collections(collection)] *)
Definition get_specific_latest_collections (collection : list value) : M U value :=
  let* latest_collections := get_latest_collection_versions false 31 in
  match latest_collections with
  | VDict latest_collections =>
      let* r := lift (specific_latest latest_collections collection []) in
      match r with
      | inl specific_latest_collections => ret (VDict specific_latest_collections)
      | inr e => ret (not_found_payload e)
      end
  | _ => raise (TypeError "object is not subscriptable")
  end.

(** [get_access_token(client_id, client_secret)] *)
Definition get_access_token (client_id client_secret : option string) : M U value :=
  let* response := external (post_token svc client_id client_secret) in
  let* json_response := response_json response in
  if (status_code response =? 401)%Z then raise PermissionError
  else lift (py_item json_response "access_token").

Definition bad_credentials_payload : value :=
  VDict [
    ("code", VInt 401);
    ("description", VStr "Missing or invalid CLIENT_ID and/or CLIENT_SECRET. Make sure these are configured correctely in your environment variables.");
    ("errorSource", VStr "Catalyst Wrapper")
  ].

(** [os.environ[k] = v] *)
Definition setenv_value (k : string) (v : value) : M U unit :=
  match v with
  | VStr s => setenv k s
  | _ => raise (TypeError "str expected")
  end.

(** [oauth2_manager(func)], the inner [wrapper]. *)
Definition oauth2_manager (func : callable U) : callable U := fun kw =>
  let* headers := copy_or_empty (kw_headers kw) in
  let kwargs_ := with_headers kw (Some headers) in
  let* access_token := getenv "ACCESS_TOKEN" in
  let access_token := default EmptyString access_token in
  let* _ := update headers (dict_set "Authorization" (VStr ("Bearer " +:+ access_token))) in
  let* response := func kwargs_ in
  let* code := lift (py_get response "code") in
  if negb (py_eq code (VInt 401)) then ret response
  else
    let* client_id := getenv "CLIENT_ID" in
    let* client_secret := getenv "CLIENT_SECRET" in
    let* refreshed := try_permission (get_access_token client_id client_secret) in
    match refreshed with
    | None => ret bad_credentials_payload
    | Some access_token =>
        let* _ := setenv_value "ACCESS_TOKEN" access_token in
        let* _ := update headers
                    (dict_set "Authorization" (VStr ("Bearer " +:+ py_str access_token))) in
        func kwargs_
    end.

(** [ngd_items_request] *)
Definition ngd_items_request : callable U := fun kw =>
  match kw_collection kw with
  | None => raise (TypeError "missing 1 required positional argument: 'collection'")
  | Some collection =>
      let use_latest_collection := default false (kw_use_latest_collection kw) in
      let add_metadata := default true (kw_add_metadata kw) in
      let* query_params := copy_or_empty (kw_query_params kw) in
      let* filter_params := copy_or_empty (kw_filter_params kw) in
      let* headers := copy_or_empty (kw_headers kw) in
      let* collection :=
        if use_latest_collection then
          let* latest := get_specific_latest_collections [collection] in
          match latest, collection with
          | VDict latest, VStr c => ret (default VNone (dict_get c latest))
          | VDict latest, _ => ret VNone
          | _, _ => raise (AttributeError "object has no attribute 'get'")
          end
        else ret collection in
      let* fp := deref filter_params in
      let* _ :=
        if truthy (VDict fp) then
          let* filters := lift (construct_filter_param fp) in
          update query_params
            (fun q => dict_set "filter"
                        (merge_filter (default VNone (dict_get "filter" q)) filters) q)
        else ret tt in
      let* _ :=
        match kw_wkt kw with
        | Some wkt =>
            if wkt_truthy wkt then
              let spatial_filter := wkt_to_spatial_filter wkt in
              update query_params
                (fun q => dict_set "filter"
                            (merge_filter (default VNone (dict_get "filter" q)) spatial_filter) q)
            else ret tt
        | None => ret tt
        end in
      let* q := deref query_params in
      let* q := lift (normalise_crs q) in
      let* _ := update query_params (fun _ => q) in
      let url :=
        "https://api.os.uk/features/ngd/ofa/v1/collections/" +:+ py_str collection +:+ "/items/" in
      let* _ := update headers (dict_remove "host") in
      let* h := deref headers in
      let* response :=
        match kw_request_limit kw, kw_limit kw with
        | None, None => external (get_items svc url q h)
        | _, _ => raise (TypeError "request() got an unexpected keyword argument")
        end in
      let status_code := status_code response in
      match json_body response with
      | inr error_string => ret (decode_error_payload status_code error_string)
      | inl json_response =>
          if (400 <=? status_code)%Z then
            lift (upstream_error_payload status_code json_response)
          else
            let* dimensions := lift (custom_dimensions url collection q json_response) in
            let* _ := external (track_event svc dimensions) in
            let* features := lift (py_item json_response "features") in
            let* features := lift (tag_features "collection" collection features) in
            match json_response with
            | VDict json_response =>
                let json_response := dict_set "features" features json_response in
                let json_response :=
                  if add_metadata
                  then dict_set "numberOfRequests" (VInt 1) json_response
                  else json_response in
                ret (VDict json_response)
            | _ => raise (TypeError "indices must be integers or slices, not str")
            end
      end
  end.

(** The [while] loop of [limit_extension]: [inl] is the early [return] of
    an error payload, [inr] the request count and the features at the exit
    of the loop.  [fuel] bounds the number of iterations. *)
Fixpoint limit_loop (fuel : nat) (func : callable U) (kw : kwargs) (query_params : loc)
    (request_limit limit batch_count final_batchsize : option Z)
    (request_count offset : Z) (features : list value)
  : M U (value + Z * list value) :=
  if negb (eq_opt request_count request_limit) &&
     (falsy limit || match limit with Some l => (offset <? l)%Z | None => false end)
  then
    match fuel with
    | O => fun _ => None
    | S fuel =>
        let* _ :=
          if eq_opt request_count batch_count
          then update query_params (dict_set "limit" (int_or_none final_batchsize))
          else ret tt in
        let* _ := update query_params (dict_set "offset" (VInt offset)) in
        let* json_response :=
          match kw_add_metadata kw with
          | None => func (for_page kw query_params)
          | Some _ => raise (TypeError "got multiple values for keyword argument 'add_metadata'")
          end in
        let* is_error := lift (is_error_response json_response) in
        if (is_error : bool) then ret (inl json_response)
        else
          let request_count := (request_count + 1)%Z in
          let* page := lift (py_item json_response "features") in
          let* page := lift (py_iter page) in
          let features := features ++ page in
          let* next := lift (next_links json_response) in
          match next with
          | [] => ret (inr (request_count, features))
          | _ :: _ =>
              limit_loop fuel func kw query_params request_limit limit batch_count
                final_batchsize request_count (offset + 100)%Z features
          end
    end
  else ret (inr (request_count, features)).

(** [limit_extension(func)], the inner [wrapper]. *)
Definition limit_extension (fuel : nat) (func : callable U) : callable U := fun kw =>
  let request_limit := default (Some 50%Z) (kw_request_limit kw) in
  let limit := default None (kw_limit kw) in
  let* query_params := copy_or_empty (kw_query_params kw) in
  let* q := deref query_params in
  if dict_mem "offset" q then ret offset_payload
  else
    let features := [] in
    let '(batch_count, final_batchsize) :=
      match limit with
      | Some l =>
          if (l =? 0)%Z then (None, None) else (Some (l `div` 100)%Z, Some (l `mod` 100)%Z)
      | None => (None, None)
      end in
    let request_count := 0%Z in
    let offset := 0%Z in
    if falsy limit && falsy request_limit then
      raise (AttributeError "At least one of limit or request_limit must be provided to prevent indefinitely numerous requests and high costs. However, there is no upper limit to these values.")
    else
      let* r := limit_loop fuel func kw query_params request_limit limit batch_count
                  final_batchsize request_count offset features in
      match r with
      | inl json_response => ret json_response
      | inr (request_count, features) =>
          let* time_stamp := now (clock svc) in
          ret (VDict [
            ("type", VStr "FeatureCollection");
            ("numberOfRequests", VInt request_count);
            ("numberReturned", VInt (Z.of_nat (List.length features)));
            ("timeStamp", VStr time_stamp);
            ("collection", default VNone (kw_collection kw));
            ("features", VList features)
          ])
      end.

(** The fan-out loop of [multigeometry_search_extension]: [inl] is the
    early [return] of an error payload, [inr] the list [search_areas]. *)
Fixpoint search_parts (func : callable U) (kw : kwargs) (partial_geoms : list geometry)
    (search_area : Z) (search_areas : list value) : M U (value + list value) :=
  match partial_geoms with
  | [] => ret (inr search_areas)
  | geom :: rest =>
      let* json_response := func (for_part kw geom) in
      let* is_error := lift (is_error_response json_response) in
      if (is_error : bool) then ret (inl json_response)
      else
        match json_response with
        | VDict d =>
            let json_response := VDict (dict_set "searchAreaNumber" (VInt search_area) d) in
            search_parts func kw rest (search_area + 1)%Z (search_areas ++ [json_response])
        | _ => raise (TypeError "object does not support item assignment")
        end
  end.

(** [flatten_search_areas(search_areas)] *)
Definition flatten_search_areas (search_areas : list value) : M U value :=
  let* st := lift (flatten_areas search_areas) in
  let* time_stamp := now (clock svc) in
  ret (flat_geojson st time_stamp).

(** [multigeometry_search_extension(func)], the inner [wrapper]. *)
Definition multigeometry_search_extension (func : callable U) : callable U := fun kw =>
  match kw_wkt kw with
  | None => raise (TypeError "missing 1 required keyword-only argument: 'wkt'")
  | Some wkt =>
      let hierarchical_output := default false (kw_hierarchical_output kw) in
      let full_geom :=
        match wkt with
        | WktStr s => from_wkt svc s
        | WktGeom g => Some g
        end in
      match full_geom with
      | None => ret invalid_geometry_payload
      | Some full_geom =>
          let partial_geoms := multilevel_explode full_geom in
          let* r := search_parts func kw partial_geoms 0%Z [] in
          match r with
          | inl json_response => ret json_response
          | inr search_areas =>
              if hierarchical_output
              then ret (VDict [("searchAreas", VList search_areas)])
              else flatten_search_areas search_areas
          end
      end
  end.

(** [apply_latest_collection(collection)] *)
Definition apply_latest_collection (collection : value) : M U (list value) :=
  let* collection := lift (py_iter collection) in
  let* (has_version, no_version) := lift (partition_versions collection) in
  let* latest := get_specific_latest_collections no_version in
  match latest with
  | VDict latest => ret (dict_values latest ++ has_version)
  | _ => raise (AttributeError "object has no attribute 'values'")
  end.

(** The fan-out loop of [multiple_collections_extension]: [inl] is the
    early [return] of an error payload, [inr] the dictionary [results]. *)
Fixpoint fetch_collections (func : callable U) (kw : kwargs) (hierarchical_output : bool)
    (collection : list value) (results : list (value * value))
  : M U (value + list (value * value)) :=
  match collection with
  | [] => ret (inr results)
  | col :: rest =>
      let* json_response := func (for_collection kw col hierarchical_output) in
      let* code :=
        match json_response with
        | VDict d => ret (default (VInt 200) (dict_get "code" d))
        | _ => raise (AttributeError "object has no attribute 'get'")
        end in
      let* not_supported :=
        if py_eq code (VInt 404) then
          let* description := lift (py_get json_response "description") in
          lift (py_contains "is not a supported Collection" description)
        else ret false in
      if (not_supported : bool) then ret (inl json_response)
      else
        let* failed := lift (py_ge code 400) in
        if (failed : bool) then ret (inl json_response)
        else
          if hashable col
          then fetch_collections func kw hierarchical_output rest
                 (results_set col json_response results)
          else raise (TypeError "unhashable type")
  end.

(** [multiple_collections_extension(func)], the inner [wrapper]. *)
Definition multiple_collections_extension (func : callable U) : callable U := fun kw =>
  match kw_collection kw with
  | None => raise (TypeError "missing 1 required positional argument: 'collection'")
  | Some collection =>
      let hierarchical_output := default false (kw_hierarchical_output kw) in
      let use_latest_collection := default false (kw_use_latest_collection kw) in
      let* collection :=
        if use_latest_collection then apply_latest_collection collection
        else lift (py_iter collection) in
      let* r := fetch_collections func kw hierarchical_output collection [] in
      match r with
      | inl json_response => ret json_response
      | inr results =>
          if hierarchical_output then ret (keyed results)
          else
            let* st := lift (merge_collections results) in
            let* time_stamp := now (clock svc) in
            ret (merged_geojson st time_stamp)
      end
  end.

(** *** The compositions the library exports *)

Definition items : callable U := ngd_items_request.
Definition items_auth : callable U := oauth2_manager items.

Definition items_limit (fuel : nat) : callable U := limit_extension fuel items.
Definition items_geom : callable U := multigeometry_search_extension items.
Definition items_col : callable U := multiple_collections_extension items.
Definition items_limit_geom (fuel : nat) : callable U :=
  multigeometry_search_extension (items_limit fuel).
Definition items_limit_col (fuel : nat) : callable U :=
  multiple_collections_extension (items_limit fuel).
Definition items_geom_col : callable U := multiple_collections_extension items_geom.
Definition items_limit_geom_col (fuel : nat) : callable U :=
  multiple_collections_extension (items_limit_geom fuel).

Definition items_auth_limit (fuel : nat) : callable U := limit_extension fuel items_auth.
Definition items_auth_geom : callable U := multigeometry_search_extension items_auth.
Definition items_auth_col : callable U := multiple_collections_extension items_auth.
Definition items_auth_limit_geom (fuel : nat) : callable U :=
  multigeometry_search_extension (items_auth_limit fuel).
Definition items_auth_limit_col (fuel : nat) : callable U :=
  multiple_collections_extension (items_auth_limit fuel).
Definition items_auth_geom_col : callable U :=
  multiple_collections_extension items_auth_geom.
Definition items_auth_limit_geom_col (fuel : nat) : callable U :=
  multiple_collections_extension (items_auth_limit_geom fuel).

End Effects.

End Azure.

(** ** The Flask variant: [src/app_flask/NGD_API_Wrappers.py]

    The two functions of the older variant that the properties below
    compare with their Azure counterparts. *)

Module Flask.

(** [construct_filter_param], called with the mapping as keyword arguments. *)
Definition construct_filter_param (params : dict) : string :=
  let params :=
    fold_left
      (fun (params : dict) '(k, v) =>
         if pytype_eqb (type_of v) TStr
         then dict_set k (VStr ("'" +:+ py_str v +:+ "'")) params
         else params)
      params params in
  let filter_list :=
    map (fun '(k, v) => "(" +:+ k +:+ "=" +:+ py_str v +:+ ")") params in
  str_join "and" filter_list.

(** [re.sub(r'-\d+$', '', c)], with ASCII digits. *)
Definition strip_version (c : string) : string :=
  match split_last_hyphen c with
  | Some (b, v) =>
      if negb (String.eqb v EmptyString) && forallb is_digit (list_ascii_of_string v)
      then b else c
  | None => c
  end.

(** [c.split('-')[-1]] *)
Definition last_segment (c : string) : string :=
  match split_last_hyphen c with
  | Some (_, v) => v
  | None => c
  end.

(** [set(l)], listed in order of first appearance. *)
Fixpoint distinct (l : list string) : list string :=
  match l with
  | [] => []
  | x :: l' => x :: List.filter (fun y => negb (String.eqb x y)) (distinct l')
  end.

(** [max(l, key=lambda c: int(c.split('-')[-1]))]: the first of the
    elements whose key is largest. *)
Fixpoint max_by_version (best : string) (best_key : Z) (l : list string)
  : outcome string :=
  match l with
  | [] => Ret best
  | c :: l' =>
      let? k := py_int (last_segment c) in
      if (best_key <? k)%Z then max_by_version c k l'
      else max_by_version best best_key l'
  end.

Definition latest_of (all_versions : list string) : outcome string :=
  match all_versions with
  | [] => Raise (ValueError "max() arg is an empty sequence")
  | c :: rest =>
      let? k := py_int (last_segment c) in
      max_by_version c k rest
  end.

(** Lines 381-387 of [get_latest_collection_versions]: from the list of
    identifiers to [output_lookup]. *)
Definition output_lookup_of (collections_list : list string) : outcome dict :=
  let collection_base_names := distinct (map strip_version collections_list) in
  for_each
    (fun (output_lookup : dict) base_name =>
       let all_versions := List.filter (fun c => str_prefix base_name c) collections_list in
       let? latest_version := latest_of all_versions in
       Ret (dict_set base_name (VStr latest_version) output_lookup))
    collection_base_names [].

End Flask.

(** ** Journals and test doubles

    What a wrapper asks of the function it wraps is observed from outside:
    [traced func] behaves as [func] and writes every call, with its result,
    into a journal kept beside the state of the outside world.  The wrappers
    are generic in that state, so they run unchanged over a traced
    function. *)

Inductive event : Type :=
| Called (kw : kwargs) (r : outcome value)
| Requested (url : string) (params headers : dict)
| Listed
| Posted (client_id client_secret : option string) (r : outcome http_response).

Abbreviation journal := (list event).

Section Traced.
Context {U : Type}.

Definition inner (w : world (U * journal)) : world U :=
  {| heap := heap w; environ := environ w; ext := fst (ext w) |}.

Definition outer (w : world U) (j : journal) : world (U * journal) :=
  {| heap := heap w; environ := environ w; ext := (ext w, j) |}.

Definition journal_of (w : world (U * journal)) : journal := snd (ext w).

Definition traced (func : callable U) : callable (U * journal) := fun kw w =>
  match func kw (inner w) with
  | Some (r, w') => Some (r, outer w' (journal_of w ++ [Called kw r]))
  | None => None
  end.

Definition logging {A} (e : outcome A -> event) (f : U -> outcome A * U)
  : U * journal -> outcome A * (U * journal) :=
  fun u => let '(r, u') := f (fst u) in (r, (u', snd u ++ [e r])).

Definition traced_services (svc : services U) : services (U * journal) :=
  {| clock := fun u => clock svc (fst u);
     get_items := fun url q h =>
       logging (fun _ => Requested url q h) (get_items svc url q h);
     get_collections := logging (fun _ => Listed) (get_collections svc);
     post_token := fun i s => logging (Posted i s) (post_token svc i s);
     track_event := fun dims u =>
       let '(o, u') := track_event svc dims (fst u) in (o, (u', snd u));
     cutoff := fun d u => cutoff svc d (fst u);
     strptime := strptime svc;
     from_wkt := from_wkt svc |}.

End Traced.

(** An empty process: no dictionary objects, no environment variables. *)
Definition start {U} (u : U) : world U :=
  {| heap := []; environ := []; ext := u |}.

(** Collaborators that are never reached, or answer nothing of interest. *)
Definition idle_services (U : Type) : services U :=
  {| clock := fun _ => "2024-01-01T00:00:00";
     get_items := fun _ _ _ u => (Raise (TransportError "unreachable"), u);
     get_collections := fun u => (Raise (TransportError "unreachable"), u);
     post_token := fun _ _ u => (Raise (TransportError "unreachable"), u);
     track_event := fun _ u => (Ret tt, u);
     cutoff := fun _ _ => Ret 0%Z;
     strptime := fun _ => Ret 0%Z;
     from_wkt := fun _ => None |}.

(** *** A paged upstream

    A stand-in for the wrapped fetcher: it holds [total] features, serves
    at most 100 of them from [offset], honours a smaller [limit], links to
    the next page while features remain, and keeps the query parameters of
    every request it receives. *)

Definition numbered_features (first count : nat) : list value :=
  map (fun i => VDict [("id", VInt (Z.of_nat i)); ("properties", VDict [])])
      (seq first count).

Definition paged_upstream (total : nat) : callable (list dict) := fun kw w =>
  let q :=
    match kw_query_params kw with
    | Some l => default [] (heap w !! l)
    | None => []
    end in
  let offset :=
    match dict_get "offset" q with
    | Some (VInt n) => Z.to_nat n
    | _ => 0
    end in
  let limit :=
    match dict_get "limit" q with
    | Some (VInt n) => Nat.min (Z.to_nat n) 100
    | _ => 100
    end in
  let count := Nat.min limit (total - offset) in
  let links :=
    if (offset + count <? total)%nat
    then [VDict [("rel", VStr "self")]; VDict [("rel", VStr "next")]]
    else [VDict [("rel", VStr "self")]] in
  Some (Ret (VDict [
          ("type", VStr "FeatureCollection");
          ("features", VList (numbered_features offset count));
          ("numberReturned", VInt (Z.of_nat count));
          ("links", VList links)]),
        {| heap := heap w; environ := environ w; ext := ext w ++ [q] |}).

Definition with_limit (limit : Z) : kwargs :=
  {| kw_collection := Some (VStr "bld-fts-buildingline-2");
     kw_query_params := None; kw_filter_params := None; kw_wkt := None;
     kw_use_latest_collection := None; kw_add_metadata := None;
     kw_headers := None; kw_hierarchical_output := None;
     kw_request_limit := None; kw_limit := Some (Some limit) |}.

(** ** Predicates and inputs the properties are stated with *)

(** What the filter builder is meant to write for one key and value. *)
Definition quoted (v : value) : string :=
  match v with
  | VStr s => "'" +:+ s +:+ "'"
  | _ => py_str v
  end.

Definition predicate (kv : string * value) : string :=
  "(" +:+ fst kv +:+ "=" +:+ quoted (snd kv) +:+ ")".

Definition quote_value (kv : string * value) : string * value :=
  match snd kv with
  | VStr s => (fst kv, VStr ("'" +:+ s +:+ "'"))
  | _ => kv
  end.

(** The mapping an optional dictionary argument stands for. *)
Definition contents {U} (w : world U) (x : option loc) : dict :=
  match x with
  | Some l => default [] (heap w !! l)
  | None => []
  end.

(** Keyword arguments with neither [limit] nor [request_limit]. *)
Definition unbounded : kwargs :=
  {| kw_collection := Some (VStr "bld-fts-buildingline-2");
     kw_query_params := None; kw_filter_params := None; kw_wkt := None;
     kw_use_latest_collection := None; kw_add_metadata := None;
     kw_headers := None; kw_hierarchical_output := None;
     kw_request_limit := Some None; kw_limit := None |}.

(** A wrapped function that answers every call with an empty page. *)
Definition empty_page : value :=
  VDict [("type", VStr "FeatureCollection"); ("features", VList []);
         ("numberReturned", VInt 0); ("links", VList [])].

Definition always {U} (v : value) : callable U := fun _ => ret v.

(** An error payload, as the data model has it: a mapping with an integer
    [code] of 400 or more and a [description] that is a string or an
    object. *)
Definition ErrorPayload (e : value) : Prop :=
  exists d c descr,
    e = VDict d /\
    dict_get "code" d = Some (VInt c) /\ (400 <= c)%Z /\
    dict_get "description" d = Some descr /\
    (type_of descr = TStr \/ type_of descr = TDict).

(** A computation that writes nothing into the journal. *)
Definition quiet {U A} (c : M (U * journal) A) : Prop :=
  forall w r w', c w = Some (r, w') -> journal_of w' = journal_of w.






Definition returned (r : outcome value) : option value :=
  match r with
  | Ret v => Some v
  | Raise _ => None
  end.


(** A computation that may log requests, but calls no wrapped function. *)
Definition harmless {U A} (c : M (U * journal) A) : Prop :=
  forall w r w',
    c w = Some (r, w') ->
    exists evs,
      journal_of w' = journal_of w ++ evs /\
      Forall (fun ev => forall kw r, ev <> Called kw r) evs.

(** A wrapped function that gives prepared answers, one per call, and
    counts the calls; past the last answer it returns [None]. *)
Definition scripted (answers : list value) : callable nat := fun _ w =>
  Some (Ret (default VNone (answers !! ext w)),
        {| heap := heap w; environ := environ w; ext := Datatypes.S (ext w) |}).

Definition full_page : value :=
  VDict [("type", VStr "FeatureCollection");
         ("features", VList [VDict [("id", VStr "a"); ("properties", VDict [])]]);
         ("numberReturned", VInt 1);
         ("links", VList [VDict [("rel", VStr "next")]])].






(** A token endpoint with one fixed answer, and the answers used below. *)
Definition token_services (answer : http_response) : services nat :=
  {| clock := fun _ => "2024-01-01T00:00:00";
     get_items := fun _ _ _ u => (Raise (TransportError "unreachable"), u);
     get_collections := fun u => (Raise (TransportError "unreachable"), u);
     post_token := fun _ _ u => (Ret answer, u);
     track_event := fun _ u => (Ret tt, u);
     cutoff := fun _ _ => Ret 0%Z;
     strptime := fun _ => Ret 0%Z;
     from_wkt := fun _ => None |}.

Definition token_granted : http_response :=
  {| status_code := 200; json_body := inl (VDict [("access_token", VStr "fresh")]) |}.




Definition stale : value :=
  VDict [("code", VInt 401);
         ("description", VStr "Invalid or expired access token");
         ("errorSource", VStr "OS NGD API")].

Definition on_collection (name : string) : kwargs :=
  {| kw_collection := Some (VStr name);
     kw_query_params := None; kw_filter_params := None; kw_wkt := None;
     kw_use_latest_collection := None; kw_add_metadata := None;
     kw_headers := None; kw_hierarchical_output := None;
     kw_request_limit := None; kw_limit := None |}.

(** *** A catalogue and an items endpoint

    The catalogue of the specification's example.  The items endpoint keeps
    the URL of every request; it has an empty page for the one collection
    [bld-fts-buildingline-2] and answers anything else as the upstream does
    for an unknown collection. *)

Definition example_catalogue : value :=
  VDict [("collections", VList [
    VDict [("id", VStr "bld-fts-buildingline-1")];
    VDict [("id", VStr "bld-fts-buildingline-2")];
    VDict [("id", VStr "trn-ntwk-street-1")]])].

Definition unknown_collection : value :=
  VDict [("code", VInt 404);
         ("description", VStr "Collection is not a supported Collection. Please refer to the documentation for a list of supported Collections.");
         ("help", VStr "https://api.os.uk/features/ngd/ofa/v1/collections")].

Definition catalogue_services : services (list string) :=
  {| clock := fun _ => "2024-01-01T00:00:00";
     get_items := fun url _ _ u =>
       (Ret (if String.eqb url
                  "https://api.os.uk/features/ngd/ofa/v1/collections/bld-fts-buildingline-2/items/"
             then {| status_code := 200; json_body := inl empty_page |}
             else {| status_code := 404; json_body := inl unknown_collection |}),
        u ++ [url]);
     get_collections := fun u =>
       (Ret {| status_code := 200; json_body := inl example_catalogue |}, u);
     post_token := fun _ _ u => (Raise (TransportError "unreachable"), u);
     track_event := fun _ u => (Ret tt, u);
     cutoff := fun _ _ => Ret 0%Z;
     strptime := fun _ => Ret 0%Z;
     from_wkt := fun _ => None |}.

(** [collection=[...], use_latest_collection=True] *)
Definition latest_of_collections (names : list string) : kwargs :=
  {| kw_collection := Some (VList (map VStr names));
     kw_query_params := None; kw_filter_params := None; kw_wkt := None;
     kw_use_latest_collection := Some true; kw_add_metadata := None;
     kw_headers := None; kw_hierarchical_output := None;
     kw_request_limit := None; kw_limit := None |}.

(** *** Frames

    A computation frames the first [n] dictionary objects if, started in a
    store that has them, it finishes with them unchanged.  A computation
    that does this for every [n] changes no object that existed when it
    started: all it writes goes to objects it created. *)
Definition frames {U A} (n : nat) (c : M U A) : Prop :=
  forall w r w',
    c w = Some (r, w') -> (n <= List.length (heap w))%nat ->
    take n (heap w') = take n (heap w) /\
    (List.length (heap w) <= List.length (heap w'))%nat.

Definition keeps_heap {U} (func : callable U) : Prop :=
  forall kw n, frames n (func kw).

Definition heap_neutral {U A} (c : M U A) : Prop :=
  forall w r w', c w = Some (r, w') -> heap w' = heap w.

(** A caller with one dictionary object, passed as [query_params]. *)
Definition caller_world : world unit :=
  {| heap := [[("limit", VInt 10)]]; environ := []; ext := tt |}.

Definition caller_kwargs : kwargs :=
  {| kw_collection := Some (VStr "bld-fts-buildingline-2");
     kw_query_params := Some 0%nat; kw_filter_params := None; kw_wkt := None;
     kw_use_latest_collection := None; kw_add_metadata := None;
     kw_headers := None; kw_hierarchical_output := None;
     kw_request_limit := None; kw_limit := Some (Some 5%Z) |}.

(** *** Result sets *)

(** [numberReturned] is the length of [features]. *)
Definition counts_features (res : value) : Prop :=
  exists d fs,
    res = VDict d /\
    dict_get "features" d = Some (VList fs) /\
    dict_get "numberReturned" d = Some (VInt (Z.of_nat (List.length fs))).

Definition has_id (f id : value) : Prop := py_item f "id" = Ret id.

(** No identifier equals ([==]) one that comes later in the list. *)
Definition pairwise_distinct (ids : list value) : Prop :=
  forall i j x y,
    (i < j)%nat -> ids !! i = Some x -> ids !! j = Some y -> py_eq x y = false.

(** The features of a result have identifiers, pairwise distinct. *)
Definition distinct_ids (res : value) : Prop :=
  exists d fs ids,
    res = VDict d /\
    dict_get "features" d = Some (VList fs) /\
    Forall2 has_id fs ids /\ pairwise_distinct ids.

(** The invariant of [flatten_search_areas]. *)
Definition flat_invariant (st : Azure.flat_state) : Prop :=
  Forall2 has_id (Azure.fs_features st) (Azure.fs_ids st) /\
  pairwise_distinct (Azure.fs_ids st) /\
  Azure.fs_returned st = Z.of_nat (List.length (Azure.fs_features st)).

(** What one turn of the inner loop keeps. *)
Definition merge_invariant (n : nat) (st : list value * list value * list value) : Prop :=
  let '(geojson_fts, new_features, ids) := st in
  Forall2 has_id (geojson_fts ++ new_features) ids /\
  pairwise_distinct ids /\
  List.length geojson_fts = n.

(** What a computation returns, when it returns. *)
Definition yields {U A} (c : M U A) (P : A -> Prop) : Prop :=
  forall w a w', c w = Some (Ret a, w') -> P a.

(** *** The areas of a search, as [flatten_search_areas] reads them *)

(** The features of an area: what its [features] iterates over. *)
Definition area_features (area : value) : list value :=
  match area with
  | VDict d =>
      match dict_get "features" d with
      | Some v => match py_iter v with Ret l => l | Raise _ => [] end
      | None => []
      end
  | _ => []
  end.

Definition area_number (area : value) : option value :=
  match area with
  | VDict d => dict_get "searchAreaNumber" d
  | _ => None
  end.

Definition area_requests (area : value) : Z :=
  match area with
  | VDict d =>
      match dict_get "numberOfRequests" d with
      | Some v => default 0%Z (as_int v)
      | None => 0%Z
      end
  | _ => 0%Z
  end.

Definition sum_requests (areas : list value) : Z :=
  fold_right (fun area acc => (area_requests area + acc)%Z) 0%Z areas.

(** Two identifiers that are not equal, whichever is asked first. *)
Definition differs (x y : value) : Prop :=
  py_eq x y = false /\ py_eq y x = false.

(** No feature of the list has the identifier [x]. *)
Definition absent (x : value) (fts : list value) : Prop :=
  forall q gq y, fts !! q = Some gq -> has_id gq y -> differs x y.

(** The feature with identifier [x] is the one at position [p], tagged
    with [san] and otherwise as [g0], and no other feature has that
    identifier. *)
Definition tracked_at (x san : value) (g0 : dict) (p : nat) (fts : list value) : Prop :=
  (exists g,
     fts !! p = Some (VDict g) /\
     dict_get "id" g = Some x /\
     dict_get "searchAreaNumber" g = Some san /\
     forall k, k <> "searchAreaNumber" -> dict_get k g = dict_get k g0) /\
  forall q gq y, q <> p -> fts !! q = Some gq -> has_id gq y -> differs x y.

(** A feature, and a search area as the fan-out loop leaves it. *)
Definition feature (id : string) : value :=
  VDict [("id", VStr id); ("properties", VDict [])].

Definition search_area (number : Z) (features : list value) : value :=
  VDict [("type", VStr "FeatureCollection");
         ("features", VList features);
         ("numberOfRequests", VInt 1);
         ("searchAreaNumber", VInt number)].

(** *** Catalogues

    A catalogue entry of the form base-version, and the versions a
    catalogue lists for a base name. *)
Definition name_of (e : string * N) : string :=
  fst e +:+ "-" +:+ pretty (snd e).

Definition versions_of (b : string) (entries : list (string * N)) : list Z :=
  map (fun e => Z.of_N (snd e)) (List.filter (fun e => String.eqb b (fst e)) entries).

Definition latest_name (bvs : string * list Z) : string * value :=
  (fst bvs,
   VStr (fst bvs +:+ "-" +:+ pretty (fold_left Z.max (tl (snd bvs)) (hd 0%Z (snd bvs))))).

(** The relation between a feature and what the first loop of
    [flatten_search_areas] makes of it. *)
Definition tagged (san f f' : value) : Prop :=
  Azure.tag_feature "searchAreaNumber" san f = Ret f'.

(** An identifier that is a string or an integer, as those of features
    are. *)
Definition plain_id (y : value) : Prop :=
  match y with
  | VStr _ | VInt _ => True
  | _ => False
  end.

(** The identifiers of the features that have one, and the identifiers in
    the order in which they are first seen. *)
Definition feature_ids (features : list value) : list value :=
  List.flat_map
    (fun f => match py_item f "id" with Ret y => [y] | Raise _ => [] end) features.

Definition seen_step (seen : list value) (y : value) : list value :=
  if py_in y seen then seen else seen ++ [y].

Definition first_seen (ids : list value) : list value := fold_left seen_step ids [].

(** The features with the identifier [x] that the parts returned, each with
    the number of its part, in the order of the parts. *)
Definition carries (x f : value) : bool :=
  match py_item f "id" with
  | Ret y => py_eq y x
  | Raise _ => false
  end.

Definition area_occurrences (x area : value) : list (value * value) :=
  match area_number area with
  | Some san => map (fun f => (san, f)) (List.filter (carries x) (area_features area))
  | None => []
  end.

Definition occurrences (x : value) (areas : list value) : list (value * value) :=
  List.flat_map (area_occurrences x) areas.

(** The tag of a feature returned by the part [san0] and then by the
    parts [later]: the number of the part while there is one part, the
    list of the numbers from the second part on. *)
Definition promoted (san0 : value) (later : list (value * value)) : value :=
  match later with
  | [] => san0
  | _ :: _ => VList (san0 :: map fst later)
  end.

(** What the loops keep for the identifier [x]: nothing if no part
    returned it; otherwise one feature, which is the first one returned
    with [x], as tagged with the number of its part, but for its
    [searchAreaNumber]. *)
Definition merged (x : value) (occ : list (value * value)) (fs : list value) : Prop :=
  match occ with
  | [] => absent x fs
  | (san0, f0) :: later =>
      exists p g0,
        tagged san0 f0 (VDict g0) /\ tracked_at x (promoted san0 later) g0 p fs
  end.

(** What the flattened list holds for the identifier [x], returned by the
    parts as [occ] tells.  If no part returned it, no feature has it.
    Otherwise exactly one feature has it: its [searchAreaNumber] tells all
    the parts that returned [x]; its properties are those of the first
    feature returned with [x], with the number of that first part for
    [searchAreaNumber]; its other members are those of that first
    feature. *)
Definition listed (x : value) (occ : list (value * value)) (fs : list value) : Prop :=
  match occ with
  | [] => absent x fs
  | (san0, f0) :: later =>
      exists p g,
        fs !! p = Some (VDict g) /\
        dict_get "id" g = Some x /\
        dict_get "searchAreaNumber" g = Some (promoted san0 later) /\
        (exists properties0 properties,
           py_item f0 "properties" = Ret (VDict properties0) /\
           dict_get "properties" g = Some (VDict properties) /\
           dict_get "searchAreaNumber" properties = Some san0 /\
           forall k, k <> "searchAreaNumber" ->
                     dict_get k properties = dict_get k properties0) /\
        (forall k, k <> "searchAreaNumber" -> k <> "properties" ->
                   py_item (VDict g) k = py_item f0 k) /\
        (forall q gq y, q <> p -> fs !! q = Some gq -> has_id gq y -> differs x y)
  end.

(** Three search areas: [a], [b] from part 0, [b], [c] from part 1 and
    [c], [b] from part 2. *)
Definition three_areas : list value :=
  [search_area 0 [feature "a"; feature "b"];
   search_area 1 [feature "b"; feature "c"];
   search_area 2 [feature "c"; feature "b"]].

(** A string without a hyphen. *)
Fixpoint hyphen_free (s : string) : bool :=
  match s with
  | EmptyString => true
  | String c s' => negb (Ascii.eqb c "-") && hyphen_free s'
  end.

(** ** Bounding boxes: [construct_bbox_filter]

    The function is the same in the two variants.  Coordinates are
    integers here; [None] is a coordinate that was not given. *)

(** The argument [bbox_tuple]: a tuple or a string. *)
Inductive bbox_arg : Type :=
| BboxTuple (t : list value)
| BboxStr (s : string).

(** [str(t)] for a tuple [t]. *)
Definition tuple_str (t : list value) : string :=
  match t with
  | [x] => "(" +:+ py_repr x +:+ ",)"
  | _ => "(" +:+ str_join ", " (map py_repr t) +:+ ")"
  end.

Definition bbox_truthy (b : option bbox_arg) : bool :=
  match b with
  | Some (BboxTuple t) => match t with [] => false | _ => true end
  | Some (BboxStr s) => negb (String.eqb s EmptyString)
  | None => false
  end.

Definition bbox_str (b : option bbox_arg) : string :=
  match b with
  | Some (BboxTuple t) => tuple_str t
  | Some (BboxStr s) => s
  | None => "None"
  end.

(** [s[:-1]] and [s[1:-1]] *)
Fixpoint str_init (s : string) : string :=
  match s with
  | EmptyString => EmptyString
  | String c s' =>
      match s' with
      | EmptyString => EmptyString
      | String _ _ => String c (str_init s')
      end
  end.

Definition str_inner (s : string) : string := str_init (str_drop 1 s).

(** [a > b] for two coordinates. *)
Definition py_gt (a b : option Z) : outcome bool :=
  match a, b with
  | Some a, Some b => Ret (b <? a)%Z
  | _, _ => Raise (TypeError "'>' not supported between these operands")
  end.

Definition construct_bbox_filter (bbox_tuple : option bbox_arg)
    (xmin ymin xmax ymax : option Z) : outcome string :=
  if bbox_truthy bbox_tuple
  then Ret (str_replace " " EmptyString (str_inner (bbox_str bbox_tuple)))
  else
    let? list_ :=
      for_each
        (fun list_ z =>
           match z with
           | None =>
               Raise (AttributeError "You must provide either bbox_tuple or all of [xmin, ymin, xmax, ymax]")
           | Some z => Ret (list_ ++ [pretty z])
           end)
        [xmin; ymin; xmax; ymax] [] in
    let? wrong := py_gt xmin xmax in
    if (wrong : bool) then Raise (ValueError "xmax must be greater than xmin")
    else
      let? wrong := py_gt ymin ymax in
      if (wrong : bool) then Raise (ValueError "ymax must be greater than ymin")
      else Ret (str_join "," list_).

(** A string without blanks, and a string with its blanks taken out. *)
Fixpoint space_free (s : string) : bool :=
  match s with
  | EmptyString => true
  | String c s' => negb (Ascii.eqb c " ") && space_free s'
  end.

Fixpoint without_spaces (s : string) : string :=
  match s with
  | EmptyString => EmptyString
  | String c s' =>
      if Ascii.eqb c " " then without_spaces s' else String c (without_spaces s')
  end.

(** The four numbers of a box, separated by commas. *)
Definition box (a b c d : Z) : string :=
  str_join "," [pretty a; pretty b; pretty c; pretty d].

(** ** Coordinate reference systems *)

(** What the loop of [ngd_items_request] over the query parameters makes
    of one of them. *)
Definition spelled_out (kv : string * value) : string * value :=
  if str_contains "crs" (fst kv) && subtype (type_of (snd kv)) TInt
  then (fst kv, VStr ("http://www.opengis.net/def/crs/EPSG/0/" +:+ py_str (snd kv)))
  else kv.

(** ** The request of [ngd_items_request] *)

(** The world with further dictionary objects, created after those of
    [w]. *)
Definition grown {U} (w : world U) (objs : list dict) : world U :=
  with_heap w (heap w ++ objs).

(** A reference a caller may pass: it points to an object that exists. *)
Definition valid {U} (w : world U) (x : option loc) : Prop :=
  match x with
  | Some l => (l < List.length (heap w))%nat
  | None => True
  end.

(** The query parameters once the search area is added to [filter]. *)
Definition with_spatial_filter (wkt : option wkt_arg) (q : dict) : dict :=
  match wkt with
  | Some wkt =>
      if wkt_truthy wkt
      then dict_set "filter"
             (Azure.merge_filter (default VNone (dict_get "filter" q))
                (Azure.wkt_to_spatial_filter wkt)) q
      else q
  | None => q
  end.

Definition items_url (collection : value) : string :=
  "https://api.os.uk/features/ngd/ofa/v1/collections/" +:+ py_str collection +:+ "/items/".

(** What [ngd_items_request] does with the response: lines 287-336. *)
Definition respond {U} (svc : services U) (url : string) (collection : value)
    (q : dict) (add_metadata : bool) (response : http_response) : M U value :=
  let status_code := status_code response in
  match json_body response with
  | inr error_string => ret (Azure.decode_error_payload status_code error_string)
  | inl json_response =>
      if (400 <=? status_code)%Z then
        lift (Azure.upstream_error_payload status_code json_response)
      else
        let* dimensions :=
          lift (Azure.custom_dimensions url collection q json_response) in
        let* _ := external (track_event svc dimensions) in
        let* features := lift (py_item json_response "features") in
        let* features := lift (Azure.tag_features "collection" collection features) in
        match json_response with
        | VDict json_response =>
            let json_response := dict_set "features" features json_response in
            let json_response :=
              if add_metadata
              then dict_set "numberOfRequests" (VInt 1) json_response
              else json_response in
            ret (VDict json_response)
        | _ => raise (TypeError "indices must be integers or slices, not str")
        end
  end.

(** Keyword arguments of a plain request: no [limit] or [request_limit],
    which the fetcher would hand to [requests.get], and mappings that
    exist. *)
Definition plain_request {U} (w : world U) (kw : kwargs) : Prop :=
  kw_request_limit kw = None /\ kw_limit kw = None /\
  valid w (kw_filter_params kw) /\ valid w (kw_headers kw).

(** An upstream with one answer to every request for items. *)
Definition answering (response : http_response) : services unit :=
  {| clock := fun _ => "2024-01-01T00:00:00";
     get_items := fun _ _ _ u => (Ret response, u);
     get_collections := fun u => (Raise (TransportError "unreachable"), u);
     post_token := fun _ _ u => (Raise (TransportError "unreachable"), u);
     track_event := fun _ u => (Ret tt, u);
     cutoff := fun _ _ => Ret 0%Z;
     strptime := fun _ => Ret 0%Z;
     from_wkt := fun _ => None |}.

(** A caller with three dictionary objects: query parameters, attribute
    filters and headers. *)
Definition request_world {U} (u : U) : world U :=
  {| heap := [[("crs", VInt 27700); ("filter", VStr "a=1")];
              [("oslandcovertierb", VStr "Water")];
              [("host", VStr "localhost"); ("accept", VStr "application/json")]];
     environ := []; ext := u |}.

(** [collection, query_params=..., headers=..., wkt=...] *)
Definition request_kwargs (wkt : string) : kwargs :=
  {| kw_collection := Some (VStr "bld-fts-buildingline-2");
     kw_query_params := Some 0%nat; kw_filter_params := None;
     kw_wkt := Some (WktStr wkt);
     kw_use_latest_collection := None; kw_add_metadata := None;
     kw_headers := Some 2%nat; kw_hierarchical_output := None;
     kw_request_limit := None; kw_limit := None |}.

(** The same with [filter_params=...]. *)
Definition filtered_kwargs : kwargs :=
  {| kw_collection := Some (VStr "bld-fts-buildingline-2");
     kw_query_params := Some 0%nat; kw_filter_params := Some 1%nat;
     kw_wkt := None;
     kw_use_latest_collection := None; kw_add_metadata := None;
     kw_headers := Some 2%nat; kw_hierarchical_output := None;
     kw_request_limit := None; kw_limit := None |}.

(** The body of a failed response that [ngd_items_request] turns into an
    error payload: its [description] is missing, empty or a string, and in
    the last case its [code], if it has one, is an integer from 400 on. *)
Definition plain_failure (d : dict) : Prop :=
  match dict_get "description" d with
  | None => True
  | Some descr =>
      truthy descr = false \/
      ((exists s, descr = VStr s) /\
       match dict_get "code" d with
       | None => True
       | Some c => exists n, c = VInt n /\ (400 <= n)%Z
       end)
  end.







(** A feature at a point. *)
Definition placed (id : string) (x y : Z) : value :=
  VDict [("id", VStr id);
         ("geometry", VDict [("type", VStr "Point");
                             ("coordinates", VList [VInt x; VInt y])]);
         ("properties", VDict [])].

Definition forbidden : http_response :=
  {| status_code := 403; json_body := inl (VDict [("message", VStr "Forbidden")]) |}.

Definition one_feature : http_response :=
  {| status_code := 200;
     json_body := inl (VDict [("type", VStr "FeatureCollection");
                              ("features", VList [placed "a" 1 2]);
                              ("numberReturned", VInt 1);
                              ("links", VList [])]) |}.

(** The keyword arguments with another collection, named in full. *)
Definition for_named (kw : kwargs) (collection : value) : kwargs :=
  {| kw_collection := Some collection; kw_query_params := kw_query_params kw;
     kw_filter_params := kw_filter_params kw; kw_wkt := kw_wkt kw;
     kw_use_latest_collection := Some false;
     kw_add_metadata := kw_add_metadata kw; kw_headers := kw_headers kw;
     kw_hierarchical_output := kw_hierarchical_output kw;
     kw_request_limit := kw_request_limit kw; kw_limit := kw_limit kw |}.

(** [collection, use_latest_collection=True] *)
Definition latest_kwargs (name : string) : kwargs :=
  {| kw_collection := Some (VStr name);
     kw_query_params := None; kw_filter_params := None; kw_wkt := None;
     kw_use_latest_collection := Some true; kw_add_metadata := None;
     kw_headers := None; kw_hierarchical_output := None;
     kw_request_limit := None; kw_limit := None |}.

(** ** What a run writes into the journal *)

(** A run extends the journal by events that, with the result of the run,
    satisfy [P]. *)
Definition logs {U A} (P : journal -> outcome A -> Prop) (c : M (U * journal) A)
  : Prop :=
  forall w r w',
    c w = Some (r, w') ->
    exists evs, journal_of w' = journal_of w ++ evs /\ P evs r.

(** The calls of the pagination loop, started with [rc] requests made and
    at [offset]: each call passes the loop's own query parameters; their
    number stays within what [request_limit] leaves, and the last of them
    starts below [limit]; a loop that runs to its end has counted them. *)
Definition page_calls (kw : kwargs) (q : loc) (rl l : option Z) (rc offset : Z)
    (evs : journal) (r : outcome (value + Z * list value)) : Prop :=
  Forall (fun ev => exists ri, ev = Called (Azure.for_page kw q) ri) evs /\
  (forall n, rl = Some n -> (rc <= n)%Z -> (rc + Z.of_nat (List.length evs) <= n)%Z) /\
  (forall lim, l = Some lim -> (0 < lim)%Z ->
     evs = [] \/ (offset + 100 * (Z.of_nat (List.length evs) - 1) < lim)%Z) /\
  match r with
  | Ret (inr (rc', _)) => rc' = (rc + Z.of_nat (List.length evs))%Z
  | _ => True
  end.

(** A computation that finishes from every state. *)
Definition total {U A} (c : M U A) : Prop :=
  forall w, exists r w', c w = Some (r, w').

(** Keyword arguments with [request_limit=2] and a query. *)
Definition two_requests : kwargs :=
  {| kw_collection := Some (VStr "bld-fts-buildingline-2");
     kw_query_params := None; kw_filter_params := None; kw_wkt := None;
     kw_use_latest_collection := None; kw_add_metadata := None;
     kw_headers := None; kw_hierarchical_output := None;
     kw_request_limit := Some (Some 2%Z); kw_limit := None |}.

(** ** What the wrapped function is shown

    A wrapped function receives its mappings by reference: what it reads
    from them is what they hold at the time of the call.  [watched func]
    behaves as [func] and keeps, for every call, what the query parameters
    and the headers held and what token the environment had. *)

Record sight := {
  seen_params : dict;
  seen_headers : dict;
  seen_token : option string
}.

Section Watched.
Context {U : Type}.

Definition behind (w : world (U * list sight)) : world U :=
  {| heap := heap w; environ := environ w; ext := fst (ext w) |}.

Definition sights_of (w : world (U * list sight)) : list sight := snd (ext w).

Definition sight_at (kw : kwargs) (w : world (U * list sight)) : sight :=
  {| seen_params := contents w (kw_query_params kw);
     seen_headers := contents w (kw_headers kw);
     seen_token := env_lookup "ACCESS_TOKEN" (environ w) |}.

Definition watched (func : callable U) : callable (U * list sight) := fun kw w =>
  match func kw (behind w) with
  | Some (r, w') =>
      Some (r, {| heap := heap w'; environ := environ w';
                  ext := (ext w', sights_of w ++ [sight_at kw w]) |})
  | None => None
  end.

(** The collaborators, which take no notice of what is kept. *)
Definition beside (svc : services U) : services (U * list sight) :=
  {| clock := fun u => clock svc (fst u);
     get_items := fun url q h u =>
       let '(r, u') := get_items svc url q h (fst u) in (r, (u', snd u));
     get_collections := fun u =>
       let '(r, u') := get_collections svc (fst u) in (r, (u', snd u));
     post_token := fun i s u =>
       let '(r, u') := post_token svc i s (fst u) in (r, (u', snd u));
     track_event := fun dims u =>
       let '(o, u') := track_event svc dims (fst u) in (o, (u', snd u));
     cutoff := fun d u => cutoff svc d (fst u);
     strptime := strptime svc;
     from_wkt := from_wkt svc |}.

(** A function that leaves in place the objects it finds. *)
Definition grows (func : callable U) : Prop :=
  forall kw w r w',
    func kw w = Some (r, w') -> (List.length (heap w) <= List.length (heap w'))%nat.

End Watched.

(** Keyword arguments with [limit=250] and query parameters of the
    caller's. *)
Definition limited_kwargs : kwargs :=
  {| kw_collection := Some (VStr "bld-fts-buildingline-2");
     kw_query_params := Some 0%nat; kw_filter_params := None; kw_wkt := None;
     kw_use_latest_collection := None; kw_add_metadata := None;
     kw_headers := None; kw_hierarchical_output := None;
     kw_request_limit := None; kw_limit := Some (Some 250%Z) |}.

(** ** Search areas *)

Definition is_atomic (g : geometry) : bool :=
  match g with
  | Atomic _ _ _ => true
  | Multi _ _ => false
  end.







(** The sixteen compositions the library exports. *)
Definition exported {U} (svc : services U) (fuel : nat) : list (callable U) :=
  [Azure.items svc; Azure.items_auth svc;
   Azure.items_limit svc fuel; Azure.items_geom svc; Azure.items_col svc;
   Azure.items_limit_geom svc fuel; Azure.items_limit_col svc fuel;
   Azure.items_geom_col svc; Azure.items_limit_geom_col svc fuel;
   Azure.items_auth_limit svc fuel; Azure.items_auth_geom svc; Azure.items_auth_col svc;
   Azure.items_auth_limit_geom svc fuel; Azure.items_auth_limit_col svc fuel;
   Azure.items_auth_geom_col svc; Azure.items_auth_limit_geom_col svc fuel].

(** A search area of two points and a line, the points in a collection of
    their own. *)
Definition two_points : geometry :=
  Multi "MULTIPOINT ((0 0), (1 1))"
    [Atomic Point "POINT (0 0)" false; Atomic Point "POINT (1 1)" false].



(** A call of the composition of three wrappers. *)
Definition composed_kwargs : kwargs :=
  {| kw_collection := Some (VList [VStr "bld-fts-buildingline-2"]);
     kw_query_params := Some 0%nat; kw_filter_params := None;
     kw_wkt := Some (WktGeom two_points);
     kw_use_latest_collection := None; kw_add_metadata := None;
     kw_headers := Some 2%nat; kw_hierarchical_output := None;
     kw_request_limit := None; kw_limit := Some (Some 5%Z) |}.

(** ** The catalogue *)

(** A catalogue whose entries are named base-version. *)
Definition catalogue_of (collections_data : list value) (entries : list (string * N))
  : Prop :=
  Forall2 (fun c e => py_item c "id" = Ret (VStr (name_of e))) collections_data entries.

(** What [get_latest_collection_versions] returns with
    [flag_recent_updates]. *)
Definition flagged (output_lookup : dict) (recent_update_days : Z)
    (recent_collections : list value) : value :=
  VDict [("collection-lookup", VDict output_lookup);
         ("recent-update-threshold-days", VInt recent_update_days);
         ("recent-collection-updates", VList recent_collections)].

(** The example catalogue, entry by entry. *)
Definition example_entries : list (string * N) :=
  [("bld-fts-buildingline", 1%N); ("bld-fts-buildingline", 2%N); ("trn-ntwk-street", 1%N)].

(** The example catalogue with the date from which each version is
    available. *)
Definition dated (id start : string) : value :=
  VDict [("id", VStr id);
         ("extent", VDict [("temporal", VDict [
            ("interval", VList [VList [VStr start; VNone]])])])].

Definition dated_catalogue : value :=
  VDict [("collections", VList [
    dated "bld-fts-buildingline-1" "2022-09-28T00:00:00Z";
    dated "bld-fts-buildingline-2" "2023-12-25T00:00:00Z";
    dated "trn-ntwk-street-1" "2022-09-28T00:00:00Z"])].

(** The dates of that catalogue on a time line of days, numbered as they
    are written. *)
Definition calendar (s : value) : outcome Z :=
  match s with
  | VStr s =>
      if String.eqb s "2022-09-28T00:00:00Z" then Ret 20220928%Z
      else if String.eqb s "2023-12-25T00:00:00Z" then Ret 20231225%Z
      else Raise (ValueError "time data does not match format")
  | _ => Raise (TypeError "strptime() argument 1 must be str")
  end.

(** A catalogue service read on the first day of 2024, when 31 days back
    is the first day of December. *)
Definition fresh_catalogue : services unit :=
  {| clock := fun _ => "2024-01-01T00:00:00";
     get_items := fun _ _ _ u => (Raise (TransportError "unreachable"), u);
     get_collections := fun u =>
       (Ret {| status_code := 200; json_body := inl dated_catalogue |}, u);
     post_token := fun _ _ u => (Raise (TransportError "unreachable"), u);
     track_event := fun _ u => (Ret tt, u);
     cutoff := fun _ _ => Ret 20231201%Z;
     strptime := calendar;
     from_wkt := fun _ => None |}.

(** A name that ends in a digit: one that names its version. *)
Definition names_version (s : string) : bool :=
  match Azure.str_last s with
  | Some a => is_digit a
  | None => false
  end.

(** ** The two resolvers *)

(** No base name of the catalogue begins the name of an entry of another
    base name. *)
Definition prefix_free (entries : list (string * N)) : Prop :=
  forall e1 e2,
    In e1 entries -> In e2 entries ->
    str_prefix (fst e1) (name_of e2) = true -> fst e2 = fst e1.

(** The entry of the catalogue for a name. *)
Definition entry_of (e : string * N) : value := VDict [("id", VStr (name_of e))].

(** What both resolvers are meant to return for a catalogue: one entry for
    every base name, with the name of its largest version. *)
Definition resolves (entries : list (string * N)) (output_lookup : dict) : Prop :=
  List.NoDup (dict_keys output_lookup) /\
  (forall b, In b (dict_keys output_lookup) <-> In b (map fst entries)) /\
  (forall b v,
     dict_get b output_lookup = Some v ->
     exists n,
       In (b, n) entries /\ v = VStr (name_of (b, n)) /\
       forall m, In (b, m) entries -> (m <= n)%N).

(** ** The collections of a fan-out *)







(** ** The Flask variant: the calls of the resolver

    [get_latest_collection_versions] of the Flask variant returns a pair,
    the mapping and the list of recent collections ([None] without
    [flag_recent_updates]); the warning it logs for a recent collection is
    left out.  [get_single_latest_collection] looks its argument up in what
    that function returns. *)

Module FlaskCalls.

(** The identifiers as strings, which [re.sub] wants. *)
Definition names_of (ids : list value) : outcome (list string) :=
  for_each
    (fun acc i =>
       match i with
       | VStr s => Ret (acc ++ [s])
       | _ => Raise (TypeError "expected string or bytes-like object")
       end)
    ids [].

(** [t[index]] for a tuple [t]. *)
Definition tuple_item (t : list value) (index : value) : outcome value :=
  match as_int index with
  | Some i =>
      let n := Z.of_nat (List.length t) in
      let j := if (i <? 0)%Z then (i + n)%Z else i in
      if (0 <=? j)%Z && (j <? n)%Z
      then match t !! Z.to_nat j with
           | Some v => Ret v
           | None => Raise IndexError
           end
      else Raise IndexError
  | None => Raise (TypeError "tuple indices must be integers or slices, not str")
  end.

Section Effects.
Context {U : Type} (svc : services U).

Definition get_latest_collection_versions
    (flag_recent_updates : bool) (recent_update_days : Z) : M U (dict * value) :=
  let* response := external (get_collections svc) in
  let* body := Azure.response_json response in
  let* collections_data := lift (py_item body "collections") in
  let* collections_data := lift (py_iter collections_data) in
  let* collections_list := lift (Azure.collection_ids collections_data) in
  let* collections_list := lift (names_of collections_list) in
  let* output_lookup := lift (Flask.output_lookup_of collections_list) in
  if flag_recent_updates then
    let* recent_update_cutoff := observe (cutoff svc recent_update_days) in
    let* latest_versions_data :=
      lift (for_each
              (fun acc c =>
                 let? i := py_item c "id" in
                 Ret (if py_in i (dict_values output_lookup) then acc ++ [c] else acc))
              collections_data []) in
    let* recent_collections :=
      for_eachM
        (fun acc collection_data =>
           let* version_startdate := lift (Azure.version_startdate collection_data) in
           let* time_obj := lift (strptime svc version_startdate) in
           if (recent_update_cutoff <? time_obj)%Z
           then let* collection := lift (py_item collection_data "id") in
                ret (acc ++ [collection])
           else ret acc)
        latest_versions_data [] in
    ret (output_lookup, VList recent_collections)
  else ret (output_lookup, VNone).

(** [get_single_latest_collection(collection, **kwargs)] *)
Definition get_single_latest_collection (collection : value)
    (flag_recent_updates : bool) (recent_update_days : Z) : M U value :=
  let* latest_collections :=
    get_latest_collection_versions flag_recent_updates recent_update_days in
  let '(output_lookup, recent_collections) := latest_collections in
  lift (tuple_item [VDict output_lookup; recent_collections] collection).

End Effects.

End FlaskCalls.

(** * Properties *)

(** ** Reasoning in the monad *)

Lemma bind_inv {U A B} (c : M U A) (k : A -> M U B) w r w' :
  bind c k w = Some (r, w') ->
  (exists a w1, c w = Some (Ret a, w1) /\ k a w1 = Some (r, w')) \/
  (exists e, c w = Some (Raise e, w') /\ r = Raise e).
Proof.
  unfold bind. destruct (c w) as [[[a|e] w1]|]; intros H.
  - left. eauto.
  - right. inversion H; subst. eauto.
  - discriminate.
Qed.

Lemma bind_mono {U A B} (c : M U A) (k1 k2 : A -> M U B) w r :
  (forall a w', k1 a w' = Some r -> k2 a w' = Some r) ->
  bind c k1 w = Some r -> bind c k2 w = Some r.
Proof.
  unfold bind. intros Hk. destruct (c w) as [[[a|e] w1]|]; auto.
Qed.

Lemma for_each_app {A S} (body : S -> A -> outcome S) l1 l2 s :
  for_each body (l1 ++ l2) s = obind (for_each body l1 s) (for_each body l2).
Proof.
  revert s. induction l1 as [|x l1 IH]; intros s; simpl; [reflexivity|].
  destruct (body s x); simpl; auto.
Qed.

(** An invariant of a [for] loop that completes. *)
Lemma for_each_invariant {A S} (P : S -> Prop) (body : S -> A -> outcome S) l s s' :
  P s ->
  (forall s x s', In x l -> P s -> body s x = Ret s' -> P s') ->
  for_each body l s = Ret s' -> P s'.
Proof.
  revert s. induction l as [|x l IH]; intros s Hs Hstep; simpl.
  - intros [= <-]. exact Hs.
  - destruct (body s x) as [s1|e] eqn:Hb; simpl; [|discriminate].
    apply IH.
    + eapply Hstep; eauto. now left.
    + intros. eapply Hstep; eauto. now right.
Qed.

(** ** Dictionaries *)

Lemma dict_get_set_eq k v d : dict_get k (dict_set k v d) = Some v.
Proof.
  induction d as [|[k' v'] d IH]; simpl.
  - now rewrite String.eqb_refl.
  - destruct (String.eqb k k') eqn:E; simpl; rewrite ?String.eqb_refl, ?E; auto.
Qed.

Lemma dict_get_set_ne k k' v d :
  k <> k' -> dict_get k' (dict_set k v d) = dict_get k' d.
Proof.
  intros Hne. induction d as [|[k0 v0] d IH]; simpl.
  - destruct (String.eqb k' k) eqn:E; [apply String.eqb_eq in E; congruence|reflexivity].
  - destruct (String.eqb k k0) eqn:E; simpl.
    + apply String.eqb_eq in E; subst k0.
      destruct (String.eqb k' k) eqn:E'; [apply String.eqb_eq in E'; congruence|reflexivity].
    + destruct (String.eqb k' k0); auto.
Qed.

Lemma dict_set_fresh k v d :
  ~ In k (dict_keys d) -> dict_set k v d = d ++ [(k, v)].
Proof.
  induction d as [|[k' v'] d IH]; simpl; intros Hn; [reflexivity|].
  destruct (String.eqb k k') eqn:E.
  - apply String.eqb_eq in E. subst. tauto.
  - rewrite IH by tauto. reflexivity.
Qed.

Lemma dict_set_here pre k v0 v post :
  ~ In k (dict_keys pre) ->
  dict_set k v (pre ++ (k, v0) :: post) = pre ++ (k, v) :: post.
Proof.
  induction pre as [|[k' v'] pre IH]; simpl; intros Hn.
  - now rewrite String.eqb_refl.
  - destruct (String.eqb k k') eqn:E.
    + apply String.eqb_eq in E. subst. tauto.
    + rewrite IH by tauto. reflexivity.
Qed.

(** ** The attribute filter (C5) *)

Lemma flask_quote_loop pre todo :
  List.NoDup (dict_keys (pre ++ todo)) ->
  fold_left
    (fun (params : dict) '(k, v) =>
       if pytype_eqb (type_of v) TStr
       then dict_set k (VStr ("'" +:+ py_str v +:+ "'")) params
       else params)
    todo (pre ++ todo)
  = pre ++ map quote_value todo.
Proof.
  revert pre. induction todo as [|[k v] todo IH]; intros pre Hnd; simpl.
  - reflexivity.
  - assert (Hk : ~ In k (dict_keys pre)).
    { unfold dict_keys in *. rewrite map_app in Hnd. simpl in Hnd.
      apply NoDup_remove_2 in Hnd. rewrite in_app_iff in Hnd. tauto. }
    assert (Hnd' : forall x, List.NoDup (dict_keys ((pre ++ [(k, x)]) ++ todo))).
    { intros x. rewrite <- app_assoc. simpl.
      unfold dict_keys in *. rewrite map_app in *. exact Hnd. }
    destruct v; simpl;
      try (change (pre ++ (k, ?x) :: todo) with (pre ++ [(k, x)] ++ todo);
           rewrite app_assoc, IH by apply Hnd';
           rewrite <- app_assoc; reflexivity).
    rewrite dict_set_here by exact Hk.
    change (pre ++ (k, ?x) :: todo) with (pre ++ [(k, x)] ++ todo).
    rewrite app_assoc, IH by apply Hnd'.
    rewrite <- app_assoc. reflexivity.
Qed.

(** The Flask variant does what the specification says of the filter
    builder: the two examples, and [and]-joined predicates in general. *)
Lemma flask_construct_filter_param_spec :
  Flask.construct_filter_param [("oslandcovertierb", VStr "Water")]
    = "(oslandcovertierb='Water')" /\
  Flask.construct_filter_param [] = EmptyString /\
  forall params,
    List.NoDup (dict_keys params) ->
    Flask.construct_filter_param params = str_join "and" (map predicate params).
Proof.
  split; [reflexivity|]. split; [reflexivity|].
  intros params Hnd. unfold Flask.construct_filter_param.
  pose proof (flask_quote_loop [] params Hnd) as Hloop.
  simpl in Hloop. rewrite Hloop.
  f_equal. rewrite map_map. apply map_ext.
  intros [k v]. unfold predicate, quote_value. destruct v; reflexivity.
Qed.

(** In the Azure variant the arguments of [isinstance] are swapped, and
    the first item of any non-empty mapping raises. *)
Lemma azure_construct_filter_param_nonempty params :
  params <> [] ->
  exists msg, Azure.construct_filter_param params = Raise (TypeError msg).
Proof.
  destruct params as [|[k v] params]; [congruence|]. intros _.
  unfold Azure.construct_filter_param. simpl. eauto.
Qed.

(** C5, at the input of the specification's example: the Azure
    [construct_filter_param] raises [TypeError] on
    [{oslandcovertierb: "Water"}] instead of returning
    [(oslandcovertierb='Water')]; the empty mapping still gives the empty
    string. *)
Theorem azure_construct_filter_param_water :
  Azure.construct_filter_param [("oslandcovertierb", VStr "Water")]
    = Raise (TypeError "isinstance() arg 2 must be a type, a tuple of types, or a union") /\
  Azure.construct_filter_param [] = Ret EmptyString.
Proof. split; reflexivity. Qed.

(** ** Pagination: validation (C6) *)

Lemma copy_or_empty_run {U} (x : option loc) (w : world U) :
  copy_or_empty x w
  = Some (Ret (List.length (heap w)), with_heap w (heap w ++ [contents w x])).
Proof. destruct x; reflexivity. Qed.

Lemma lookup_fresh {A} (h : list A) (d : A) : (h ++ [d]) !! List.length h = Some d.
Proof.
  rewrite lookup_app_r by reflexivity. now rewrite Nat.sub_diag.
Qed.

(** C6, as the code has it: a caller-supplied [offset] is answered with the
    error payload of code 400, and the absence of both [limit] and
    [request_limit] (each [None] or zero) raises [AttributeError]; in both
    cases the wrapped function has not been called. *)
Theorem limit_extension_validation
    {U} (svc : services U) (fuel : nat) (func : callable U) (kw : kwargs)
    (w : world (U * journal)) :
  let run := Azure.limit_extension (traced_services svc) fuel (traced func) kw w in
  let supplied := dict_mem "offset" (contents w (kw_query_params kw)) in
  let limit := default None (kw_limit kw) in
  let request_limit := default (Some 50%Z) (kw_request_limit kw) in
  supplied = true \/ (Azure.falsy limit = true /\ Azure.falsy request_limit = true) ->
  exists w',
    journal_of w' = journal_of w /\
    ((supplied = true /\ run = Some (Ret Azure.offset_payload, w')) \/
     (supplied = false /\ exists msg, run = Some (Raise (AttributeError msg), w'))).
Proof.
  intros run supplied limit request_limit H.
  exists (with_heap w (heap w ++ [contents w (kw_query_params kw)])).
  split; [reflexivity|].
  assert (Hstep : forall k : loc -> dict -> M (U * journal) value,
             bind (copy_or_empty (kw_query_params kw))
                  (fun l => bind (deref l) (fun q => k l q)) w
             = k (List.length (heap w)) (contents w (kw_query_params kw))
                 (with_heap w (heap w ++ [contents w (kw_query_params kw)]))).
  { intros k. unfold bind at 1. rewrite copy_or_empty_run.
    unfold bind at 1. unfold deref. cbn [heap with_heap]. rewrite lookup_fresh.
    reflexivity. }
  destruct supplied eqn:Hs.
  - left. split; [reflexivity|].
    unfold run, Azure.limit_extension. rewrite Hstep.
    fold supplied. rewrite Hs. reflexivity.
  - right. split; [reflexivity|].
    destruct H as [H|[Hl Hr]]; [discriminate|].
    unfold run, Azure.limit_extension. rewrite Hstep.
    fold supplied. rewrite Hs. fold limit. fold request_limit.
    rewrite Hl, Hr. cbn [andb].
    destruct limit as [l|]; [destruct (l =? 0)%Z|]; eexists; reflexivity.
Qed.

Lemma limit_extension_validation_witness :
  exists w',
    journal_of w' = [] /\
    ((false = true /\
      Azure.limit_extension (traced_services (idle_services unit)) 5
        (traced (always empty_page)) unbounded (start (tt, []))
      = Some (Ret Azure.offset_payload, w')) \/
     (false = false /\
      exists msg,
        Azure.limit_extension (traced_services (idle_services unit)) 5
          (traced (always empty_page)) unbounded (start (tt, []))
        = Some (Raise (AttributeError msg), w'))).
Proof.
  apply (limit_extension_validation (idle_services unit) 5 (always empty_page)
           unbounded (start (tt, []))).
  right. split; reflexivity.
Defined.

(** C6, as stated, fails where neither bound is given: the call is not
    answered with an error payload, it raises. *)
Lemma limit_extension_unbounded_raises :
  let run :=
    Azure.limit_extension (idle_services unit) 5 (always empty_page) unbounded (start tt) in
  (exists msg w', run = Some (Raise (AttributeError msg), w')) /\
  ~ (exists payload w', run = Some (Ret payload, w')).
Proof.
  intros run. split.
  - eexists. eexists. vm_compute. reflexivity.
  - intros (payload & w' & H). vm_compute in H. discriminate.
Qed.

(** ** Pagination: fuel and the 250-feature scenario (C1) *)

Lemma bind_mono_l {U A B} (c1 c2 : M U A) (k : A -> M U B) w r :
  (forall x, c1 w = Some x -> c2 w = Some x) ->
  bind c1 k w = Some r -> bind c2 k w = Some r.
Proof.
  unfold bind. intros Hc. destruct (c1 w) as [x|] eqn:E; [|discriminate].
  rewrite (Hc x eq_refl). auto.
Qed.

(** A loop that finishes within some fuel finishes the same way with more. *)
Lemma limit_loop_fuel {U} (func : callable U) kw q rl l bc fb fuel k :
  forall rc off fs w r,
    Azure.limit_loop fuel func kw q rl l bc fb rc off fs w = Some r ->
    Azure.limit_loop (fuel + k) func kw q rl l bc fb rc off fs w = Some r.
Proof.
  induction fuel as [|fuel IH]; intros rc off fs w r.
  - cbn [Azure.limit_loop Nat.add]. destruct k; cbn [Azure.limit_loop];
      destruct (_ && _); auto; discriminate.
  - cbn [Azure.limit_loop Nat.add].
    destruct (_ && _); auto.
    apply bind_mono; intros _ ?.
    apply bind_mono; intros _ ?.
    apply bind_mono; intros json_response ?.
    apply bind_mono; intros is_error ?.
    destruct is_error; auto.
    apply bind_mono; intros page ?.
    apply bind_mono; intros page' ?.
    apply bind_mono; intros next ?.
    destruct next; auto.
Qed.

Lemma limit_extension_fuel {U} (svc : services U) (func : callable U) fuel k kw w r :
  Azure.limit_extension svc fuel func kw w = Some r ->
  Azure.limit_extension svc (fuel + k) func kw w = Some r.
Proof.
  unfold Azure.limit_extension.
  apply bind_mono; intros query_params ?.
  apply bind_mono; intros q ?.
  destruct (dict_mem _ _); auto.
  destruct (match default None (kw_limit kw) with Some _ => _ | None => _ end).
  destruct (_ && _); auto.
  apply bind_mono_l. intros x. apply limit_loop_fuel.
Qed.

(** C1: with [limit=250], against an upstream of 250 features served 100 at
    a time, the pagination wrapper issues exactly three requests, the third
    with the query parameter [limit] set to 50, and returns 250 features in
    a result that has no [offset] key.  Any fuel from three on gives this
    result. *)
Theorem pagination_250_features (svc : services (list dict)) (k : nat) :
  exists res w' fs q3,
    Azure.limit_extension svc (3 + k) (paged_upstream 250) (with_limit 250) (start [])
      = Some (Ret (VDict res), w') /\
    List.length (ext w') = 3 /\
    ext w' !! 2 = Some q3 /\
    dict_get "limit" q3 = Some (VInt 50) /\
    dict_get "features" res = Some (VList fs) /\
    List.length fs = 250 /\
    dict_get "numberReturned" res = Some (VInt 250) /\
    dict_get "numberOfRequests" res = Some (VInt 3) /\
    dict_mem "offset" res = false.
Proof.
  do 4 eexists. split.
  - apply limit_extension_fuel. vm_compute. reflexivity.
  - cbn [ext]. repeat split; vm_compute; reflexivity.
Qed.

(** ** What a wrapper leaves in the journal *)

Section Journal.
Context {U : Type}.

Lemma traced_inv (func : callable U) kw (w : world (U * journal)) r w' :
  traced func kw w = Some (r, w') ->
  journal_of w' = journal_of w ++ [Called kw r].
Proof.
  unfold traced. destruct (func kw (inner w)) as [[r0 w0]|]; [|discriminate].
  intros [= <- <-]. reflexivity.
Qed.

Lemma quiet_ret {A} (a : A) : quiet (U := U) (ret a).
Proof. intros w r w' [= <- <-]. reflexivity. Qed.

Lemma quiet_raise {A} (e : exn) : quiet (U := U) (A := A) (raise e).
Proof. intros w r w' [= <- <-]. reflexivity. Qed.

Lemma quiet_lift {A} (c : outcome A) : quiet (U := U) (lift c).
Proof. intros w r w' [= <- <-]. reflexivity. Qed.

Lemma quiet_deref l : quiet (U := U) (deref l).
Proof. intros w r w' [= <- <-]. reflexivity. Qed.

Lemma quiet_alloc d : quiet (U := U) (alloc d).
Proof. intros w r w' [= <- <-]. reflexivity. Qed.

Lemma quiet_update l f : quiet (U := U) (update l f).
Proof. intros w r w' [= <- <-]. reflexivity. Qed.

Lemma quiet_getenv k : quiet (U := U) (getenv k).
Proof. intros w r w' [= <- <-]. reflexivity. Qed.

Lemma quiet_setenv k v : quiet (U := U) (setenv k v).
Proof. intros w r w' [= <- <-]. reflexivity. Qed.

Lemma quiet_observe {A} (f : U * journal -> outcome A) : quiet (observe f).
Proof. intros w r w' [= <- <-]. reflexivity. Qed.

Lemma quiet_bind {A B} (c : M (U * journal) A) (k : A -> M (U * journal) B) :
  quiet c -> (forall a, quiet (k a)) -> quiet (bind c k).
Proof.
  intros Hc Hk w r w' H.
  apply bind_inv in H as [(a & w1 & H1 & H2)|(e & H1 & ->)].
  - rewrite (Hk _ _ _ _ H2). eapply Hc; eauto.
  - eapply Hc; eauto.
Qed.

Lemma quiet_copy_or_empty x : quiet (U := U) (copy_or_empty x).
Proof.
  destruct x; simpl; [|apply quiet_alloc].
  apply quiet_bind; [apply quiet_deref|intros; apply quiet_alloc].
Qed.

End Journal.

Create HintDb quiet.
#[local] Hint Resolve quiet_ret quiet_raise quiet_lift quiet_deref quiet_alloc
  quiet_update quiet_getenv quiet_setenv quiet_observe quiet_copy_or_empty : quiet.


(** ** Short-circuit on an error payload (C3) *)

Section ShortCircuit.
Context {U : Type}.
Variable P : value -> Prop.







Lemma lift_inv {A} (c : outcome A) (w : world (U * journal)) r w' :
  lift c w = Some (r, w') -> r = c /\ w' = w.
Proof. intros [= <- <-]. auto. Qed.




End ShortCircuit.


Section Pagination.
Context {U : Type}.

(** *** Pagination *)



End Pagination.

Section FanOut.
Context {U : Type}.

(** *** Geometry fan-out *)




End FanOut.

Section CollectionFanOut.
Context {U : Type}.

Lemma quiet_harmless {A} (c : M (U * journal) A) : quiet c -> harmless c.
Proof.
  intros Hq w r w' H. exists []. rewrite app_nil_r. split; [eapply Hq; eauto|constructor].
Qed.

Lemma harmless_bind {A B} (c : M (U * journal) A) (k : A -> M (U * journal) B) :
  harmless c -> (forall a, harmless (k a)) -> harmless (bind c k).
Proof.
  intros Hc Hk w r w' H.
  apply bind_inv in H as [(a & w1 & H1 & H2)|(e & H1 & ->)].
  - destruct (Hc _ _ _ H1) as (evs1 & Hj1 & Hf1).
    destruct (Hk _ _ _ _ H2) as (evs2 & Hj2 & Hf2).
    exists (evs1 ++ evs2). rewrite Hj2, Hj1, app_assoc. split; [reflexivity|].
    apply Forall_app; auto.
  - eapply Hc; eauto.
Qed.

Lemma harmless_logging {A} (ev : outcome A -> event) (f : U -> outcome A * U) :
  (forall x kw r, ev x <> Called kw r) -> harmless (external (logging ev f)).
Proof.
  intros Hev w r w'. unfold external, logging.
  destruct (f (fst (ext w))) as [r0 u0]. intros [= <- <-].
  exists [ev r0]. split; [reflexivity|]. constructor; auto.
Qed.

Lemma quiet_for_eachM {A S} (body : S -> A -> M (U * journal) S) l :
  (forall s x, quiet (body s x)) -> forall s, quiet (for_eachM body l s).
Proof.
  intros Hb. induction l as [|x l IH]; intros s; simpl; auto with quiet.
  apply quiet_bind; auto.
Qed.

Lemma harmless_get_latest (svc : services U) flag days :
  harmless (Azure.get_latest_collection_versions (traced_services svc) flag days).
Proof.
  unfold Azure.get_latest_collection_versions.
  apply harmless_bind; [apply harmless_logging; discriminate|intros response].
  apply quiet_harmless.
  apply quiet_bind; [unfold Azure.response_json; destruct (json_body response); auto with quiet|].
  intros body. repeat (apply quiet_bind; [auto with quiet|intros]).
  destruct (negb flag); auto with quiet.
  apply quiet_bind; [auto with quiet|intros].
  apply quiet_bind; [auto with quiet|intros].
  apply quiet_bind; [|auto with quiet].
  apply quiet_for_eachM. intros s x.
  apply quiet_bind; [auto with quiet|intros].
  apply quiet_bind; [auto with quiet|intros].
  destruct (_ <? _)%Z; auto with quiet.
  apply quiet_bind; auto with quiet.
Qed.

Lemma harmless_get_specific (svc : services U) collection :
  harmless (Azure.get_specific_latest_collections (traced_services svc) collection).
Proof.
  unfold Azure.get_specific_latest_collections.
  apply harmless_bind; [apply harmless_get_latest|].
  intros latest. apply quiet_harmless.
  destruct latest; auto with quiet.
  apply quiet_bind; [auto with quiet|]. intros [?|?]; auto with quiet.
Qed.

Lemma harmless_apply_latest (svc : services U) collection :
  harmless (Azure.apply_latest_collection (traced_services svc) collection).
Proof.
  unfold Azure.apply_latest_collection.
  apply harmless_bind; [apply quiet_harmless; auto with quiet|intros c].
  apply harmless_bind; [apply quiet_harmless; auto with quiet|intros [hv nv]].
  apply harmless_bind; [apply harmless_get_specific|].
  intros latest. apply quiet_harmless. destruct latest; auto with quiet.
Qed.


End CollectionFanOut.

Section CollectionLoop.
Context {U : Type}.





End CollectionLoop.



(** ** The auth decorator (C8) *)

Section Auth.
Context {U : Type}.







End Auth.



(** ** Unresolvable collection names (C4) *)

(** C4, at a failing input: [collection = ["bld-fts-buildingline-2",
    "nosuch"]] with [use_latest_collection].  The version resolver answers
    with its 404 payload naming [nosuch], but the coordinator does not
    return it: it takes the values of that payload for collection names,
    requests the items of a collection called [404], and returns what the
    upstream answers to that. *)
Theorem unresolved_collection_is_fetched :
  let kw := latest_of_collections ["bld-fts-buildingline-2"; "nosuch"] in
  Azure.get_specific_latest_collections catalogue_services [VStr "nosuch"] (start [])
    = Some (Ret (Azure.not_found_payload (VStr "nosuch")), start []) /\
  exists r w',
    Azure.items_col catalogue_services kw (start []) = Some (Ret r, w') /\
    ext w' = ["https://api.os.uk/features/ngd/ofa/v1/collections/404/items/"] /\
    dict_get "errorSource" match r with VDict d => d | _ => [] end
      = Some (VStr "OS NGD API") /\
    r <> Azure.not_found_payload (VStr "nosuch").
Proof.
  intros kw. split; [vm_compute; reflexivity|].
  eexists. eexists. split; [vm_compute; reflexivity|].
  split; [reflexivity|]. split; [reflexivity|]. discriminate.
Qed.

(** ** The caller's mappings are left alone (C10) *)

Section Frame.
Context {U : Type}.

Lemma neutral_frames {A} n (c : M U A) : heap_neutral c -> frames n c.
Proof. intros Hc w r w' H _. rewrite (Hc _ _ _ H). auto. Qed.

Lemma neutral_ret {A} (a : A) : heap_neutral (U := U) (ret a).
Proof. intros w r w' [= <- <-]. reflexivity. Qed.

Lemma neutral_raise {A} e : heap_neutral (U := U) (A := A) (raise e).
Proof. intros w r w' [= <- <-]. reflexivity. Qed.

Lemma neutral_lift {A} (c : outcome A) : heap_neutral (U := U) (lift c).
Proof. intros w r w' [= <- <-]. reflexivity. Qed.

Lemma neutral_deref l : heap_neutral (U := U) (deref l).
Proof. intros w r w' [= <- <-]. reflexivity. Qed.

Lemma neutral_getenv k : heap_neutral (U := U) (getenv k).
Proof. intros w r w' [= <- <-]. reflexivity. Qed.

Lemma neutral_setenv k v : heap_neutral (U := U) (setenv k v).
Proof. intros w r w' [= <- <-]. reflexivity. Qed.

Lemma neutral_observe {A} (f : U -> outcome A) : heap_neutral (observe f).
Proof. intros w r w' [= <- <-]. reflexivity. Qed.

Lemma neutral_external {A} (f : U -> outcome A * U) : heap_neutral (external f).
Proof.
  intros w r w'. unfold external. destruct (f (ext w)). intros [= <- <-]. reflexivity.
Qed.

Lemma neutral_bind {A B} (c : M U A) (k : A -> M U B) :
  heap_neutral c -> (forall a, heap_neutral (k a)) -> heap_neutral (bind c k).
Proof.
  intros Hc Hk w r w' H.
  apply bind_inv in H as [(a & w1 & H1 & H2)|(e & H1 & ->)].
  - rewrite (Hk _ _ _ _ H2). eapply Hc; eauto.
  - eapply Hc; eauto.
Qed.

Lemma neutral_for_eachM {A S} (body : S -> A -> M U S) l :
  (forall s x, heap_neutral (body s x)) -> forall s, heap_neutral (for_eachM body l s).
Proof.
  intros Hb. induction l as [|x l IH]; intros s; simpl.
  - apply neutral_ret.
  - apply neutral_bind; auto.
Qed.

Lemma neutral_try_permission {A} (c : M U A) :
  heap_neutral c -> heap_neutral (try_permission c).
Proof.
  intros Hc w r w'. unfold try_permission.
  destruct (c w) as [[[a|e] w1]|] eqn:E; [| |discriminate].
  - intros [= <- <-]. eapply Hc; eauto.
  - destruct e; intros [= <- <-]; eapply Hc; eauto.
Qed.

Lemma frames_alloc n d : frames (U := U) n (alloc d).
Proof.
  intros w r w' [= <- <-] Hn. cbn [heap with_heap].
  rewrite take_app_le by exact Hn. rewrite length_app. split; [reflexivity|lia].
Qed.

Lemma frames_update n l f : (n <= l)%nat -> frames (U := U) n (update l f).
Proof.
  intros Hl w r w' [= <- <-] Hn. cbn [heap with_heap].
  rewrite take_insert_ge by exact Hl. rewrite length_insert. auto.
Qed.

(** The continuation of a [bind] is only run on what the first part may
    return when started in a store that has the framed objects. *)
Lemma frames_bind {A B} n (c : M U A) (k : A -> M U B) :
  frames n c ->
  (forall a,
     (exists w w1, c w = Some (Ret a, w1) /\ (n <= List.length (heap w))%nat) ->
     frames n (k a)) ->
  frames n (bind c k).
Proof.
  intros Hc Hk w r w' H Hn.
  apply bind_inv in H as [(a & w1 & H1 & H2)|(e & H1 & ->)].
  - destruct (Hc _ _ _ H1 Hn) as [Ht Hl].
    destruct (Hk a (ex_intro _ w (ex_intro _ w1 (conj H1 Hn))) _ _ _ H2) as [Ht' Hl'];
      [lia|].
    split; [congruence|lia].
  - eapply Hc; eauto.
Qed.

Lemma frames_copy_or_empty n x : frames (U := U) n (copy_or_empty x).
Proof.
  intros w r w' H Hn. rewrite copy_or_empty_run in H. injection H as <- <-.
  cbn [heap with_heap]. rewrite take_app_le by exact Hn. rewrite length_app.
  split; [reflexivity|lia].
Qed.

(** The object made by [copy_or_empty] lies beyond the framed ones. *)
Lemma copy_or_empty_fresh n x (a : loc) :
  (exists (w w1 : world U),
     copy_or_empty x w = Some (Ret a, w1) /\ (n <= List.length (heap w))%nat) ->
  (n <= a)%nat.
Proof.
  intros (w & w1 & H & Hn). rewrite copy_or_empty_run in H. injection H as <- _. exact Hn.
Qed.

End Frame.

Create HintDb frame.
#[local] Hint Resolve neutral_ret neutral_raise neutral_lift neutral_deref
  neutral_getenv neutral_setenv neutral_observe neutral_external : frame.

Section FrameWrappers.
Context {U : Type} (svc : services U).

Lemma neutral_get_latest flag days :
  heap_neutral (Azure.get_latest_collection_versions svc flag days).
Proof.
  unfold Azure.get_latest_collection_versions.
  apply neutral_bind; [auto with frame|intros response].
  apply neutral_bind;
    [unfold Azure.response_json; destruct (json_body response); auto with frame|].
  intros body. repeat (apply neutral_bind; [auto with frame|intros]).
  destruct (negb flag); auto with frame.
  apply neutral_bind; [auto with frame|intros].
  apply neutral_bind; [auto with frame|intros].
  apply neutral_bind; [|auto with frame].
  apply neutral_for_eachM. intros s x.
  apply neutral_bind; [auto with frame|intros].
  apply neutral_bind; [auto with frame|intros].
  destruct (_ <? _)%Z; auto with frame.
  apply neutral_bind; auto with frame.
Qed.

Lemma neutral_get_specific collection :
  heap_neutral (Azure.get_specific_latest_collections svc collection).
Proof.
  unfold Azure.get_specific_latest_collections.
  apply neutral_bind; [apply neutral_get_latest|].
  intros latest. destruct latest; auto with frame.
  apply neutral_bind; [auto with frame|]. intros [?|?]; auto with frame.
Qed.

Lemma neutral_get_access_token client_id client_secret :
  heap_neutral (Azure.get_access_token svc client_id client_secret).
Proof.
  unfold Azure.get_access_token.
  apply neutral_bind; [auto with frame|intros response].
  apply neutral_bind;
    [unfold Azure.response_json; destruct (json_body response); auto with frame|].
  intros body. destruct (_ =? _)%Z; auto with frame.
Qed.

Lemma neutral_setenv_value k v : heap_neutral (U := U) (Azure.setenv_value k v).
Proof. destruct v; simpl; auto with frame. Qed.

(** The single-request fetcher writes to its three copies only. *)
Lemma ngd_items_request_keeps_heap : keeps_heap (Azure.ngd_items_request svc).
Proof.
  intros kw n. unfold Azure.ngd_items_request.
  destruct (kw_collection kw) as [collection|]; [|apply neutral_frames; auto with frame].
  apply frames_bind; [apply frames_copy_or_empty|].
  intros query_params Hq. apply copy_or_empty_fresh in Hq.
  apply frames_bind; [apply frames_copy_or_empty|].
  intros filter_params _.
  apply frames_bind; [apply frames_copy_or_empty|].
  intros headers Hh. apply copy_or_empty_fresh in Hh.
  apply frames_bind.
  { apply neutral_frames. destruct (default false _); auto with frame.
    apply neutral_bind; [apply neutral_get_specific|].
    intros latest. destruct latest; destruct collection; auto with frame. }
  intros collection' _.
  apply frames_bind; [apply neutral_frames; auto with frame|]. intros fp _.
  apply frames_bind.
  { destruct (truthy (VDict fp)); [|apply neutral_frames; auto with frame].
    apply frames_bind; [apply neutral_frames; auto with frame|].
    intros filters _. apply frames_update. exact Hq. }
  intros _ _.
  apply frames_bind.
  { destruct (kw_wkt kw) as [wkt|]; [|apply neutral_frames; auto with frame].
    destruct (wkt_truthy wkt); [|apply neutral_frames; auto with frame].
    apply frames_update. exact Hq. }
  intros _ _.
  apply frames_bind; [apply neutral_frames; auto with frame|]. intros q _.
  apply frames_bind; [apply neutral_frames; auto with frame|]. intros q' _.
  apply frames_bind; [apply frames_update; exact Hq|]. intros _ _.
  apply frames_bind; [apply frames_update; exact Hh|]. intros _ _.
  apply frames_bind; [apply neutral_frames; auto with frame|]. intros h _.
  apply frames_bind.
  { apply neutral_frames.
    destruct (kw_request_limit kw); destruct (kw_limit kw); auto with frame. }
  intros response _. apply neutral_frames.
  destruct (json_body response) as [json_response|msg]; [|auto with frame].
  destruct (400 <=? _)%Z; [auto with frame|].
  repeat (apply neutral_bind; [auto with frame|intros]).
  destruct json_response; auto with frame.
Qed.

(** The pagination loop writes to its copy of the query parameters only. *)
Lemma limit_loop_frames (func : callable U) kw q rl l bc fb n fuel :
  keeps_heap func -> (n <= q)%nat ->
  forall rc off fs,
    frames n (Azure.limit_loop fuel func kw q rl l bc fb rc off fs).
Proof.
  intros Hfunc Hq.
  induction fuel as [|fuel IH]; intros rc off fs; cbn [Azure.limit_loop];
    destruct (_ && _); try solve [apply neutral_frames; auto with frame].
  - intros w r w' H. discriminate.
  - apply frames_bind.
    { destruct (Azure.eq_opt rc bc);
        [apply frames_update; exact Hq|apply neutral_frames; auto with frame]. }
    intros _ _.
    apply frames_bind; [apply frames_update; exact Hq|]. intros _ _.
    apply frames_bind.
    { destruct (kw_add_metadata kw); [apply neutral_frames; auto with frame|apply Hfunc]. }
    intros json_response _.
    apply frames_bind; [apply neutral_frames; auto with frame|]. intros is_error _.
    destruct is_error; [apply neutral_frames; auto with frame|].
    apply frames_bind; [apply neutral_frames; auto with frame|]. intros page _.
    apply frames_bind; [apply neutral_frames; auto with frame|]. intros page' _.
    apply frames_bind; [apply neutral_frames; auto with frame|]. intros next _.
    destruct next; [apply neutral_frames; auto with frame|apply IH].
Qed.

Lemma limit_extension_keeps_heap (func : callable U) fuel :
  keeps_heap func -> keeps_heap (Azure.limit_extension svc fuel func).
Proof.
  intros Hfunc kw n. unfold Azure.limit_extension.
  apply frames_bind; [apply frames_copy_or_empty|].
  intros query_params Hq. apply copy_or_empty_fresh in Hq.
  apply frames_bind; [apply neutral_frames; auto with frame|]. intros q _.
  destruct (dict_mem _ _); [apply neutral_frames; auto with frame|].
  destruct (match default None (kw_limit kw) with Some _ => _ | None => _ end).
  destruct (_ && _); [apply neutral_frames; auto with frame|].
  apply frames_bind; [apply limit_loop_frames; assumption|].
  intros [jr|[request_count features]] _; apply neutral_frames; auto with frame.
  unfold now. apply neutral_bind; auto with frame.
Qed.

Lemma oauth2_manager_keeps_heap (func : callable U) :
  keeps_heap func -> keeps_heap (Azure.oauth2_manager svc func).
Proof.
  intros Hfunc kw n. unfold Azure.oauth2_manager.
  apply frames_bind; [apply frames_copy_or_empty|].
  intros headers Hh. apply copy_or_empty_fresh in Hh.
  apply frames_bind; [apply neutral_frames; auto with frame|]. intros tok _.
  apply frames_bind; [apply frames_update; exact Hh|]. intros _ _.
  apply frames_bind; [apply Hfunc|]. intros response _.
  apply frames_bind; [apply neutral_frames; auto with frame|]. intros code _.
  destruct (negb _); [apply neutral_frames; auto with frame|].
  apply frames_bind; [apply neutral_frames; auto with frame|]. intros client_id _.
  apply frames_bind; [apply neutral_frames; auto with frame|]. intros client_secret _.
  apply frames_bind.
  { apply neutral_frames, neutral_try_permission, neutral_get_access_token. }
  intros [access_token|] _; [|apply neutral_frames; auto with frame].
  apply frames_bind; [apply neutral_frames, neutral_setenv_value|]. intros _ _.
  apply frames_bind; [apply frames_update; exact Hh|]. intros _ _.
  apply Hfunc.
Qed.

(** What [keeps_heap] means for one object of the caller. *)
Lemma keeps_heap_lookup (func : callable U) kw (w : world U) r w' (l : nat) :
  keeps_heap func -> func kw w = Some (r, w') ->
  (l < List.length (heap w))%nat -> heap w' !! l = heap w !! l.
Proof.
  intros Hf H Hl.
  destruct (Hf kw (List.length (heap w)) _ _ _ H (Nat.le_refl _)) as [Ht _].
  rewrite <- (lookup_take_lt (heap w') (List.length (heap w)) l Hl), Ht.
  apply lookup_take_lt. exact Hl.
Qed.

(** C10: when the single-request fetcher, the pagination coordinator or the
    auth decorator returns (or raises), every dictionary object the caller
    had, in particular the [query_params], [filter_params] and [headers] it
    passed, holds what it held before the call.  The two wrappers copy what
    they write to; what they pass on is written to by the wrapped function
    only if that function writes to its arguments, which the fetcher does
    not. *)
Theorem caller_mappings_unchanged
    (func : callable U) (fuel : nat) (kw : kwargs) (w : world U) r w' (l : nat) :
  keeps_heap func ->
  Azure.ngd_items_request svc kw w = Some (r, w') \/
  Azure.limit_extension svc fuel func kw w = Some (r, w') \/
  Azure.oauth2_manager svc func kw w = Some (r, w') ->
  (l < List.length (heap w))%nat ->
  heap w' !! l = heap w !! l.
Proof.
  intros Hfunc [H|[H|H]] Hl.
  - apply (keeps_heap_lookup (Azure.ngd_items_request svc) kw w r w' l);
      auto using ngd_items_request_keeps_heap.
  - apply (keeps_heap_lookup (Azure.limit_extension svc fuel func) kw w r w' l);
      auto using limit_extension_keeps_heap.
  - apply (keeps_heap_lookup (Azure.oauth2_manager svc func) kw w r w' l);
      auto using oauth2_manager_keeps_heap.
Qed.

(** The compositions of the three that the library exports. *)
Lemma exported_compositions_keep_heap fuel :
  keeps_heap (Azure.items svc) /\ keeps_heap (Azure.items_auth svc) /\
  keeps_heap (Azure.items_limit svc fuel) /\ keeps_heap (Azure.items_auth_limit svc fuel).
Proof.
  pose proof ngd_items_request_keeps_heap as Hitems.
  pose proof (oauth2_manager_keeps_heap _ Hitems) as Hauth.
  split; [exact Hitems|]. split; [exact Hauth|].
  split; apply limit_extension_keeps_heap; assumption.
Qed.

End FrameWrappers.

Lemma caller_mappings_unchanged_witness :
  exists r w',
    Azure.limit_extension (idle_services unit) 3 (always empty_page) caller_kwargs caller_world
    = Some (r, w') /\
    heap w' !! 0%nat = Some [("limit", VInt 10)].
Proof.
  eexists. eexists. split; [vm_compute; reflexivity|].
  change (Some [("limit", VInt 10)]) with (heap caller_world !! 0%nat).
  eapply (caller_mappings_unchanged (idle_services unit) (always empty_page) 3
            caller_kwargs caller_world).
  - intros kw n w r w' [= <- <-] _. split; [reflexivity|lia].
  - right. left. vm_compute. reflexivity.
  - vm_compute. lia.
Defined.

(** ** Flattening the search areas: invariants (C9, C2) *)

Lemma has_id_set_other key v f id :
  key <> "id" -> has_id (VDict f) id -> has_id (VDict (dict_set key v f)) id.
Proof.
  unfold has_id, py_item, dict_item. intros Hk.
  rewrite dict_get_set_ne by exact Hk. auto.
Qed.

Lemma has_id_insert fts ids index g v :
  Forall2 has_id fts ids -> fts !! index = Some (VDict g) ->
  Forall2 has_id (<[index := VDict (dict_set "searchAreaNumber" v g)]> fts) ids.
Proof.
  intros HF Hg. apply Forall2_same_length_lookup. split.
  - rewrite length_insert. eapply Forall2_length; eauto.
  - intros i x y Hx Hy. destruct (decide (i = index)) as [->|Hne].
    + rewrite list_lookup_insert_eq in Hx by (eapply lookup_lt_Some; eauto).
      injection Hx as <-. apply has_id_set_other; [discriminate|].
      eapply Forall2_lookup_lr; eauto.
    + rewrite list_lookup_insert_ne in Hx by congruence.
      eapply Forall2_lookup_lr; eauto.
Qed.

Lemma pairwise_distinct_snoc ids fid :
  pairwise_distinct ids -> py_in fid ids = false -> pairwise_distinct (ids ++ [fid]).
Proof.
  intros Hd Hin i j x y Hij Hi Hj.
  destruct (decide (j < List.length ids)%nat) as [Hlt|Hge].
  - rewrite lookup_app_l in Hi, Hj by lia. eauto.
  - rewrite lookup_app_l in Hi.
    2:{ apply lookup_lt_Some in Hj. rewrite length_app in Hj. simpl in Hj. lia. }
    rewrite lookup_app_r in Hj by lia.
    destruct (j - List.length ids)%nat; [|destruct n; discriminate].
    injection Hj as <-.
    unfold py_in in Hin.
    destruct (py_eq x fid) eqn:E; [|reflexivity].
    assert (existsb (fun e => py_eq e fid) ids = true); [|congruence].
    apply existsb_exists. exists x. split; [|exact E].
    apply list_elem_of_In. eapply list_elem_of_lookup_2; eauto.
Qed.

Lemma first_index_lt fts fid v index :
  Azure.first_index fts fid v = Ret index -> (v <= index < v + List.length fts)%nat.
Proof.
  revert v. induction fts as [|gf rest IH]; intros v; simpl; [discriminate|].
  destruct (py_item gf "id") as [gid|]; simpl; [|discriminate].
  destruct (py_eq gid fid).
  - destruct (for_each _ rest tt); simpl; [|discriminate]. intros [= <-]. lia.
  - intros H. apply IH in H. lia.
Qed.

Lemma merge_feature_invariant n san st feat st' :
  Azure.merge_feature san st feat = Ret st' ->
  merge_invariant n st -> merge_invariant n st'.
Proof.
  destruct st as [[fts new] ids]. unfold Azure.merge_feature, merge_invariant.
  destruct (py_item feat "id") as [fid|] eqn:Hid; simpl; [|discriminate].
  destruct (py_in fid ids) eqn:Hin.
  - destruct (Azure.first_index fts fid 0) as [index|] eqn:Hix; simpl; [|discriminate].
    destruct (fts !! index) as [gf|] eqn:Hgf; [|discriminate].
    destruct (py_item gf "searchAreaNumber") as [sn|]; simpl; [|discriminate].
    destruct gf as [| | | | |g]; try discriminate.
    intros [= <-] (HF & Hd & Hn).
    split; [|split; [exact Hd|rewrite length_insert; exact Hn]].
    apply Forall2_app_inv_l in HF as (ids1 & ids2 & HF1 & HF2 & ->).
    apply Forall2_app; [|exact HF2]. apply has_id_insert; assumption.
  - destruct feat as [| | | | |f]; try discriminate.
    intros [= <-] (HF & Hd & Hn).
    split; [|split; [apply pairwise_distinct_snoc; assumption|exact Hn]].
    rewrite app_assoc. apply Forall2_app; [exact HF|].
    constructor; [|constructor].
    apply has_id_set_other; [discriminate|exact Hid].
Qed.

Lemma flatten_area_invariant st area st' :
  Azure.flatten_area st area = Ret st' -> flat_invariant st -> flat_invariant st'.
Proof.
  unfold Azure.flatten_area, flat_invariant.
  destruct area as [| | | | |d]; try discriminate.
  destruct (dict_item "searchAreaNumber" d) as [san|]; simpl; [|discriminate].
  destruct (dict_item "features" _) as [features|]; simpl; [|discriminate].
  destruct (Azure.tag_features _ _ _) as [tagged|]; simpl; [|discriminate].
  destruct (py_iter tagged) as [feats|]; simpl; [|discriminate].
  destruct (for_each _ feats _) as [[[fts new] ids]|] eqn:Hloop; simpl; [|discriminate].
  destruct (dict_item "numberOfRequests" _) as [nr|]; simpl; [|discriminate].
  destruct (py_add _ nr) as [requests|]; simpl; [|discriminate].
  intros [= <-] (HF & Hd & Hr). cbn [Azure.fs_features Azure.fs_ids Azure.fs_returned].
  assert (Hm : merge_invariant (List.length (Azure.fs_features st)) (fts, new, ids)).
  { eapply (for_each_invariant (merge_invariant _)); [|intros; eapply merge_feature_invariant; eauto|exact Hloop].
    simpl. rewrite app_nil_r. auto. }
  destruct Hm as (HF' & Hd' & Hn).
  split; [exact HF'|]. split; [exact Hd'|].
  rewrite Hr, length_app, Hn. lia.
Qed.

Lemma flatten_areas_invariant search_areas st :
  Azure.flatten_areas search_areas = Ret st -> flat_invariant st.
Proof.
  unfold Azure.flatten_areas. intros H.
  eapply (for_each_invariant flat_invariant); [|intros; eapply flatten_area_invariant; eauto|exact H].
  split; [constructor|]. split; [|reflexivity].
  intros i j x y _ Hi. destruct i; discriminate.
Qed.

Lemma flat_geojson_counts st time_stamp :
  flat_invariant st ->
  counts_features (Azure.flat_geojson st time_stamp) /\
  distinct_ids (Azure.flat_geojson st time_stamp).
Proof.
  intros (HF & Hd & Hr). split.
  - eexists. exists (Azure.fs_features st). split; [reflexivity|].
    split; [reflexivity|]. simpl. rewrite Hr. reflexivity.
  - eexists. exists (Azure.fs_features st), (Azure.fs_ids st).
    split; [reflexivity|]. split; [reflexivity|]. auto.
Qed.

(** ** Result sets count their features (C9) *)

Section Yields.
Context {U : Type}.

Lemma yields_ret {A} (a : A) (P : A -> Prop) : P a -> yields (U := U) (ret a) P.
Proof. intros Ha w a' w' [= <- <-]. exact Ha. Qed.

Lemma yields_raise {A} e (P : A -> Prop) : yields (U := U) (raise e) P.
Proof. intros w a w' [=]. Qed.

Lemma yields_bind {A B} (c : M U A) (k : A -> M U B) (Q : A -> Prop) (P : B -> Prop) :
  yields c Q -> (forall a, Q a -> yields (k a) P) -> yields (bind c k) P.
Proof.
  intros Hc Hk w b w' H.
  apply bind_inv in H as [(a & w1 & H1 & H2)|(e & _ & [=])].
  eapply Hk; eauto.
Qed.

Lemma yields_lift {A} (c : outcome A) : yields (U := U) (lift c) (fun a => c = Ret a).
Proof. intros w a w' [= -> <-]. reflexivity. Qed.

Lemma yields_any {A} (c : M U A) : yields c (fun _ => True).
Proof. intros w a w' _. exact I. Qed.

Lemma offset_payload_is_error : Azure.is_error_response Azure.offset_payload = Ret true.
Proof. reflexivity. Qed.

Lemma limit_loop_early (func : callable U) kw q rl l bc fb fuel :
  forall rc off fs,
    yields (Azure.limit_loop fuel func kw q rl l bc fb rc off fs)
      (fun out => match out with
                  | inl jr => Azure.is_error_response jr = Ret true
                  | inr _ => True
                  end).
Proof.
  induction fuel as [|fuel IH]; intros rc off fs; cbn [Azure.limit_loop];
    destruct (_ && _); try solve [apply yields_ret; exact I].
  - intros w a w' [=].
  - eapply yields_bind; [apply yields_any|intros _ _].
    eapply yields_bind; [apply yields_any|intros _ _].
    eapply yields_bind; [apply yields_any|intros jr _].
    eapply yields_bind; [apply yields_lift|intros is_error His].
    destruct is_error; [apply yields_ret; exact His|].
    eapply yields_bind; [apply yields_any|intros page _].
    eapply yields_bind; [apply yields_any|intros page' _].
    eapply yields_bind; [apply yields_any|intros next _].
    destruct next; [apply yields_ret; exact I|apply IH].
Qed.

Lemma limit_extension_counts (svc : services U) (func : callable U) fuel kw :
  yields (Azure.limit_extension svc fuel func kw)
    (fun res => Azure.is_error_response res = Ret true \/ counts_features res).
Proof.
  unfold Azure.limit_extension.
  eapply yields_bind; [apply yields_any|intros query_params _].
  eapply yields_bind; [apply yields_any|intros q _].
  destruct (dict_mem _ _); [apply yields_ret; left; reflexivity|].
  destruct (match default None (kw_limit kw) with Some _ => _ | None => _ end).
  destruct (_ && _); [apply yields_raise|].
  eapply yields_bind; [apply limit_loop_early|].
  intros [jr|[request_count features]] Hout.
  - apply yields_ret. left. exact Hout.
  - eapply yields_bind; [apply yields_any|intros time_stamp _].
    apply yields_ret. right. eexists. exists features.
    split; [reflexivity|]. split; reflexivity.
Qed.

Lemma search_parts_early (func : callable U) kw partial_geoms :
  forall search_area search_areas,
    yields (Azure.search_parts func kw partial_geoms search_area search_areas)
      (fun out => match out with
                  | inl jr => Azure.is_error_response jr = Ret true
                  | inr _ => True
                  end).
Proof.
  induction partial_geoms as [|geom rest IH]; intros search_area search_areas;
    cbn [Azure.search_parts].
  - apply yields_ret. exact I.
  - eapply yields_bind; [apply yields_any|intros jr _].
    eapply yields_bind; [apply yields_lift|intros is_error His].
    destruct is_error; [apply yields_ret; exact His|].
    destruct jr; try apply yields_raise. apply IH.
Qed.

Lemma flatten_search_areas_counts (svc : services U) search_areas :
  yields (Azure.flatten_search_areas svc search_areas)
    (fun res => counts_features res /\ distinct_ids res).
Proof.
  unfold Azure.flatten_search_areas.
  eapply yields_bind; [apply yields_lift|intros st Hst].
  eapply yields_bind; [apply yields_any|intros time_stamp _].
  apply yields_ret. apply flat_geojson_counts.
  exact (flatten_areas_invariant _ _ Hst).
Qed.

Lemma multigeometry_counts (svc : services U) (func : callable U) kw :
  default false (kw_hierarchical_output kw) = false ->
  yields (Azure.multigeometry_search_extension svc func kw)
    (fun res => Azure.is_error_response res = Ret true \/
                (counts_features res /\ distinct_ids res)).
Proof.
  intros Hh. unfold Azure.multigeometry_search_extension.
  destruct (kw_wkt kw) as [wkt|]; [|apply yields_raise].
  destruct (match wkt with WktStr _ => _ | WktGeom _ => _ end) as [full_geom|];
    [|apply yields_ret; left; reflexivity].
  eapply yields_bind; [apply search_parts_early|].
  intros [jr|search_areas] Hout.
  - apply yields_ret. left. exact Hout.
  - rewrite Hh. intros w a w' H. right.
    eapply flatten_search_areas_counts; eauto.
Qed.

End Yields.

Section CollectionCounts.
Context {U : Type}.

Lemma results_set_elem col r results c ch :
  In (c, ch) (Azure.results_set col r results) -> In (c, ch) results \/ ch = r.
Proof.
  induction results as [|[c0 r0] results IH]; simpl.
  - intros [[= _ <-]|[]]. now right.
  - destruct (py_eq c0 col); simpl.
    + intros [[= <- <-]|H]; auto.
    + intros [H|H]; auto. destruct (IH H); auto.
Qed.

Lemma code_at_least_400 d :
  py_ge (default (VInt 200) (dict_get "code" d)) 400 = Ret true ->
  Azure.is_error_response (VDict d) = Ret true.
Proof.
  unfold Azure.is_error_response, py_get, py_item, dict_item.
  destruct (dict_get "code" d) as [code|]; simpl; [|discriminate].
  unfold py_ge. destruct code as [|b| | | |]; simpl; try discriminate.
  - destruct b; discriminate.
  - intros [= H]. apply Z.leb_le in H.
    destruct (n =? 0)%Z eqn:E; [lia|]. simpl. unfold py_ge. simpl.
    f_equal. apply Z.leb_le. exact H.
Qed.

Lemma code_is_404 code :
  py_eq code (VInt 404) = true -> py_ge code 400 = Ret true.
Proof.
  destruct code as [|b| | | |]; simpl; try discriminate.
  - destruct b; discriminate.
  - intros H. apply Z.eqb_eq in H. subst. reflexivity.
Qed.

Lemma fetch_collections_children (func : callable U) kw hier collection :
  forall results w out w',
    Azure.fetch_collections (traced func) kw hier collection results w
      = Some (Ret out, w') ->
    exists calls,
      journal_of w' = journal_of w ++ calls /\
      match out with
      | inl jr => Azure.is_error_response jr = Ret true
      | inr res =>
          forall col child,
            In (col, child) res ->
            In (col, child) results \/ exists kwi, In (Called kwi (Ret child)) calls
      end.
Proof.
  induction collection as [|col rest IH]; intros results w out w' H;
    cbn [Azure.fetch_collections] in H.
  - injection H as <- <-. exists []. rewrite app_nil_r. split; auto.
  - apply bind_inv in H as [(jr & w1 & H1 & H)|(e & _ & [=])].
    apply traced_inv in H1.
    destruct jr as [| | | | |d]; try discriminate.
    apply bind_inv in H as [(code & w2 & Hc & H)|(e & _ & [=])].
    injection Hc as <- <-.
    set (code := default (VInt 200) (dict_get "code" d)) in *.
    apply bind_inv in H as [(ns & w3 & Hns & H)|(e & _ & [=])].
    assert (Hj3 : journal_of w3 = journal_of w1 /\
                  (ns = true -> py_eq code (VInt 404) = true)).
    { destruct (py_eq code (VInt 404)).
      - split; [|reflexivity].
        exact (quiet_bind (lift _) (fun description => lift _)
                 (quiet_lift _) (fun _ => quiet_lift _) _ _ _ Hns).
      - injection Hns as <- <-. split; [reflexivity|discriminate]. }
    destruct Hj3 as [Hj3 H404].
    destruct ns.
    { injection H as <- <-. eexists. rewrite Hj3. split; [exact H1|].
      apply code_at_least_400. apply code_is_404. auto. }
    apply bind_inv in H as [(failed & w4 & Hf & H)|(e & _ & [=])].
    apply lift_inv in Hf as [Hf ->].
    destruct failed.
    { injection H as <- <-. eexists. rewrite Hj3. split; [exact H1|].
      apply code_at_least_400. auto. }
    destruct (Azure.hashable col); [|discriminate].
    apply IH in H as (calls & Hj & Hout).
    exists (Called (Azure.for_collection kw col hier) (Ret (VDict d)) :: calls).
    rewrite Hj, Hj3, H1, <- app_assoc. split; [reflexivity|].
    destruct out as [jr|res]; [exact Hout|].
    intros c ch Hin. destruct (Hout _ _ Hin) as [Hr|(kwi & Hk)].
    + apply results_set_elem in Hr as [Hr| ->]; [now left|].
      right. eexists. left. reflexivity.
    + right. exists kwi. right. exact Hk.
Qed.

Lemma merge_collections_counts results st :
  Azure.merge_collections results = Ret st ->
  (forall col child, In (col, child) results -> counts_features child) ->
  Azure.ms_returned st = Z.of_nat (List.length (Azure.ms_features st)).
Proof.
  unfold Azure.merge_collections. intros H Hch.
  apply (for_each_invariant
           (fun st => Azure.ms_returned st = Z.of_nat (List.length (Azure.ms_features st)))
           Azure.merge_collection results Azure.merge_init st);
    [reflexivity| |exact H].
  clear st H. intros st [col child] st' Hin Hst.
  destruct (Hch _ _ Hin) as (d & fs & -> & Hfs & Hn).
  unfold Azure.merge_collection, py_item, dict_item. rewrite Hfs, Hn. simpl.
  destruct (dict_get "numberOfRequests" d) as [nr|]; simpl; [|discriminate].
  destruct (py_add _ nr); simpl; [|discriminate].
  intros [= <-]. simpl. rewrite Hst, length_app. lia.
Qed.

Lemma multiple_collections_counts (svc : services U) (func : callable U) kw
    (w : world (U * journal)) res w' :
  default false (kw_hierarchical_output kw) = false ->
  Azure.multiple_collections_extension (traced_services svc) (traced func) kw w
    = Some (Ret res, w') ->
  Azure.is_error_response res = Ret false ->
  (forall kwi child,
     In (Called kwi (Ret child)) (drop (List.length (journal_of w)) (journal_of w')) ->
     counts_features child) ->
  counts_features res.
Proof.
  intros Hh H Hok Hch. unfold Azure.multiple_collections_extension in H.
  destruct (kw_collection kw) as [collection|]; [|discriminate].
  rewrite Hh in H.
  apply bind_inv in H as [(cols & w1 & H1 & H)|(e & _ & [=])].
  assert (Hpre : exists evs, journal_of w1 = journal_of w ++ evs).
  { destruct (default false (kw_use_latest_collection kw)).
    - destruct (harmless_apply_latest svc collection _ _ _ H1) as (evs & ? & _); eauto.
    - apply lift_inv in H1 as [_ ->]. exists []. now rewrite app_nil_r. }
  destruct Hpre as (evs & Hevs).
  apply bind_inv in H as [(out & w2 & H2 & H)|(e & _ & [=])].
  apply fetch_collections_children in H2 as (calls & Hj & Hout).
  destruct out as [jr|results].
  { injection H as <- <-. congruence. }
  apply bind_inv in H as [(st & w3 & H3 & H)|(e & _ & [=])].
  apply lift_inv in H3 as [H3 ->].
  apply bind_inv in H as [(ts & w4 & H4 & H)|(e & _ & [=])].
  injection H4 as <- <-. injection H as <- <-.
  eexists. exists (Azure.ms_features st). split; [reflexivity|].
  split; [reflexivity|]. simpl. f_equal. f_equal.
  apply (merge_collections_counts results); [auto|].
  intros col child Hin. destruct (Hout _ _ Hin) as [[]|(kwi & Hk)].
  apply (Hch kwi). rewrite Hj, Hevs, <- app_assoc, drop_app_length.
  apply in_or_app. now right.
Qed.

End CollectionCounts.

(** C9: a result that is not an error payload satisfies
    [numberReturned = len(features)] when it comes from the pagination
    coordinator or from the flattened geometry fan-out, whose feature
    identifiers are moreover pairwise distinct; and when it comes from the
    flattened collection fan-out, provided every result the wrapped function
    returned during the run satisfies that equality. *)
Theorem result_sets_count_features {U : Type} (res : value) :
  Azure.is_error_response res = Ret false ->
  (forall (svc : services U) (func : callable U) fuel kw (w w' : world U),
     Azure.limit_extension svc fuel func kw w = Some (Ret res, w') ->
     counts_features res) /\
  (forall (svc : services U) (func : callable U) kw (w w' : world U),
     default false (kw_hierarchical_output kw) = false ->
     Azure.multigeometry_search_extension svc func kw w = Some (Ret res, w') ->
     counts_features res /\ distinct_ids res) /\
  (forall (svc : services U) (func : callable U) kw (w w' : world (U * journal)),
     default false (kw_hierarchical_output kw) = false ->
     Azure.multiple_collections_extension (traced_services svc) (traced func) kw w
       = Some (Ret res, w') ->
     (forall kwi child,
        In (Called kwi (Ret child)) (drop (List.length (journal_of w)) (journal_of w')) ->
        counts_features child) ->
     counts_features res).
Proof.
  intros Hok. split; [|split].
  - intros svc func fuel kw w w' H.
    destruct (limit_extension_counts svc func fuel kw _ _ _ H) as [He|Hc];
      [congruence|exact Hc].
  - intros svc func kw w w' Hh H.
    destruct (multigeometry_counts svc func kw Hh _ _ _ H) as [He|Hc];
      [congruence|exact Hc].
  - intros svc func kw w w' Hh H Hch.
    eapply multiple_collections_counts; eauto.
Qed.

Lemma result_sets_count_features_witness :
  exists res w',
    Azure.limit_extension (idle_services (list dict)) 3 (paged_upstream 3) (with_limit 2)
      (start [])
    = Some (Ret res, w') /\
    counts_features res.
Proof.
  eexists. eexists. split; [vm_compute; reflexivity|].
  eapply (proj1 (result_sets_count_features (U := list dict) _ _)
            (idle_services (list dict)) (paged_upstream 3) 3 (with_limit 2) (start [])).
  vm_compute. reflexivity.
  Unshelve. reflexivity.
Defined.

(** ** Flattening the search areas: one identifier in two parts (C2) *)

Lemma first_index_spec fts fid v index :
  Azure.first_index fts fid v = Ret index ->
  exists gf gid,
    fts !! (index - v)%nat = Some gf /\ has_id gf gid /\ py_eq gid fid = true.
Proof.
  revert v. induction fts as [|gf rest IH]; intros v; simpl; [discriminate|].
  destruct (py_item gf "id") as [gid|] eqn:Hid; simpl; [|discriminate].
  destruct (py_eq gid fid) eqn:Heq.
  - destruct (for_each _ rest tt); simpl; [|discriminate]. intros [= <-].
    rewrite Nat.sub_diag. exists gf, gid. auto.
  - intros H. pose proof (first_index_lt _ _ _ _ H) as Hlt.
    apply IH in H as (gf' & gid' & Hl & Hg).
    exists gf', gid'. split; [|exact Hg].
    replace (index - v)%nat with (Datatypes.S (index - Datatypes.S v)) by lia. exact Hl.
Qed.

Lemma has_id_dict g y : has_id (VDict g) y <-> dict_get "id" g = Some y.
Proof.
  unfold has_id, py_item, dict_item. destruct (dict_get "id" g); split; congruence.
Qed.

Lemma py_in_true x ids :
  py_in x ids = true -> exists q e, ids !! q = Some e /\ py_eq e x = true.
Proof.
  unfold py_in. intros H. apply existsb_exists in H as (e & He & Heq).
  apply list_elem_of_In, list_elem_of_lookup_1 in He as (q & Hq). eauto.
Qed.

Lemma py_in_lookup x ids q e :
  ids !! q = Some e -> py_eq e x = true -> py_in x ids = true.
Proof.
  intros Hq He. unfold py_in. apply existsb_exists. exists e. split; [|exact He].
  apply list_elem_of_In. eapply list_elem_of_lookup_2; eauto.
Qed.

Lemma plain_eq x y : plain_id x -> plain_id y -> py_eq y x = true -> y = x.
Proof.
  destruct x, y; simpl; try tauto; try discriminate; intros _ _ H.
  - apply Z.eqb_eq in H. congruence.
  - apply String.eqb_eq in H. congruence.
Qed.

Lemma plain_differs x y : plain_id x -> plain_id y -> py_eq y x = false -> differs x y.
Proof.
  destruct x, y; simpl; try tauto; intros _ _ H; split; try reflexivity; cbn [py_eq].
  - rewrite Z.eqb_sym. exact H.
  - exact H.
  - rewrite String.eqb_sym. exact H.
  - exact H.
Qed.

Lemma plain_refl x : plain_id x -> py_eq x x = true.
Proof.
  destruct x; simpl; try tauto; intros _;
    [apply Z.eqb_refl|apply String.eqb_refl].
Qed.

Section Tracking.
Variables (x san : value).

(** A feature with another identifier leaves the tracked one alone. *)
Lemma merge_other_tracked s g0 p fts new ids feat y st' :
  has_id feat y -> differs x y ->
  Azure.merge_feature san (fts, new, ids) feat = Ret st' ->
  tracked_at x s g0 p (fts ++ new) ->
  tracked_at x s g0 p (fst (fst st') ++ snd (fst st')).
Proof.
  intros Hy [Hxy Hyx]. unfold Azure.merge_feature. rewrite Hy. simpl.
  destruct (py_in y ids).
  - destruct (Azure.first_index fts y 0) as [index|] eqn:Hix; simpl; [|discriminate].
    pose proof (first_index_lt _ _ _ _ Hix) as Hlt.
    apply first_index_spec in Hix as (gf & gid & Hgf & Hgid & Heq).
    rewrite Nat.sub_0_r in Hgf. rewrite Hgf.
    destruct (py_item gf "searchAreaNumber") as [sn|]; simpl; [|discriminate].
    destruct gf as [| | | | |g1]; try discriminate.
    intros [= <-] [(g & Hp & Hgx & Hgs & Hag) Huniq]. simpl.
    assert (Hne : index <> p).
    { intros ->. rewrite lookup_app_l in Hp by lia. rewrite Hgf in Hp.
      injection Hp as ->. apply has_id_dict in Hgid. congruence. }
    rewrite <- insert_app_l by lia. split.
    + exists g. rewrite list_lookup_insert_ne by exact Hne. auto.
    + intros q gq z Hq Hgq Hz.
      destruct (decide (q = index)) as [->|Hqi].
      * rewrite list_lookup_insert_eq in Hgq
          by (rewrite length_app; lia).
        injection Hgq as <-.
        apply (Huniq index (VDict g1) z Hq).
        -- rewrite lookup_app_l by lia. exact Hgf.
        -- apply has_id_dict in Hz. apply has_id_dict.
           rewrite dict_get_set_ne in Hz by discriminate. exact Hz.
      * rewrite list_lookup_insert_ne in Hgq by congruence. eauto.
  - destruct feat as [| | | | |f]; try discriminate.
    intros [= <-] [(g & Hp & Hgx & Hgs & Hag) Huniq]. simpl.
    rewrite app_assoc. split.
    + exists g. rewrite lookup_app_l by (eapply lookup_lt_Some; eauto). auto.
    + intros q gq z Hq Hgq Hz.
      destruct (decide (q < List.length (fts ++ new))%nat) as [Hlt|Hge].
      * rewrite lookup_app_l in Hgq by exact Hlt. eauto.
      * rewrite lookup_app_r in Hgq by lia.
        destruct (q - List.length (fts ++ new))%nat; [|destruct n; discriminate].
        injection Hgq as <-. apply has_id_dict in Hz.
        rewrite dict_get_set_ne in Hz by discriminate.
        apply has_id_dict in Hy. rewrite Hy in Hz. injection Hz as <-. split; assumption.
Qed.

(** The same, while the identifier has not been seen yet. *)
Lemma merge_other_absent fts new ids feat y st' :
  has_id feat y -> differs x y ->
  Azure.merge_feature san (fts, new, ids) feat = Ret st' ->
  absent x (fts ++ new) ->
  absent x (fst (fst st') ++ snd (fst st')).
Proof.
  intros Hy [Hxy Hyx]. unfold Azure.merge_feature. rewrite Hy. simpl.
  destruct (py_in y ids).
  - destruct (Azure.first_index fts y 0) as [index|] eqn:Hix; simpl; [|discriminate].
    pose proof (first_index_lt _ _ _ _ Hix) as Hlt.
    apply first_index_spec in Hix as (gf & gid & Hgf & Hgid & Heq).
    rewrite Nat.sub_0_r in Hgf. rewrite Hgf.
    destruct (py_item gf "searchAreaNumber") as [sn|]; simpl; [|discriminate].
    destruct gf as [| | | | |g1]; try discriminate.
    intros [= <-] Habs. simpl.
    rewrite <- insert_app_l by lia.
    intros q gq z Hgq Hz.
    destruct (decide (q = index)) as [->|Hqi].
    + rewrite list_lookup_insert_eq in Hgq by (rewrite length_app; lia).
      injection Hgq as <-.
      apply (Habs index (VDict g1) z).
      * rewrite lookup_app_l by lia. exact Hgf.
      * apply has_id_dict in Hz. apply has_id_dict.
        rewrite dict_get_set_ne in Hz by discriminate. exact Hz.
    + rewrite list_lookup_insert_ne in Hgq by congruence. eauto.
  - destruct feat as [| | | | |f]; try discriminate.
    intros [= <-] Habs. simpl. rewrite app_assoc.
    intros q gq z Hgq Hz.
    destruct (decide (q < List.length (fts ++ new))%nat) as [Hlt|Hge].
    + rewrite lookup_app_l in Hgq by exact Hlt. eauto.
    + rewrite lookup_app_r in Hgq by lia.
      destruct (q - List.length (fts ++ new))%nat; [|destruct n; discriminate].
      injection Hgq as <-. apply has_id_dict in Hz.
      rewrite dict_get_set_ne in Hz by discriminate.
      apply has_id_dict in Hy. rewrite Hy in Hz. injection Hz as <-. split; assumption.
Qed.

(** The first feature with the identifier is added, tagged with the number
    of its area. *)
Lemma merge_first n fts new ids f st' :
  has_id (VDict f) x ->
  merge_invariant n (fts, new, ids) ->
  absent x (fts ++ new) ->
  Azure.merge_feature san (fts, new, ids) (VDict f) = Ret st' ->
  tracked_at x san f (List.length (fts ++ new)) (fst (fst st') ++ snd (fst st')).
Proof.
  intros Hx (HF & _ & _) Habs. unfold Azure.merge_feature. rewrite Hx. simpl.
  destruct (py_in x ids) eqn:Hin.
  - exfalso. apply py_in_true in Hin as (q & e & Hq & He).
    destruct (Forall2_lookup_r _ _ _ _ _ HF Hq) as (gq & Hgq & Hid).
    destruct (Habs _ _ _ Hgq Hid) as [_ Hne]. congruence.
  - intros [= <-]. simpl.
    rewrite app_assoc. split.
    + exists (dict_set "searchAreaNumber" san f).
      rewrite lookup_app_r by lia. rewrite Nat.sub_diag.
      split; [reflexivity|]. split; [|split].
      * rewrite dict_get_set_ne by discriminate. apply has_id_dict. exact Hx.
      * apply dict_get_set_eq.
      * intros k Hk. apply dict_get_set_ne. congruence.
    + intros q gq z Hq Hgq Hz.
      destruct (decide (q < List.length (fts ++ new))%nat) as [Hlt|Hge].
      * rewrite lookup_app_l in Hgq by exact Hlt. eauto.
      * rewrite lookup_app_r in Hgq by lia.
        destruct (q - List.length (fts ++ new))%nat eqn:E; [lia|].
        destruct n0; discriminate.
Qed.

(** A later feature with the identifier is not added: the area number goes
    to the feature already there, whose scalar tag becomes a list.  The
    feature already there is one of an earlier area: the lookup fails for a
    feature of the same area. *)
Lemma merge_collision n s g0 p fts new ids feat st' :
  has_id feat x -> py_eq x x = true ->
  merge_invariant n (fts, new, ids) ->
  tracked_at x s g0 p (fts ++ new) ->
  Azure.merge_feature san (fts, new, ids) feat = Ret st' ->
  tracked_at x (VList (match s with VList ns => ns | _ => [s] end ++ [san])) g0 p
    (fst (fst st') ++ snd (fst st')).
Proof.
  intros Hx Hrefl (HF & _ & _) [(g & Hp & Hgx & Hgs & Hag) Huniq].
  unfold Azure.merge_feature. rewrite Hx. simpl.
  destruct (py_in x ids) eqn:Hin.
  - destruct (Azure.first_index fts x 0) as [index|] eqn:Hix; simpl; [|discriminate].
    pose proof (first_index_lt _ _ _ _ Hix) as Hil.
    apply first_index_spec in Hix as (gf & gid & Hgf & Hgid & Heq).
    rewrite Nat.sub_0_r in Hgf.
    assert (index = p) as ->.
    { destruct (decide (index = p)) as [|Hne]; [assumption|exfalso].
      assert (Hd : differs x gid).
      { apply (Huniq index gf gid Hne); [|exact Hgid].
        rewrite lookup_app_l by lia. exact Hgf. }
      destruct Hd. congruence. }
    rewrite lookup_app_l in Hp by lia. rewrite Hgf in Hp. injection Hp as ->.
    rewrite Hgf. unfold py_item, dict_item. rewrite Hgs. simpl.
    intros [= <-]. simpl.
    rewrite <- insert_app_l by lia. split.
    + eexists.
      rewrite list_lookup_insert_eq by (rewrite length_app; lia).
      split; [reflexivity|]. split; [|split].
      * rewrite dict_get_set_ne by discriminate. exact Hgx.
      * apply dict_get_set_eq.
      * intros k Hk. rewrite dict_get_set_ne by congruence. apply Hag. exact Hk.
    + intros q gq z Hq Hgq Hz.
      rewrite list_lookup_insert_ne in Hgq by congruence. eauto.
  - exfalso.
    destruct (Forall2_lookup_l _ _ _ _ _ HF Hp) as (e & He & Hid).
    apply has_id_dict in Hid. rewrite Hgx in Hid. injection Hid as <-.
    rewrite (py_in_lookup _ _ _ _ He Hrefl) in Hin. discriminate.
Qed.

End Tracking.

Lemma dict_get_remove_ne k k' d :
  k <> k' -> dict_get k' (dict_remove k d) = dict_get k' d.
Proof.
  intros Hne. induction d as [|[k0 v0] d IH]; simpl; [reflexivity|].
  destruct (String.eqb k k0) eqn:E; simpl.
  - apply String.eqb_eq in E. subst k0.
    destruct (String.eqb k' k) eqn:E'; [apply String.eqb_eq in E'; congruence|reflexivity].
  - destruct (String.eqb k' k0); auto.
Qed.

Lemma for_each_map_spec {A B} (g : A -> outcome B) l acc out :
  for_each (fun acc f => let? f' := g f in Ret (acc ++ [f'])) l acc = Ret out ->
  exists l', out = acc ++ l' /\ Forall2 (fun f f' => g f = Ret f') l l'.
Proof.
  revert acc. induction l as [|f l IH]; intros acc; simpl.
  - intros [= <-]. exists []. rewrite app_nil_r. split; [reflexivity|constructor].
  - destruct (g f) as [f'|] eqn:Hg; simpl; [|discriminate].
    intros H. apply IH in H as (l' & -> & HF).
    exists (f' :: l'). rewrite <- app_assoc. split; [reflexivity|].
    constructor; assumption.
Qed.

Lemma tag_feature_id key v f f' y :
  key <> "id" -> Azure.tag_feature key v f = Ret f' -> (has_id f' y <-> has_id f y).
Proof.
  intros Hk. unfold Azure.tag_feature.
  destruct f as [| | | | |d]; try discriminate.
  destruct (dict_item "properties" _) as [props|]; simpl; [|discriminate].
  destruct props; try discriminate. intros [= <-].
  rewrite !has_id_dict.
  rewrite dict_get_set_ne by discriminate.
  rewrite dict_get_set_ne by exact Hk. reflexivity.
Qed.

Lemma tagged_dict san f f' : tagged san f f' -> exists d, f' = VDict d.
Proof.
  unfold tagged, Azure.tag_feature.
  destruct f as [| | | | |d]; try discriminate.
  destruct (dict_item "properties" _) as [props|]; simpl; [|discriminate].
  destruct props; try discriminate. intros [= <-]. eauto.
Qed.

(** One turn of the loop over the areas, taken apart. *)
Lemma flatten_area_inv st area st' :
  Azure.flatten_area st area = Ret st' ->
  exists san feats fts new ids,
    area_number area = Some san /\
    Forall2 (tagged san) (area_features area) feats /\
    for_each (Azure.merge_feature san) feats (Azure.fs_features st, [], Azure.fs_ids st)
      = Ret (fts, new, ids) /\
    Azure.fs_features st' = fts ++ new /\
    Azure.fs_ids st' = ids /\
    Azure.fs_requests st' = (Azure.fs_requests st + area_requests area)%Z.
Proof.
  unfold Azure.flatten_area.
  destruct area as [| | | | |d]; try discriminate.
  unfold dict_item at 1.
  destruct (dict_get "searchAreaNumber" d) as [san|] eqn:Hsan; simpl; [|discriminate].
  unfold dict_item at 1. rewrite dict_get_remove_ne by discriminate.
  destruct (dict_get "features" d) as [features|] eqn:Hfs; simpl; [|discriminate].
  destruct (Azure.tag_features _ _ _) as [tg|] eqn:Htag; simpl; [|discriminate].
  destruct (py_iter tg) as [feats|] eqn:Hit; simpl; [|discriminate].
  destruct (for_each _ feats _) as [[[fts new] ids]|] eqn:Hloop; simpl; [|discriminate].
  unfold dict_item. rewrite dict_get_remove_ne by discriminate.
  destruct (dict_get "numberOfRequests" d) as [nr|] eqn:Hnr; simpl; [|discriminate].
  unfold py_add. destruct (as_int nr) as [m|] eqn:Hm; simpl; [|discriminate].
  intros [= <-]. exists san, feats, fts, new, ids. simpl.
  split; [exact Hsan|]. split; [|auto].
  unfold Azure.tag_features in Htag.
  destruct (py_iter features) as [elems|] eqn:Hel; simpl in Htag; [|discriminate].
  destruct (for_each _ elems []) as [tl|] eqn:Htl; simpl in Htag; [|discriminate].
  apply for_each_map_spec in Htl as (l' & -> & HF). simpl in *.
  destruct features; injection Htag as <-; try discriminate;
    try (simpl in Hit; injection Hit as <-; simpl in Hel; injection Hel as <-; exact HF).
  - (* a string: iterating gives one-character strings, which cannot be tagged *)
    rewrite Hel in Hit. injection Hit as <-.
    destruct HF as [|e f' ? ? Hbad]; [constructor|].
    exfalso. simpl in Hel.
    destruct s; simpl in Hel; [discriminate|]. injection Hel as <- _.
    discriminate.
  - (* a dictionary: iterating gives its keys *)
    rewrite Hel in Hit. injection Hit as <-.
    destruct HF as [|e f' ? ? Hbad]; [constructor|].
    exfalso. simpl in Hel. destruct d0 as [|[k v] d0]; [discriminate|].
    injection Hel as <- _. discriminate.
Qed.

Lemma merge_feature_has_id san st feat st' :
  Azure.merge_feature san st feat = Ret st' -> exists y, has_id feat y.
Proof.
  destruct st as [[fts new] ids]. unfold Azure.merge_feature, has_id.
  destruct (py_item feat "id") as [y|]; simpl; [eauto|discriminate].
Qed.

Lemma flat_merge_invariant st :
  flat_invariant st ->
  merge_invariant (List.length (Azure.fs_features st))
    (Azure.fs_features st, [], Azure.fs_ids st).
Proof. intros (HF & Hd & _). simpl. rewrite app_nil_r. auto. Qed.

Section Occurrences.
Variable x : value.
Hypothesis Hx : plain_id x.

(** One turn of the inner loop, for a feature whose identifier is or is not
    the one followed. *)
Lemma merge_feature_merged san n st f feat st' occ :
  is_list san = false ->
  Forall (fun o => is_list (fst o) = false) occ ->
  tagged san f feat ->
  (forall y, has_id f y -> plain_id y) ->
  merge_invariant n st ->
  merged x occ (fst (fst st) ++ snd (fst st)) ->
  Azure.merge_feature san st feat = Ret st' ->
  merged x (occ ++ map (fun f => (san, f)) (List.filter (carries x) [f]))
    (fst (fst st') ++ snd (fst st')).
Proof using Hx.
  intros Hsan Hocc Htag Hplain Hinv Hm Hstep.
  destruct (merge_feature_has_id _ _ _ _ Hstep) as (y & Hy).
  pose proof (proj1 (tag_feature_id "searchAreaNumber" _ _ _ y ltac:(discriminate) Htag) Hy)
    as Hfy.
  pose proof (Hplain y Hfy) as Hpy.
  destruct st as [[fts new] ids]. cbn [fst snd] in Hm |- *.
  cbn [List.filter]. unfold carries at 1. unfold has_id in Hfy. rewrite Hfy.
  destruct (py_eq y x) eqn:Heq.
  - apply (plain_eq _ _ Hx Hpy) in Heq. subst y. cbn [map].
    destruct occ as [|[san0 f0] later]; cbn [app].
    + destruct (tagged_dict _ _ _ Htag) as [g ->].
      exists (List.length (fts ++ new)), g. split; [exact Htag|].
      apply (merge_first x san n fts new ids g st' Hy Hinv Hm Hstep).
    + destruct Hm as (p & g0 & Htag0 & Ht). exists p, g0. split; [exact Htag0|].
      pose proof (merge_collision x san n _ g0 p fts new ids feat st' Hy
                    (plain_refl _ Hx) Hinv Ht Hstep) as Ht'.
      inversion Hocc as [|? ? Hs0 Hlater]; subst. cbn [fst] in Hs0.
      destruct later as [|o later]; cbn [promoted app map] in Ht' |- *.
      * destruct san0; try discriminate; exact Ht'.
      * rewrite map_app. exact Ht'.
  - cbn [map]. rewrite app_nil_r.
    pose proof (plain_differs _ _ Hx Hpy Heq) as Hd.
    destruct occ as [|[san0 f0] later].
    + apply (merge_other_absent x san fts new ids feat y st' Hy Hd Hstep Hm).
    + destruct Hm as (p & g0 & Htag0 & Ht). exists p, g0. split; [exact Htag0|].
      apply (merge_other_tracked x san _ g0 p fts new ids feat y st' Hy Hd Hstep Ht).
Qed.

(** The inner loop over the features of one area. *)
Lemma loop_merged san n orig feats :
  is_list san = false ->
  Forall2 (tagged san) orig feats ->
  (forall f y, In f orig -> has_id f y -> plain_id y) ->
  forall st st' occ,
    Forall (fun o => is_list (fst o) = false) occ ->
    merge_invariant n st ->
    merged x occ (fst (fst st) ++ snd (fst st)) ->
    for_each (Azure.merge_feature san) feats st = Ret st' ->
    merged x (occ ++ map (fun f => (san, f)) (List.filter (carries x) orig))
      (fst (fst st') ++ snd (fst st')).
Proof using Hx.
  intros Hsan HF. induction HF as [|f feat orig feats Htag _ IH];
    intros Hplain st st' occ Hocc Hinv Hm; cbn [for_each].
  - intros [= <-]. cbn [List.filter map]. rewrite app_nil_r. exact Hm.
  - destruct (Azure.merge_feature san st feat) as [st1|] eqn:Hstep; cbn [obind];
      [|discriminate].
    intros Hloop.
    pose proof (merge_feature_merged san n st f feat st1 occ Hsan Hocc Htag
                  (fun y => Hplain f y (or_introl eq_refl)) Hinv Hm Hstep) as Hm1.
    pose proof (merge_feature_invariant _ _ _ _ _ Hstep Hinv) as Hinv1.
    assert (Hocc1 : Forall (fun o => is_list (fst o) = false)
                      (occ ++ map (fun f => (san, f)) (List.filter (carries x) [f]))).
    { apply Forall_app. split; [exact Hocc|].
      cbn [List.filter]. destruct (carries x f); repeat constructor. exact Hsan. }
    pose proof (IH (fun f' y Hin => Hplain f' y (or_intror Hin)) st1 st' _ Hocc1 Hinv1 Hm1 Hloop)
      as Hm'.
    rewrite <- app_assoc, <- map_app in Hm'.
    change (f :: orig) with ([f] ++ orig). rewrite List.filter_app. exact Hm'.
Qed.

(** One area. *)
Lemma area_merged st area st' n occ :
  Azure.flatten_area st area = Ret st' -> flat_invariant st ->
  area_number area = Some (VInt n) ->
  (forall f y, In f (area_features area) -> has_id f y -> plain_id y) ->
  Forall (fun o => is_list (fst o) = false) occ ->
  merged x occ (Azure.fs_features st) ->
  merged x (occ ++ area_occurrences x area) (Azure.fs_features st').
Proof using Hx.
  intros Hrun Hinv Hnum Hplain Hocc Hm.
  apply flatten_area_inv in Hrun
    as (san & feats & fts & new & ids & Hsan & HF & Hloop & -> & _ & _).
  rewrite Hnum in Hsan. injection Hsan as <-.
  unfold area_occurrences. rewrite Hnum.
  apply (loop_merged (VInt n) (List.length (Azure.fs_features st)) _ _ eq_refl HF Hplain
           _ (fts, new, ids) occ Hocc (flat_merge_invariant st Hinv)); [|exact Hloop].
  cbn [fst snd]. rewrite app_nil_r. exact Hm.
Qed.

(** All the areas. *)
Lemma areas_merged areas :
  Forall (fun a => exists n, area_number a = Some (VInt n)) areas ->
  (forall f y, In f (List.concat (map area_features areas)) -> has_id f y -> plain_id y) ->
  forall st st' occ,
    for_each Azure.flatten_area areas st = Ret st' -> flat_invariant st ->
    Forall (fun o => is_list (fst o) = false) occ ->
    merged x occ (Azure.fs_features st) ->
    merged x (occ ++ occurrences x areas) (Azure.fs_features st').
Proof using Hx.
  induction 1 as [|area areas [n Hn] _ IH]; intros Hplain st st' occ; cbn [for_each].
  - intros [= <-] _ _ Hm. cbn. rewrite app_nil_r. exact Hm.
  - destruct (Azure.flatten_area st area) as [st1|] eqn:Hstep; cbn [obind]; [|discriminate].
    intros Hrun Hinv Hocc Hm.
    assert (Hplain1 : forall f y, In f (area_features area) -> has_id f y -> plain_id y).
    { intros f y Hin. apply Hplain. cbn [map List.concat]. apply in_or_app. now left. }
    pose proof (area_merged st area st1 n occ Hstep Hinv Hn Hplain1 Hocc Hm) as Hm1.
    assert (Hocc1 : Forall (fun o => is_list (fst o) = false)
                      (occ ++ area_occurrences x area)).
    { apply Forall_app. split; [exact Hocc|]. unfold area_occurrences. rewrite Hn.
      apply Forall_forall. intros o Ho. apply list_elem_of_In in Ho.
      apply in_map_iff in Ho as (f & <- & _). reflexivity. }
    pose proof (IH (fun f y Hin => Hplain f y
                      ltac:(cbn [map List.concat]; apply in_or_app; now right))
                  st1 st' _ Hrun (flatten_area_invariant _ _ _ Hstep Hinv) Hocc1 Hm1) as Hm'.
    unfold occurrences. cbn [List.flat_map]. rewrite app_assoc. exact Hm'.
Qed.

End Occurrences.

(** *** The identifiers, in the order in which they are first seen *)

Lemma merge_feature_ids san fts new ids feat fts' new' ids' y :
  Azure.merge_feature san (fts, new, ids) feat = Ret (fts', new', ids') ->
  has_id feat y -> ids' = seen_step ids y.
Proof.
  unfold Azure.merge_feature, seen_step, has_id. intros H Hy. rewrite Hy in H. simpl in H.
  destruct (py_in y ids).
  - destruct (Azure.first_index fts y 0) as [index|]; simpl in H; [|discriminate].
    destruct (fts !! index) as [gf|]; [|discriminate].
    destruct (py_item gf "searchAreaNumber"); simpl in H; [|discriminate].
    destruct gf; try discriminate. injection H as _ _ <-. reflexivity.
  - destruct feat; try discriminate. injection H as _ _ <-. reflexivity.
Qed.

Lemma loop_ids san feats :
  forall st st',
    for_each (Azure.merge_feature san) feats st = Ret st' ->
    snd st' = fold_left seen_step (feature_ids feats) (snd st).
Proof.
  induction feats as [|feat feats IH]; intros st st'; cbn [for_each].
  - intros [= <-]. reflexivity.
  - destruct (Azure.merge_feature san st feat) as [st1|] eqn:Hstep; cbn [obind];
      [|discriminate].
    intros Hloop. rewrite (IH _ _ Hloop).
    destruct (merge_feature_has_id _ _ _ _ Hstep) as (y & Hy).
    destruct st as [[fts new] ids], st1 as [[fts1 new1] ids1].
    rewrite (merge_feature_ids _ _ _ _ _ _ _ _ _ Hstep Hy).
    unfold feature_ids. cbn [List.flat_map snd]. unfold has_id in Hy. rewrite Hy.
    reflexivity.
Qed.

Lemma tagged_feature_ids san orig feats :
  Forall2 (tagged san) orig feats -> feature_ids feats = feature_ids orig.
Proof.
  induction 1 as [|f feat orig feats Htag _ IH]; [reflexivity|].
  unfold feature_ids in *. cbn [List.flat_map]. rewrite IH. f_equal.
  pose proof (fun y => tag_feature_id "searchAreaNumber" san f feat y ltac:(discriminate) Htag)
    as Hid.
  unfold has_id in Hid.
  destruct (py_item feat "id") as [y|e] eqn:E1.
  - rewrite (proj1 (Hid y) eq_refl). reflexivity.
  - destruct (py_item f "id") as [y|e'] eqn:E2; [|reflexivity].
    pose proof (proj2 (Hid y) eq_refl). discriminate.
Qed.

Lemma areas_ids areas :
  forall st st',
    for_each Azure.flatten_area areas st = Ret st' ->
    Azure.fs_ids st'
    = fold_left seen_step (feature_ids (List.concat (map area_features areas)))
        (Azure.fs_ids st).
Proof.
  induction areas as [|area areas IH]; intros st st'; cbn [for_each].
  - intros [= <-]. reflexivity.
  - destruct (Azure.flatten_area st area) as [st1|] eqn:Hstep; cbn [obind]; [|discriminate].
    intros Hrun. rewrite (IH _ _ Hrun).
    apply flatten_area_inv in Hstep
      as (san & feats & fts & new & ids & _ & HF & Hloop & _ & -> & _).
    apply loop_ids in Hloop. cbn [snd] in Hloop.
    cbn [map List.concat]. unfold feature_ids at 2. rewrite flat_map_app.
    rewrite fold_left_app. fold (feature_ids (area_features area)).
    rewrite <- (tagged_feature_ids _ _ _ HF), <- Hloop. reflexivity.
Qed.

Lemma flatten_areas_requests areas :
  forall st st',
    for_each Azure.flatten_area areas st = Ret st' ->
    Azure.fs_requests st' = (Azure.fs_requests st + sum_requests areas)%Z.
Proof.
  induction areas as [|area areas IH]; intros st st'; simpl.
  - intros [= <-]. lia.
  - destruct (Azure.flatten_area st area) as [st1|] eqn:Hstep; simpl; [|discriminate].
    intros H. apply IH in H. rewrite H.
    apply flatten_area_inv in Hstep as (? & ? & ? & ? & ? & _ & _ & _ & _ & _ & ->).
    lia.
Qed.

(** What the loops keep is what the list is meant to hold. *)
Lemma merged_listed x occ fs : merged x occ fs -> listed x occ fs.
Proof.
  destruct occ as [|[san0 f0] later]; [auto|].
  intros (p & g0 & Htag & (g & Hp & Hid & Hsan & Hag) & Huniq).
  unfold tagged, Azure.tag_feature in Htag.
  destruct f0 as [| | | | |fd]; try discriminate.
  unfold dict_item in Htag. rewrite dict_get_set_ne in Htag by discriminate.
  destruct (dict_get "properties" fd) as [props|] eqn:Hprops; cbn [obind] in Htag;
    [|discriminate].
  destruct props as [| | | | |p0]; try discriminate. injection Htag as <-.
  exists p, g. split; [exact Hp|]. split; [exact Hid|]. split; [exact Hsan|].
  split; [|split; [|exact Huniq]].
  - exists p0, (dict_set "searchAreaNumber" san0 p0).
    split; [unfold py_item, dict_item; rewrite Hprops; reflexivity|].
    split; [rewrite Hag by discriminate; apply dict_get_set_eq|].
    split; [apply dict_get_set_eq|].
    intros k Hk. apply dict_get_set_ne. congruence.
  - intros k Hk1 Hk2. unfold py_item, dict_item.
    rewrite (Hag k Hk1), !dict_get_set_ne by congruence. reflexivity.
Qed.

(** C2: the flattened result of the geometry fan-out, for parts numbered
    by integers and features identified by strings or integers.  The
    feature list has one feature for every identifier the parts returned,
    in the order in which the identifiers were first returned, and
    [numberReturned] is their number: a feature returned again is not
    counted again.  The feature listed for an identifier is the first one
    returned with it, with the number of its part for [searchAreaNumber],
    among its members and among its properties; if later parts returned
    the identifier too, the [searchAreaNumber] among its members is the
    list of the numbers of all these parts, in their order: [[0, 1]] for a
    feature of part 0 that part 1 returned as well.  An identifier that no
    part returned is on no feature.  [numberOfRequests] is the sum of the parts'
    [numberOfRequests]. *)
Theorem flatten_search_areas_merges
    {U : Type} (svc : services U) (areas : list value) (w : world U) res w' :
  Forall (fun a => exists n, area_number a = Some (VInt n)) areas ->
  (forall f y, In f (List.concat (map area_features areas)) -> has_id f y -> plain_id y) ->
  Azure.flatten_search_areas svc areas w = Some (Ret res, w') ->
  exists d fs,
    res = VDict d /\
    dict_get "features" d = Some (VList fs) /\
    Forall2 has_id fs (first_seen (feature_ids (List.concat (map area_features areas)))) /\
    dict_get "numberReturned" d = Some (VInt (Z.of_nat (List.length fs))) /\
    dict_get "numberOfRequests" d = Some (VInt (sum_requests areas)) /\
    forall x, plain_id x -> listed x (occurrences x areas) fs.
Proof.
  intros Hnum Hplain Hrun.
  unfold Azure.flatten_search_areas in Hrun.
  apply bind_inv in Hrun as [(st & w1 & H1 & Hrun)|(e & _ & [=])].
  injection H1 as H1 <-.
  apply bind_inv in Hrun as [(ts & w2 & H2 & Hrun)|(e & _ & [=])].
  injection Hrun as <- <-.
  pose proof (flatten_areas_invariant _ _ H1) as (HF & Hd & Hr).
  pose proof (flatten_areas_requests _ _ _ H1) as Hreq.
  pose proof (areas_ids _ _ _ H1) as Hids.
  assert (Hinit : flat_invariant Azure.flat_init).
  { split; [constructor|]. split; [|reflexivity]. intros i j a b _ Hi. destruct i; discriminate. }
  eexists. exists (Azure.fs_features st).
  split; [reflexivity|]. split; [reflexivity|]. split; [|split; [|split]].
  - rewrite Hids in HF. exact HF.
  - simpl. rewrite Hr. reflexivity.
  - simpl. rewrite Hreq. reflexivity.
  - intros x Hx. apply merged_listed.
    apply (areas_merged x Hx areas Hnum Hplain Azure.flat_init st [] H1 Hinit
             ltac:(constructor)).
    intros q gq y Hq. destruct q; discriminate.
Qed.

Lemma flatten_search_areas_merges_witness :
  exists res w' d fs,
    Azure.flatten_search_areas (idle_services unit) three_areas (start tt)
    = Some (Ret res, w') /\
    res = VDict d /\
    dict_get "features" d = Some (VList fs) /\
    Forall2 has_id fs [VStr "a"; VStr "b"; VStr "c"] /\
    dict_get "numberReturned" d = Some (VInt 3) /\
    dict_get "numberOfRequests" d = Some (VInt 3) /\
    listed (VStr "b")
      [(VInt 0, feature "b"); (VInt 1, feature "b"); (VInt 2, feature "b")] fs /\
    listed (VStr "c") [(VInt 1, feature "c"); (VInt 2, feature "c")] fs /\
    listed (VStr "a") [(VInt 0, feature "a")] fs /\
    listed (VStr "d") [] fs.
Proof.
  eexists. eexists.
  assert (Hrun : Azure.flatten_search_areas (idle_services unit) three_areas (start tt)
                 = Some (Ret (Azure.flat_geojson
                                {| Azure.fs_requests := 3; Azure.fs_returned := 3;
                                   Azure.fs_features :=
                                     [VDict [("id", VStr "a");
                                             ("properties", VDict [("searchAreaNumber", VInt 0)]);
                                             ("searchAreaNumber", VInt 0)];
                                      VDict [("id", VStr "b");
                                             ("properties", VDict [("searchAreaNumber", VInt 0)]);
                                             ("searchAreaNumber",
                                              VList [VInt 0; VInt 1; VInt 2])];
                                      VDict [("id", VStr "c");
                                             ("properties", VDict [("searchAreaNumber", VInt 1)]);
                                             ("searchAreaNumber", VList [VInt 1; VInt 2])]];
                                   Azure.fs_ids := [VStr "a"; VStr "b"; VStr "c"] |}
                                "2024-01-01T00:00:00"),
                         start tt))
    by (vm_compute; reflexivity).
  assert (Hnum : Forall (fun a => exists n, area_number a = Some (VInt n)) three_areas)
    by (repeat constructor; eexists; reflexivity).
  assert (Hplain : forall f y,
             In f (List.concat (map area_features three_areas)) -> has_id f y -> plain_id y).
  { intros f y Hin Hy. cbn in Hin.
    repeat (destruct Hin as [<-|Hin]; [injection Hy as <-; exact I|]). destruct Hin. }
  destruct (flatten_search_areas_merges (idle_services unit) three_areas (start tt) _ _
              Hnum Hplain Hrun) as (d & fs & Hres & Hfs & Hids & Hret & Hreq & Hm).
  exists d, fs. split; [exact Hrun|]. split; [exact Hres|]. split; [exact Hfs|].
  injection Hres as <-. cbn in Hfs. injection Hfs as <-.
  split; [exact Hids|]. split; [exact Hret|]. split; [exact Hreq|].
  split; [exact (Hm (VStr "b") I)|]. split; [exact (Hm (VStr "c") I)|].
  split; [exact (Hm (VStr "a") I)|exact (Hm (VStr "d") I)].
Defined.

(** ** Collection versions (C7) *)

(** *** Decimal numerals *)

Lemma pretty_N_char_digit d :
  (d < 10)%N ->
  is_digit (pretty_N_char d) = true /\
  (N.of_nat (nat_of_ascii (pretty_N_char d)) - 48)%N = d /\
  pretty_N_char d <> "-"%char.
Proof.
  intros Hd.
  assert (d = 0 \/ d = 1 \/ d = 2 \/ d = 3 \/ d = 4 \/ d = 5 \/ d = 6 \/
          d = 7 \/ d = 8 \/ d = 9)%N as H by lia.
  repeat (destruct H as [->|H]); try subst d; repeat split; try reflexivity; discriminate.
Qed.

Lemma digits_value_pretty_go x :
  exists k, forall acc s,
    digits_value acc (pretty_N_go x s) = digits_value (acc * 10 ^ k + x)%N s.
Proof.
  induction (N.lt_wf_0 x) as [x _ IH].
  destruct (decide (x = 0)%N) as [->|Hx].
  - exists 0%N. intros acc s. rewrite pretty_N_go_0. f_equal. lia.
  - destruct (IH (x `div` 10)%N) as (k & Hk).
    { apply N.div_lt; lia. }
    exists (k + 1)%N. intros acc s.
    rewrite pretty_N_go_step by lia. rewrite Hk. simpl.
    destruct (pretty_N_char_digit (x `mod` 10)%N) as (Hd & Hv & _).
    { apply N.mod_lt. lia. }
    rewrite Hd, Hv. f_equal.
    rewrite N.pow_add_r, N.pow_1_r.
    pose proof (N.div_mod x 10). lia.
Qed.

Lemma digits_value_pretty (n : N) : digits_value 0 (pretty n) = Some n.
Proof.
  unfold pretty, pretty_N. destruct (decide (n = 0)%N) as [->|Hn]; [reflexivity|].
  destruct (digits_value_pretty_go n) as (k & Hk). rewrite Hk. reflexivity.
Qed.

Lemma pretty_Z_of_N (n : N) : pretty (Z.of_N n) = pretty n.
Proof. destruct n; reflexivity. Qed.

Lemma py_int_pretty (n : N) : py_int (pretty n) = Ret (Z.of_N n).
Proof.
  unfold py_int. pose proof (digits_value_pretty n) as H.
  destruct (pretty n) eqn:E.
  - simpl in H. injection H as <-. unfold pretty, pretty_N in E. discriminate.
  - rewrite H. reflexivity.
Qed.

Lemma pretty_go_hyphen_free x s :
  hyphen_free s = true -> hyphen_free (pretty_N_go x s) = true.
Proof.
  revert s. induction (N.lt_wf_0 x) as [x _ IH]. intros s Hs.
  destruct (decide (x = 0)%N) as [->|Hx].
  - rewrite pretty_N_go_0. exact Hs.
  - rewrite pretty_N_go_step by lia. apply IH.
    + apply N.div_lt; lia.
    + simpl. rewrite Hs.
      destruct (pretty_N_char_digit (x `mod` 10)%N) as (_ & _ & Hc).
      { apply N.mod_lt. lia. }
      destruct (Ascii.eqb_spec (pretty_N_char (x `mod` 10)) "-"); [contradiction|reflexivity].
Qed.

Lemma pretty_hyphen_free (n : N) : hyphen_free (pretty n) = true.
Proof.
  unfold pretty, pretty_N. destruct (decide (n = 0)%N); [reflexivity|].
  apply pretty_go_hyphen_free. reflexivity.
Qed.

Lemma split_last_hyphen_free v :
  hyphen_free v = true -> split_last_hyphen v = None.
Proof.
  induction v as [|c v IH]; simpl; [reflexivity|].
  intros H. apply andb_prop in H as [Hc Hv]. rewrite (IH Hv).
  destruct (Ascii.eqb c "-"); [discriminate|reflexivity].
Qed.

(** Splitting a name at its last hyphen gives back base and version. *)
Lemma split_last_hyphen_name b v :
  hyphen_free v = true -> split_last_hyphen (b +:+ "-" +:+ v) = Some (b, v).
Proof.
  intros Hv. induction b as [|c b IH].
  - change (split_last_hyphen (String "-" v) = Some (EmptyString, v)).
    simpl. rewrite (split_last_hyphen_free v Hv). reflexivity.
  - change (split_last_hyphen (String c (b +:+ "-" +:+ v)) = Some (String c b, v)).
    simpl. rewrite IH. reflexivity.
Qed.

(** *** Grouping the versions by base name *)

Lemma for_each_fold {A B S} (body : S -> B -> outcome S) (g : A -> B) (f : S -> A -> S) l :
  (forall acc a, body acc (g a) = Ret (f acc a)) ->
  forall acc, for_each body (map g l) acc = Ret (fold_left f l acc).
Proof.
  intros Hb. induction l as [|a l IH]; intros acc; simpl; [reflexivity|].
  rewrite Hb. simpl. apply IH.
Qed.

Lemma split_name_of e : Azure.split_name (VStr (name_of e)) = Ret (fst e, pretty (snd e)).
Proof.
  unfold Azure.split_name, name_of.
  rewrite split_last_hyphen_name by apply pretty_hyphen_free. reflexivity.
Qed.

Lemma group_versions_fold entries :
  Azure.group_versions (map (fun e => VStr (name_of e)) entries)
  = Ret (fold_left
           (fun acc e => Azure.versions_append (fst e) (Z.of_N (snd e)) acc) entries []).
Proof.
  unfold Azure.group_versions. apply for_each_fold.
  intros acc e. rewrite split_name_of. simpl. rewrite py_int_pretty. reflexivity.
Qed.

Lemma versions_get_append b v acc b' :
  Azure.versions_get b' (Azure.versions_append b v acc)
  = if String.eqb b' b
    then Some (default [] (Azure.versions_get b acc) ++ [v])
    else Azure.versions_get b' acc.
Proof.
  induction acc as [|[b0 vs] acc IH]; simpl.
  - destruct (String.eqb b' b); reflexivity.
  - destruct (String.eqb b b0) eqn:E; simpl.
    + apply String.eqb_eq in E. subst b0.
      destruct (String.eqb b' b); reflexivity.
    + destruct (String.eqb b' b0) eqn:E0.
      * apply String.eqb_eq in E0. subst b0.
        rewrite String.eqb_sym, E. reflexivity.
      * exact IH.
Qed.

Lemma versions_keys_append b v acc :
  map fst (Azure.versions_append b v acc)
  = match Azure.versions_get b acc with
    | Some _ => map fst acc
    | None => map fst acc ++ [b]
    end.
Proof.
  induction acc as [|[b0 vs] acc IH]; simpl; [reflexivity|].
  destruct (String.eqb b b0) eqn:E; simpl; [reflexivity|].
  rewrite IH. destruct (Azure.versions_get b acc); reflexivity.
Qed.

Lemma versions_get_keys b acc :
  In b (map fst acc) <-> Azure.versions_get b acc <> None.
Proof.
  induction acc as [|[b0 vs] acc IH]; simpl; [tauto|].
  destruct (String.eqb b b0) eqn:E.
  - apply String.eqb_eq in E. subst. split; [discriminate|auto].
  - rewrite <- IH. split; [intros [->|H]; [rewrite String.eqb_refl in E; discriminate|exact H]|auto].
Qed.

Lemma versions_of_snoc b done e :
  versions_of b (done ++ [e])
  = versions_of b done ++ (if String.eqb b (fst e) then [Z.of_N (snd e)] else []).
Proof.
  unfold versions_of. rewrite List.filter_app, map_app. simpl.
  destruct (String.eqb b (fst e)); reflexivity.
Qed.

(** The dictionary of versions after the first loop. *)
Lemma grouped_spec entries :
  let grouped :=
    fold_left (fun acc e => Azure.versions_append (fst e) (Z.of_N (snd e)) acc) entries [] in
  List.NoDup (map fst grouped) /\
  (forall b, In b (map fst grouped) <-> In b (map fst entries)) /\
  (forall b vs, Azure.versions_get b grouped = Some vs ->
                vs = versions_of b entries /\ vs <> []).
Proof.
  induction entries as [|e done IH] using rev_ind; simpl.
  - split; [constructor|]. split; [tauto|discriminate].
  - rewrite fold_left_app. simpl.
    set (acc := fold_left _ done []) in *.
    destruct IH as (Hnd & Hkeys & Hget).
    split; [|split].
    + rewrite versions_keys_append.
      destruct (Azure.versions_get (fst e) acc) eqn:Hg; [exact Hnd|].
      apply List.NoDup_app; [exact Hnd|constructor; [tauto|constructor]|].
      intros b Hb [<-|[]]. apply versions_get_keys in Hb. congruence.
    + intros b. rewrite versions_keys_append, map_app, in_app_iff. simpl.
      destruct (Azure.versions_get (fst e) acc) eqn:Hg.
      * rewrite Hkeys. split; [tauto|]. intros [H|[<-|[]]]; [exact H|].
        apply Hkeys. apply versions_get_keys. congruence.
      * rewrite in_app_iff, Hkeys. simpl. tauto.
    + intros b vs. rewrite versions_get_append, versions_of_snoc.
      destruct (String.eqb b (fst e)) eqn:E.
      * apply String.eqb_eq in E. subst b. intros [= <-].
        split; [|destruct (default [] _); discriminate].
        f_equal. destruct (Azure.versions_get (fst e) acc) as [vs0|] eqn:Hg; simpl.
        -- apply Hget in Hg as [-> _]. reflexivity.
        -- destruct (versions_of (fst e) done) as [|z zs] eqn:Hv; [reflexivity|exfalso].
           assert (Hin : In (fst e) (map fst done)).
           { unfold versions_of in Hv.
             destruct (List.filter _ done) as [|e0 l] eqn:Hf; [discriminate|].
             assert (He0 : In e0 (List.filter (fun e1 => String.eqb (fst e) (fst e1)) done))
               by (rewrite Hf; now left).
             apply filter_In in He0 as [He0 Heq]. apply String.eqb_eq in Heq.
             rewrite Heq. apply in_map. exact He0. }
           apply Hkeys, versions_get_keys in Hin. congruence.
      * rewrite app_nil_r. apply Hget.
Qed.

(** *** The latest version of every base name *)

Lemma versions_get_In b vs grouped :
  List.NoDup (map fst grouped) -> In (b, vs) grouped ->
  Azure.versions_get b grouped = Some vs.
Proof.
  induction grouped as [|[b0 vs0] grouped IH]; simpl; [tauto|].
  intros Hnd [[= -> ->]|Hin].
  - now rewrite String.eqb_refl.
  - apply NoDup_cons_iff in Hnd as [Hn Hnd].
    destruct (String.eqb b b0) eqn:E; [|auto].
    apply String.eqb_eq in E. subst b0. exfalso. apply Hn.
    apply (in_map fst) in Hin. exact Hin.
Qed.

Lemma latest_lookup_go grouped :
  forall acc,
    List.NoDup (map fst grouped) ->
    (forall b, In b (map fst grouped) -> ~ In b (dict_keys acc)) ->
    (forall b vs, In (b, vs) grouped -> vs <> []) ->
    for_each
      (fun (output_lookup : dict) '(basename, versions) =>
         let? latest_version := py_max versions in
         Ret (dict_set basename (VStr (basename +:+ "-" +:+ pretty latest_version))
                output_lookup))
      grouped acc
    = Ret (acc ++ map latest_name grouped).
Proof.
  induction grouped as [|[b vs] grouped IH]; intros acc Hnd Hfresh Hne; simpl.
  - now rewrite app_nil_r.
  - destruct vs as [|v0 vs]; [destruct (Hne b [] (or_introl eq_refl) eq_refl)|].
    simpl. apply NoDup_cons_iff in Hnd as [Hn Hnd].
    rewrite dict_set_fresh by (apply Hfresh; now left).
    rewrite IH.
    + rewrite <- app_assoc. reflexivity.
    + exact Hnd.
    + intros b' Hb'. unfold dict_keys. rewrite map_app, in_app_iff. simpl.
      intros [H|[<-|[]]]; [|contradiction].
      apply (Hfresh b'); [now right|exact H].
    + intros b' vs' Hin. apply (Hne b' vs'). now right.
Qed.

Lemma fold_max_spec v0 vs :
  let m := fold_left Z.max vs v0 in
  In m (v0 :: vs) /\ forall v, In v (v0 :: vs) -> (v <= m)%Z.
Proof.
  cbv zeta. revert v0. induction vs as [|v vs IH]; intros v0; simpl.
  - split; [now left|]. intros v [<-|[]]. lia.
  - destruct (IH (Z.max v0 v)) as [Hin Hle]. simpl in Hin. split.
    + destruct Hin as [Hm|Hm]; [|now right; right].
      rewrite <- Hm. destruct (Z.max_spec v0 v) as [[_ E]|[_ E]]; rewrite E; tauto.
    + intros u [<-|[<-|Hu]].
      * specialize (Hle (Z.max v0 v) (or_introl eq_refl)). lia.
      * specialize (Hle (Z.max v0 v) (or_introl eq_refl)). lia.
      * apply Hle. now right.
Qed.

Lemma collection_ids_of collections_data entries :
  Forall2 (fun c e => py_item c "id" = Ret (VStr (name_of e))) collections_data entries ->
  forall acc,
    for_each (fun ids c => let? i := py_item c "id" in Ret (ids ++ [i])) collections_data acc
    = Ret (acc ++ map (fun e => VStr (name_of e)) entries).
Proof.
  induction 1 as [|c e cs es Hc HF IH]; intros acc; simpl.
  - now rewrite app_nil_r.
  - rewrite Hc. simpl. rewrite IH, <- app_assoc. reflexivity.
Qed.

Lemma dict_get_In k v (d : dict) : dict_get k d = Some v -> In (k, v) d.
Proof.
  induction d as [|[k0 v0] d IH]; simpl; [discriminate|].
  destruct (String.eqb k k0) eqn:E; [|auto].
  apply String.eqb_eq in E. subst. intros [= ->]. now left.
Qed.

(** The Azure variant meets C7: for a catalogue whose identifiers have the
    form base-version, [output_lookup] has exactly one entry per base name
    of the catalogue, and it maps the base name to the identifier of the
    catalogue with that base name and the largest version. *)
Lemma azure_latest_versions collections_data (entries : list (string * N)) :
  Forall2 (fun c e => py_item c "id" = Ret (VStr (name_of e))) collections_data entries ->
  exists output_lookup,
    Azure.output_lookup_of collections_data = Ret output_lookup /\
    List.NoDup (dict_keys output_lookup) /\
    (forall b, In b (dict_keys output_lookup) <-> In b (map fst entries)) /\
    (forall b v,
       dict_get b output_lookup = Some v ->
       exists n,
         In (b, n) entries /\ v = VStr (name_of (b, n)) /\
         forall m, In (b, m) entries -> (m <= n)%N).
Proof.
  intros HF. unfold Azure.output_lookup_of, Azure.collection_ids.
  rewrite (collection_ids_of _ _ HF []). simpl.
  rewrite group_versions_fold. simpl.
  destruct (grouped_spec entries) as (Hnd & Hkeys & Hget).
  set (grouped := fold_left _ entries []) in *.
  assert (Hne : forall b vs, In (b, vs) grouped -> vs <> []).
  { intros b vs Hin. apply (versions_get_In _ _ _ Hnd) in Hin.
    apply Hget in Hin. tauto. }
  unfold Azure.latest_lookup.
  rewrite (latest_lookup_go grouped [] Hnd ltac:(intros ? _ []) Hne). simpl.
  eexists. split; [reflexivity|].
  assert (Hk : dict_keys (map latest_name grouped) = map fst grouped).
  { unfold dict_keys. rewrite map_map. reflexivity. }
  rewrite Hk. split; [exact Hnd|]. split; [exact Hkeys|].
  intros b v Hv. apply dict_get_In in Hv.
  apply in_map_iff in Hv as ([b' vs] & [= <- <-] & Hin).
  pose proof (Hne _ _ Hin) as Hvs.
  apply (versions_get_In _ _ _ Hnd) in Hin. apply Hget in Hin as [-> _].
  simpl. destruct (versions_of b' entries) as [|v0 vs] eqn:Hvo; [congruence|].
  simpl. destruct (fold_max_spec v0 vs) as [Hin Hle].
  set (m := fold_left Z.max vs v0) in *.
  rewrite <- Hvo in Hin, Hle. unfold versions_of in Hin.
  apply in_map_iff in Hin as ([b0 n] & Hm & Hf).
  apply filter_In in Hf as [Hf Hb]. simpl in Hb, Hm.
  apply String.eqb_eq in Hb. subst b0. exists n.
  split; [exact Hf|]. split.
  - unfold name_of. simpl. rewrite <- Hm, pretty_Z_of_N. reflexivity.
  - intros k Hk'. assert (Hz : (Z.of_N k <= m)%Z).
    { apply Hle. unfold versions_of. apply in_map_iff. exists (b', k).
      split; [reflexivity|]. apply filter_In. split; [exact Hk'|].
      simpl. apply String.eqb_refl. }
    lia.
Qed.

(** The example of the specification, in both variants. *)
Lemma latest_versions_example :
  Azure.output_lookup_of
    [VDict [("id", VStr "bld-fts-buildingline-1")];
     VDict [("id", VStr "bld-fts-buildingline-2")];
     VDict [("id", VStr "trn-ntwk-street-1")]]
  = Ret [("bld-fts-buildingline", VStr "bld-fts-buildingline-2");
         ("trn-ntwk-street", VStr "trn-ntwk-street-1")] /\
  Flask.output_lookup_of
    ["bld-fts-buildingline-1"; "bld-fts-buildingline-2"; "trn-ntwk-street-1"]
  = Ret [("bld-fts-buildingline", VStr "bld-fts-buildingline-2");
         ("trn-ntwk-street", VStr "trn-ntwk-street-1")].
Proof. split; vm_compute; reflexivity. Qed.

(** C7, at a failing input of the Flask variant: with the catalogue
    [bld-fts-building-1], [bld-fts-buildingline-2], the base name
    [bld-fts-building] is mapped to [bld-fts-buildingline-2], an identifier
    of another base name and of a version that [bld-fts-building] does not
    have, because the versions of a base name are collected with
    [startswith]; the Azure variant maps it to [bld-fts-building-1]. *)
Theorem flask_latest_versions_prefix :
  (exists output_lookup,
     Flask.output_lookup_of ["bld-fts-building-1"; "bld-fts-buildingline-2"]
       = Ret output_lookup /\
     dict_get "bld-fts-building" output_lookup
       = Some (VStr "bld-fts-buildingline-2")) /\
  (exists output_lookup,
     Azure.output_lookup_of
       [VDict [("id", VStr "bld-fts-building-1")];
        VDict [("id", VStr "bld-fts-buildingline-2")]]
       = Ret output_lookup /\
     dict_get "bld-fts-building" output_lookup
       = Some (VStr "bld-fts-building-1")).
Proof. split; eexists; split; vm_compute; reflexivity. Qed.

(** ** Flattening coordinates *)

(** Induction on values, with the elements of lists and dictionaries. *)
Lemma value_nested_ind (P : value -> Prop) :
  P VNone -> (forall b, P (VBool b)) -> (forall n, P (VInt n)) ->
  (forall s, P (VStr s)) ->
  (forall l, Forall P l -> P (VList l)) ->
  (forall d, Forall (fun kv => P (snd kv)) d -> P (VDict d)) ->
  forall v, P v.
Proof.
  intros HN HB HI HS HL HD. fix IH 1.
  intros [| b | n | s | l | d]; [exact HN|apply HB|apply HI|apply HS| |].
  - apply HL. induction l as [|x l IHl]; constructor; [apply IH|exact IHl].
  - apply HD. induction d as [|[k x] d IHd]; constructor; [apply IH|exact IHd].
Qed.

(** One turn of the loop of [flatten_coords]. *)
Lemma flatten_coords_cons item rest :
  flatten_coords (VList (item :: rest))
  = (let? first := first_item item in
     let? flattened := if is_list first then flatten_coords item else Ret [item] in
     let? result := flatten_coords (VList rest) in
     Ret (flattened ++ result)).
Proof. reflexivity. Qed.

Lemma flatten_coords_app_eq a b :
  flatten_coords (VList (a ++ b))
  = (let? x := flatten_coords (VList a) in
     let? y := flatten_coords (VList b) in
     Ret (x ++ y)).
Proof.
  induction a as [|item a IH].
  - cbn [app]. change (flatten_coords (VList [])) with (Ret (@nil value)).
    cbn [obind app]. destruct (flatten_coords (VList b)); reflexivity.
  - cbn [app]. rewrite !flatten_coords_cons.
    destruct (first_item item) as [first|e]; [|reflexivity]. cbn [obind].
    destruct (if is_list first then flatten_coords item else Ret [item]) as [fl|e];
      [|reflexivity].
    cbn [obind]. rewrite IH.
    destruct (flatten_coords (VList a)) as [x|e]; [|reflexivity]. cbn [obind].
    destruct (flatten_coords (VList b)) as [y|e]; [|reflexivity]. cbn [obind].
    now rewrite app_assoc.
Qed.

(** A list of positions is returned as it is. *)
Lemma flatten_coords_positions l :
  forallb is_position l = true -> flatten_coords (VList l) = Ret l.
Proof.
  induction l as [|item l IH]; [reflexivity|].
  cbn [forallb]. intros H. apply andb_prop in H as [Hi Hl].
  rewrite flatten_coords_cons. unfold is_position in Hi.
  destruct (first_item item) as [first|e]; [|discriminate]. cbn [obind].
  apply negb_true_iff in Hi. rewrite Hi. cbn [negb obind]. rewrite (IH Hl). reflexivity.
Qed.

Lemma flatten_coords_flat_list l :
  forall out, flatten_coords (VList l) = Ret out -> forallb is_position out = true.
Proof.
  change (forall out, flatten_coords (VList l) = Ret out -> forallb is_position out = true)
    with ((fun v => forall out, flatten_coords v = Ret out -> forallb is_position out = true)
            (VList l)).
  apply value_nested_ind; clear l.
  - discriminate.
  - discriminate.
  - discriminate.
  - intros s out. cbn [flatten_coords py_iter obind].
    assert (H : forall cs acc,
               forallb is_position acc = true ->
               for_each
                 (fun result item => let? _ := first_item item in Ret (result ++ [item]))
                 (map (fun c => VStr (String c EmptyString)) cs) acc = Ret out ->
               forallb is_position out = true).
    { induction cs as [|c cs IH]; intros acc Hacc; simpl.
      - intros [= <-]. exact Hacc.
      - apply IH. rewrite forallb_app, Hacc. reflexivity. }
    apply (H _ [] eq_refl).
  - intros l IH. induction IH as [|item l Hitem _ IHl]; intros out.
    + intros [= <-]. reflexivity.
    + rewrite flatten_coords_cons.
      destruct (first_item item) as [first|e] eqn:Hfirst; [|discriminate]. cbn [obind].
      destruct (is_list first) eqn:Hlist.
      * destruct (flatten_coords item) as [fl|e] eqn:Hfl; [|discriminate]. cbn [obind].
        destruct (flatten_coords (VList l)) as [res|e] eqn:Hres; [|discriminate]. cbn [obind].
        intros [= <-]. rewrite forallb_app, (Hitem _ eq_refl), (IHl _ eq_refl). reflexivity.
      * cbn [obind].
        destruct (flatten_coords (VList l)) as [res|e] eqn:Hres; [|discriminate]. cbn [obind].
        intros [= <-]. cbn [forallb app]. rewrite (IHl _ eq_refl).
        unfold is_position. rewrite Hfirst, Hlist. reflexivity.
  - intros d _ out. cbn [flatten_coords py_iter obind]. unfold dict_keys.
    assert (H : forall ks acc,
               forallb is_position acc = true ->
               for_each
                 (fun result item => let? _ := first_item item in Ret (result ++ [item]))
                 (map VStr ks) acc = Ret out ->
               forallb is_position out = true).
    { induction ks as [|k ks IH]; intros acc Hacc; simpl.
      - intros [= <-]. exact Hacc.
      - destruct k as [|c k]; simpl; [discriminate|].
        apply IH. rewrite forallb_app, Hacc. reflexivity. }
    apply (H _ [] eq_refl).
Qed.

(** X1: when [flatten_coords] returns, the result is flat: the first
    element of every item of the result is not a list, so that flattening
    the result again gives it back unchanged. *)
Theorem flatten_coords_flat list_of_lists out :
  flatten_coords (VList list_of_lists) = Ret out ->
  forallb is_position out = true /\ flatten_coords (VList out) = Ret out.
Proof.
  intros H. apply flatten_coords_flat_list in H.
  split; [exact H|]. apply flatten_coords_positions. exact H.
Qed.

Lemma flatten_coords_flat_witness :
  let ring := VList [VList [VInt 0; VInt 0]; VList [VInt 4; VInt 0]; VList [VInt 0; VInt 3]] in
  let out := [VList [VInt 7; VInt 7];
              VList [VInt 0; VInt 0]; VList [VInt 4; VInt 0]; VList [VInt 0; VInt 3]] in
  forallb is_position out = true /\ flatten_coords (VList out) = Ret out.
Proof.
  intros ring out.
  apply (flatten_coords_flat [VList [VInt 7; VInt 7]; VList [ring]] out).
  reflexivity.
Defined.

(** X2: [flatten_coords] works item by item: the result for a list is the
    concatenation of the results for its parts, a list of positions is
    returned as it is, and an empty list among the items raises
    [IndexError] once the items before it are flattened. *)
Theorem flatten_coords_app a b :
  flatten_coords (VList (a ++ b))
  = (let? x := flatten_coords (VList a) in
     let? y := flatten_coords (VList b) in
     Ret (x ++ y)) /\
  (forallb is_position a = true -> flatten_coords (VList a) = Ret a) /\
  ((exists x, flatten_coords (VList a) = Ret x) ->
   flatten_coords (VList (a ++ VList [] :: b)) = Raise IndexError).
Proof.
  split; [apply flatten_coords_app_eq|]. split; [apply flatten_coords_positions|].
  intros [x Hx]. rewrite flatten_coords_app_eq, Hx. reflexivity.
Qed.

Lemma flatten_coords_app_witness :
  flatten_coords (VList [VList [VInt 1; VInt 2]; VList [VInt 3; VInt 4]])
  = Ret [VList [VInt 1; VInt 2]; VList [VInt 3; VInt 4]] /\
  flatten_coords (VList ([VList [VInt 1; VInt 2]] ++ VList [] :: [VList [VInt 3; VInt 4]]))
  = Raise IndexError.
Proof.
  split.
  - apply (proj1 (proj2 (flatten_coords_app [VList [VInt 1; VInt 2]; VList [VInt 3; VInt 4]] []))).
    reflexivity.
  - apply (proj2 (proj2 (flatten_coords_app [VList [VInt 1; VInt 2]] [VList [VInt 3; VInt 4]]))).
    eexists. reflexivity.
Defined.

(** ** Bounding boxes *)

Lemma str_replace_go_spaces fuel s :
  (String.length s < fuel)%nat ->
  str_replace_go fuel " " EmptyString s = without_spaces s.
Proof.
  revert s. induction fuel as [|fuel IH]; intros s Hs; [lia|].
  destruct s as [|c s]; [reflexivity|].
  cbn [str_replace_go str_prefix without_spaces]. cbn [String.length] in Hs.
  rewrite Ascii.eqb_sym.
  destruct (Ascii.eqb c " ") eqn:E; cbn [andb].
  - cbn [String.length str_drop String.append]. apply IH. lia.
  - rewrite IH by lia. reflexivity.
Qed.

Lemma str_replace_spaces s : str_replace " " EmptyString s = without_spaces s.
Proof. apply str_replace_go_spaces. lia. Qed.

Lemma without_spaces_app s t :
  without_spaces (s +:+ t) = without_spaces s +:+ without_spaces t.
Proof.
  induction s as [|c s IH]; [reflexivity|].
  simpl. rewrite IH.
  destruct (Ascii.eqb c " "); reflexivity.
Qed.

Lemma without_spaces_free s : space_free s = true -> without_spaces s = s.
Proof.
  induction s as [|c s IH]; [reflexivity|].
  cbn [space_free without_spaces]. intros H. apply andb_prop in H as [Hc Hs].
  apply negb_true_iff in Hc. rewrite Hc, (IH Hs). reflexivity.
Qed.

Lemma str_init_snoc s c : str_init (s +:+ String c EmptyString) = s.
Proof.
  induction s as [|c0 s IH]; [reflexivity|].
  change (String c0 s +:+ String c EmptyString) with (String c0 (s +:+ String c EmptyString)).
  cbn [str_init]. rewrite IH.
  destruct s; reflexivity.
Qed.

Lemma pretty_N_go_space_free x s :
  space_free s = true -> space_free (pretty_N_go x s) = true.
Proof.
  revert s. induction (N.lt_wf_0 x) as [x _ IH]. intros s Hs.
  destruct (decide (x = 0)%N) as [->|Hx].
  - rewrite pretty_N_go_0. exact Hs.
  - rewrite pretty_N_go_step by lia. apply IH.
    + apply N.div_lt; lia.
    + cbn [space_free]. rewrite Hs.
      destruct (pretty_N_char_digit (x `mod` 10)%N) as (Hd & _ & _).
      { apply N.mod_lt. lia. }
      destruct (Ascii.eqb_spec (pretty_N_char (x `mod` 10)) " ") as [E|_]; [|reflexivity].
      rewrite E in Hd. discriminate.
Qed.

Lemma pretty_N_space_free (n : N) : space_free (pretty n) = true.
Proof.
  unfold pretty, pretty_N. destruct (decide (n = 0)%N); [reflexivity|].
  apply pretty_N_go_space_free. reflexivity.
Qed.

Lemma pretty_Z_space_free (z : Z) : space_free (pretty z) = true.
Proof.
  destruct z as [|p|p].
  - reflexivity.
  - apply (pretty_N_space_free (Npos p)).
  - change (pretty (Zneg p)) with ("-" +:+ pretty (Npos p)).
    cbn [String.append space_free]. apply (pretty_N_space_free (Npos p)).
Qed.

Lemma without_spaces_pretty (z : Z) : without_spaces (pretty z) = pretty z.
Proof. apply without_spaces_free, pretty_Z_space_free. Qed.

(** X3: a box given as a tuple of four integers is written as the four
    numbers separated by commas, whatever their order and whatever else is
    passed; the same box given by keywords is written in the same way when
    [xmin <= xmax] and [ymin <= ymax] (equal bounds are accepted) and is
    refused with [ValueError] otherwise; a missing coordinate raises
    [AttributeError] before the bounds are compared. *)
Theorem construct_bbox_filter_forms (a b c d : Z) :
  (forall xmin ymin xmax ymax,
     construct_bbox_filter (Some (BboxTuple [VInt a; VInt b; VInt c; VInt d]))
       xmin ymin xmax ymax = Ret (box a b c d)) /\
  construct_bbox_filter None (Some a) (Some b) (Some c) (Some d)
    = (if (c <? a)%Z then Raise (ValueError "xmax must be greater than xmin")
       else if (d <? b)%Z then Raise (ValueError "ymax must be greater than ymin")
       else Ret (box a b c d)) /\
  (forall xmin ymin xmax ymax,
     xmin = None \/ ymin = None \/ xmax = None \/ ymax = None ->
     exists msg,
       construct_bbox_filter None xmin ymin xmax ymax = Raise (AttributeError msg)).
Proof.
  split; [|split].
  - intros xmin ymin xmax ymax. unfold construct_bbox_filter.
    cbn [bbox_truthy bbox_str tuple_str map py_repr str_join fold_left].
    f_equal. rewrite str_replace_spaces. unfold str_inner.
    change (str_drop 1 ("(" +:+ ?s)) with s.
    rewrite str_init_snoc, !without_spaces_app, !without_spaces_pretty.
    reflexivity.
  - unfold construct_bbox_filter. cbn [bbox_truthy for_each obind py_gt app].
    destruct (c <? a)%Z; [reflexivity|]. destruct (d <? b)%Z; reflexivity.
  - intros xmin ymin xmax ymax H. unfold construct_bbox_filter.
    cbn [bbox_truthy for_each].
    destruct xmin; cbn [obind]; [|eauto].
    destruct ymin; cbn [obind]; [|eauto].
    destruct xmax; cbn [obind]; [|eauto].
    destruct ymax; cbn [obind]; [|eauto].
    destruct H as [H|[H|[H|H]]]; discriminate.
Qed.

Lemma construct_bbox_filter_forms_witness :
  exists msg,
    construct_bbox_filter None (Some 5%Z) None (Some 1%Z) (Some 0%Z)
    = Raise (AttributeError msg).
Proof.
  apply (proj2 (proj2 (construct_bbox_filter_forms 0 0 0 0))).
  right. left. reflexivity.
Defined.

(** X4: a box given as a string loses its first and its last character
    and its blanks: the string is expected to come in brackets. *)
Theorem construct_bbox_filter_string (first last : ascii) (s : string)
    (xmin ymin xmax ymax : option Z) :
  construct_bbox_filter
    (Some (BboxStr (String first (s +:+ String last EmptyString))))
    xmin ymin xmax ymax
  = Ret (without_spaces s) /\
  construct_bbox_filter (Some (BboxStr "1,2,3,4")) xmin ymin xmax ymax = Ret ",2,3,".
Proof.
  split; [|reflexivity].
  unfold construct_bbox_filter. cbn [bbox_truthy bbox_str String.eqb negb].
  rewrite str_replace_spaces. unfold str_inner. cbn [str_drop].
  rewrite str_init_snoc. reflexivity.
Qed.

(** ** Coordinate reference systems in the query parameters *)

Lemma normalise_crs_loop pre todo :
  List.NoDup (dict_keys (pre ++ todo)) ->
  for_each
    (fun (query_params : dict) '(k, v) =>
       let? is_int := isinstance (Obj v) (TypeObj TInt) in
       if str_contains "crs" k && (is_int : bool)
       then Ret (dict_set k (VStr ("http://www.opengis.net/def/crs/EPSG/0/" +:+ py_str v))
                   query_params)
       else Ret query_params)
    todo (pre ++ todo)
  = Ret (pre ++ map spelled_out todo).
Proof.
  revert pre. induction todo as [|[k v] todo IH]; intros pre Hnd.
  - reflexivity.
  - assert (Hk : ~ In k (dict_keys pre)).
    { unfold dict_keys in *. rewrite map_app in Hnd. simpl in Hnd.
      apply NoDup_remove_2 in Hnd. rewrite in_app_iff in Hnd. tauto. }
    assert (Hnd' : forall x, List.NoDup (dict_keys ((pre ++ [(k, x)]) ++ todo))).
    { intros x. rewrite <- app_assoc. simpl.
      unfold dict_keys in *. rewrite map_app in *. exact Hnd. }
    cbn [for_each isinstance obind map]. unfold spelled_out at 1. cbn [fst snd].
    destruct (str_contains "crs" k && subtype (type_of v) TInt).
    + cbn [obind]. rewrite dict_set_here by exact Hk.
      change (pre ++ (k, ?x) :: todo) with (pre ++ [(k, x)] ++ todo).
      rewrite app_assoc, IH by apply Hnd'.
      rewrite <- app_assoc. reflexivity.
    + cbn [obind].
      change (pre ++ (k, ?x) :: todo) with (pre ++ [(k, x)] ++ todo).
      rewrite app_assoc, IH by apply Hnd'.
      rewrite <- app_assoc. reflexivity.
Qed.

Lemma spelled_out_twice kv : spelled_out (spelled_out kv) = spelled_out kv.
Proof.
  destruct kv as [k v]. unfold spelled_out at 2 3. cbn [fst snd].
  destruct (str_contains "crs" k && subtype (type_of v) TInt) eqn:E; [|].
  - unfold spelled_out. cbn [fst snd type_of subtype pytype_eqb orb].
    rewrite andb_false_r. reflexivity.
  - unfold spelled_out. cbn [fst snd]. rewrite E. reflexivity.
Qed.

Lemma spelled_out_key kv : fst (spelled_out kv) = fst kv.
Proof. unfold spelled_out. destruct (_ && _); reflexivity. Qed.

(** X5: the loop over the query parameters never raises and changes no
    key: every parameter whose name contains [crs] and whose value is an
    integer (or a boolean, which Python counts as one) gets the EPSG address
    of that number for its value, all others keep their value; doing it a
    second time changes nothing. *)
Theorem normalise_crs_spec (query_params : dict) :
  List.NoDup (dict_keys query_params) ->
  Azure.normalise_crs query_params = Ret (map spelled_out query_params) /\
  dict_keys (map spelled_out query_params) = dict_keys query_params /\
  Azure.normalise_crs (map spelled_out query_params)
    = Ret (map spelled_out query_params).
Proof.
  intros Hnd.
  assert (Hkeys : dict_keys (map spelled_out query_params) = dict_keys query_params).
  { unfold dict_keys. rewrite map_map. apply map_ext. apply spelled_out_key. }
  split; [|split; [exact Hkeys|]].
  - apply (normalise_crs_loop [] query_params Hnd).
  - transitivity (Ret (map spelled_out (map spelled_out query_params))).
    + apply (normalise_crs_loop [] (map spelled_out query_params)).
      cbn [app]. rewrite Hkeys. exact Hnd.
    + rewrite map_map. f_equal. apply map_ext. apply spelled_out_twice.
Qed.

Lemma normalise_crs_spec_witness :
  Azure.normalise_crs
    [("filter-crs", VInt 27700); ("limit", VInt 10); ("crs", VStr "CRS84"); ("bbox-crs", VBool true)]
  = Ret [("filter-crs", VStr "http://www.opengis.net/def/crs/EPSG/0/27700");
         ("limit", VInt 10); ("crs", VStr "CRS84");
         ("bbox-crs", VStr "http://www.opengis.net/def/crs/EPSG/0/True")].
Proof.
  apply (proj1 (normalise_crs_spec
    [("filter-crs", VInt 27700); ("limit", VInt 10); ("crs", VStr "CRS84");
     ("bbox-crs", VBool true)]
    ltac:(repeat constructor; cbn; intuition discriminate))).
Defined.

(** ** The single request *)

Section Stepping.
Context {U : Type}.

Lemma bind_step {A B} (c : M U A) (k : A -> M U B) w a w1 :
  c w = Some (Ret a, w1) -> bind c k w = k a w1.
Proof. unfold bind. intros ->. reflexivity. Qed.

Lemma bind_stop {A B} (c : M U A) (k : A -> M U B) w e w1 :
  c w = Some (Raise e, w1) -> bind c k w = Some (Raise e, w1).
Proof. unfold bind. intros ->. reflexivity. Qed.

Lemma bind_ext {A B} (c : M U A) (k1 k2 : A -> M U B) w :
  (forall a w1, k1 a w1 = k2 a w1) -> bind c k1 w = bind c k2 w.
Proof.
  intros Hk. unfold bind. destruct (c w) as [[[a|e] w1]|]; auto.
Qed.

Lemma copy_first (w : world U) x :
  copy_or_empty x w
  = Some (Ret (List.length (heap w) + 0)%nat, grown w [contents w x]).
Proof. rewrite Nat.add_0_r. apply copy_or_empty_run. Qed.

Lemma copy_grown (w : world U) objs x :
  valid w x ->
  copy_or_empty x (grown w objs)
  = Some (Ret (List.length (heap w) + List.length objs)%nat,
          grown w (objs ++ [contents w x])).
Proof.
  intros Hx. rewrite copy_or_empty_run. unfold grown. cbn [heap with_heap].
  rewrite length_app, <- app_assoc. do 3 f_equal.
  destruct x as [l|]; [|reflexivity]. simpl in *.
  rewrite lookup_app_l by exact Hx. reflexivity.
Qed.

Lemma deref_grown (w : world U) objs i :
  deref (List.length (heap w) + i) (grown w objs)
  = Some (Ret (default [] (objs !! i)), grown w objs).
Proof.
  unfold deref, grown. cbn [heap with_heap].
  rewrite lookup_app_r by lia.
  replace (List.length (heap w) + i - List.length (heap w))%nat with i by lia.
  reflexivity.
Qed.

Lemma update_grown (w : world U) objs i f :
  update (List.length (heap w) + i) f (grown w objs)
  = Some (Ret tt, grown w (<[i := f (default [] (objs !! i))]> objs)).
Proof.
  unfold update, grown. cbn [heap with_heap].
  rewrite lookup_app_r by lia.
  replace (List.length (heap w) + i - List.length (heap w))%nat with i by lia.
  rewrite insert_app_r. reflexivity.
Qed.

(** The loop over the query parameters always finishes. *)
Lemma normalise_crs_total q : exists q', Azure.normalise_crs q = Ret q'.
Proof.
  unfold Azure.normalise_crs. generalize q at 2. generalize q at 1 as todo.
  induction todo as [|[k v] todo IH]; intros acc; cbn [for_each].
  - eauto.
  - cbn [isinstance obind]. destruct (_ && _); cbn [obind]; apply IH.
Qed.

(** Up to the request: with no attribute filters, [ngd_items_request]
    copies the three mappings, completes the query parameters, takes [host]
    out of the headers and sends one request. *)
Lemma ngd_items_request_run (svc : services U) kw (w : world U) collection q' :
  kw_collection kw = Some collection ->
  default false (kw_use_latest_collection kw) = false ->
  plain_request w kw ->
  contents w (kw_filter_params kw) = [] ->
  Azure.normalise_crs
    (with_spatial_filter (kw_wkt kw) (contents w (kw_query_params kw))) = Ret q' ->
  Azure.ngd_items_request svc kw w
  = bind
      (external (get_items svc (items_url collection) q'
                   (dict_remove "host" (contents w (kw_headers kw)))))
      (respond svc (items_url collection) collection q'
         (default true (kw_add_metadata kw)))
      (grown w [q'; []; dict_remove "host" (contents w (kw_headers kw))]).
Proof.
  intros Hc Hl (Hrl & Hlim & Hvf & Hvh) Hfp Hq.
  unfold Azure.ngd_items_request. rewrite Hc, Hl, Hrl, Hlim. cbv zeta.
  rewrite (bind_step _ _ _ _ _ (copy_first w _)).
  rewrite (bind_step _ _ _ _ _ (copy_grown w _ _ Hvf)).
  rewrite (bind_step _ _ _ _ _ (copy_grown w _ _ Hvh)).
  cbn [app List.length]. rewrite Hfp.
  rewrite (bind_step _ _ _ _ _ (eq_refl : ret collection _ = _)).
  rewrite (bind_step _ _ _ _ _ (deref_grown w _ 1)).
  cbn [lookup list_lookup default from_option id truthy].
  rewrite (bind_step _ _ _ _ _ (eq_refl : ret tt _ = _)).
  assert (Hw : forall k : unit -> M U value,
             bind
               match kw_wkt kw with
               | Some wkt =>
                   if wkt_truthy wkt
                   then
                     update (List.length (heap w) + 0)
                       (fun q =>
                          dict_set "filter"
                            (Azure.merge_filter (default VNone (dict_get "filter" q))
                               (Azure.wkt_to_spatial_filter wkt)) q)
                   else ret tt
               | None => ret tt
               end k
               (grown w [contents w (kw_query_params kw); []; contents w (kw_headers kw)])
             = k tt
                 (grown w [with_spatial_filter (kw_wkt kw) (contents w (kw_query_params kw));
                           []; contents w (kw_headers kw)])).
  { intros k. unfold with_spatial_filter.
    destruct (kw_wkt kw) as [wkt|]; [|reflexivity].
    destruct (wkt_truthy wkt); [|reflexivity].
    rewrite (bind_step _ _ _ _ _ (update_grown w _ 0 _)). reflexivity. }
  rewrite Hw.
  rewrite (bind_step _ _ _ _ _ (deref_grown w _ 0)).
  cbn [lookup list_lookup default from_option id].
  rewrite Hq.
  rewrite (bind_step _ _ _ _ _ (eq_refl : lift (Ret q') _ = _)).
  rewrite (bind_step _ _ _ _ _ (update_grown w _ 0 _)).
  rewrite (bind_step _ _ _ _ _ (update_grown w _ 2 _)).
  rewrite (bind_step _ _ _ _ _ (deref_grown w _ 2)).
  reflexivity.
Qed.

End Stepping.

Section Request.
Context {U : Type}.

Lemma quiet_respond (svc : services U) url collection q add_metadata response :
  quiet (respond (traced_services svc) url collection q add_metadata response).
Proof.
  unfold respond. destruct (json_body response) as [jr|msg]; [|auto with quiet].
  destruct (400 <=? _)%Z; [auto with quiet|].
  apply quiet_bind; [auto with quiet|intros dimensions].
  apply quiet_bind.
  { intros w r w'. unfold external. cbn [track_event traced_services].
    destruct (track_event svc dimensions (fst (ext w))) as [o u'].
    intros [= <- <-]. reflexivity. }
  intros _. repeat (apply quiet_bind; [auto with quiet|intros]).
  destruct jr; auto with quiet.
Qed.

(** X6: one call of [ngd_items_request] without attribute filters sends
    exactly one request, whatever the answer: to the items of the
    collection, with the caller's query parameters in which the search area
    is added to [filter] and integer reference systems are spelled out, and
    with the caller's headers less [host]. *)
Theorem ngd_items_request_sends (svc : services U) kw (w : world (U * journal))
    collection r w' :
  kw_collection kw = Some collection ->
  default false (kw_use_latest_collection kw) = false ->
  plain_request w kw ->
  contents w (kw_filter_params kw) = [] ->
  Azure.ngd_items_request (traced_services svc) kw w = Some (r, w') ->
  exists q',
    Azure.normalise_crs
      (with_spatial_filter (kw_wkt kw) (contents w (kw_query_params kw))) = Ret q' /\
    journal_of w'
    = journal_of w ++
      [Requested (items_url collection) q'
         (dict_remove "host" (contents w (kw_headers kw)))].
Proof.
  intros Hc Hl Hp Hfp H.
  destruct (normalise_crs_total
              (with_spatial_filter (kw_wkt kw) (contents w (kw_query_params kw))))
    as [q' Hq].
  exists q'. split; [exact Hq|].
  rewrite (ngd_items_request_run _ _ _ _ _ Hc Hl Hp Hfp Hq) in H.
  set (h' := dict_remove "host" (contents w (kw_headers kw))) in *.
  assert (Hsent : forall x w1,
             external (get_items (traced_services svc) (items_url collection) q' h')
               (grown w [q'; []; h']) = Some (x, w1) ->
             journal_of w1 = journal_of w ++ [Requested (items_url collection) q' h']).
  { intros x w1. unfold external. cbn [get_items traced_services]. unfold logging.
    destruct (get_items svc _ _ _ _) as [x0 u0]. intros [= <- <-]. reflexivity. }
  apply bind_inv in H as [(response & w1 & H1 & H2)|(e & H1 & _)].
  - rewrite (quiet_respond _ _ _ _ _ _ _ _ _ H2). eapply Hsent; eauto.
  - eapply Hsent; eauto.
Qed.

(** X7: in the Azure variant a call of [ngd_items_request] with attribute
    filters and without [use_latest_collection] raises [TypeError] before
    anything is sent: the service and the environment are as they were, and
    so are the caller's objects.  (With [use_latest_collection] the
    catalogue is asked first.) *)
Theorem ngd_items_request_filter_params (svc : services U) kw (w : world U) collection :
  kw_collection kw = Some collection ->
  default false (kw_use_latest_collection kw) = false ->
  valid w (kw_filter_params kw) -> valid w (kw_headers kw) ->
  contents w (kw_filter_params kw) <> [] ->
  exists msg w',
    Azure.ngd_items_request svc kw w = Some (Raise (TypeError msg), w') /\
    ext w' = ext w /\ environ w' = environ w /\
    take (List.length (heap w)) (heap w') = heap w.
Proof.
  intros Hc Hl Hvf Hvh Hfp.
  unfold Azure.ngd_items_request. rewrite Hc, Hl. cbv zeta.
  rewrite (bind_step _ _ _ _ _ (copy_first w _)).
  rewrite (bind_step _ _ _ _ _ (copy_grown w _ _ Hvf)).
  rewrite (bind_step _ _ _ _ _ (copy_grown w _ _ Hvh)).
  cbn [app List.length].
  rewrite (bind_step _ _ _ _ _ (eq_refl : ret collection _ = _)).
  rewrite (bind_step _ _ _ _ _ (deref_grown w _ 1)).
  cbn [lookup list_lookup default from_option id].
  destruct (contents w (kw_filter_params kw)) as [|kv fp] eqn:Hfp0; [congruence|].
  cbn [truthy].
  destruct (azure_construct_filter_param_nonempty (kv :: fp) ltac:(discriminate))
    as [msg Hmsg].
  rewrite Hmsg. exists msg. eexists. split; [reflexivity|].
  split; [reflexivity|]. split; [reflexivity|].
  cbn [heap grown with_heap]. rewrite take_app_length. reflexivity.
Qed.

End Request.

Lemma ngd_items_request_sends_witness :
  exists r w',
    Azure.ngd_items_request (traced_services (answering forbidden))
      (request_kwargs "POINT (1 2)") (request_world (tt, [])) = Some (r, w') /\
    exists q',
      Azure.normalise_crs
        [("crs", VInt 27700);
         ("filter", VStr "(a=1)and(INTERSECTS(geometry,POINT (1 2)))")] = Ret q' /\
      journal_of w'
      = [Requested
           "https://api.os.uk/features/ngd/ofa/v1/collections/bld-fts-buildingline-2/items/"
           q' [("accept", VStr "application/json")]].
Proof.
  eexists. eexists. split; [vm_compute; reflexivity|].
  eapply (ngd_items_request_sends (answering forbidden) (request_kwargs "POINT (1 2)")
            (request_world (tt, [])) (VStr "bld-fts-buildingline-2")).
  - reflexivity.
  - reflexivity.
  - repeat split; simpl; lia.
  - reflexivity.
  - vm_compute. reflexivity.
Defined.

Lemma ngd_items_request_filter_params_witness :
  exists msg w',
    Azure.ngd_items_request (idle_services unit) filtered_kwargs (request_world tt)
    = Some (Raise (TypeError msg), w') /\
    ext w' = tt /\ environ w' = [] /\
    take 3 (heap w') = heap (request_world tt).
Proof.
  apply (ngd_items_request_filter_params (idle_services unit) filtered_kwargs
           (request_world tt) (VStr "bld-fts-buildingline-2")).
  - reflexivity.
  - reflexivity.
  - simpl. lia.
  - simpl. lia.
  - discriminate.
Defined.

(** *** What comes back *)

Lemma dict_get_absent k (d : dict) : ~ In k (dict_keys d) -> dict_get k d = None.
Proof.
  induction d as [|[k0 v0] d IH]; simpl; [reflexivity|]. intros Hn.
  destruct (String.eqb k k0) eqn:E; [|apply IH; tauto].
  apply String.eqb_eq in E. subst. tauto.
Qed.

Lemma dict_get_union k a b :
  List.NoDup (dict_keys b) ->
  dict_get k (Azure.dict_union a b)
  = match dict_get k b with Some v => Some v | None => dict_get k a end.
Proof.
  unfold Azure.dict_union. revert a.
  induction b as [|[k0 v0] b IH]; intros a Hnd; [reflexivity|].
  simpl in Hnd. apply NoDup_cons_iff in Hnd as [Hn Hnd].
  cbn [fold_left dict_get]. rewrite IH by exact Hnd.
  destruct (String.eqb k k0) eqn:E.
  - apply String.eqb_eq in E. subst k0.
    rewrite (dict_get_absent k b Hn). apply dict_get_set_eq.
  - destruct (dict_get k b); [reflexivity|].
    apply dict_get_set_ne. intros ->. rewrite String.eqb_refl in E. discriminate.
Qed.

Lemma dict_keys_set_present k v v0 (d : dict) :
  dict_get k d = Some v0 -> dict_keys (dict_set k v d) = dict_keys d.
Proof.
  induction d as [|[k1 v1] d IH]; simpl; [discriminate|].
  destruct (String.eqb k k1) eqn:E; simpl.
  - apply String.eqb_eq in E. subst. reflexivity.
  - intros H. rewrite (IH H). reflexivity.
Qed.

(** The branch for a failed response, on the bodies it is written for. *)
Lemma upstream_error_payload_spec status d :
  (400 <= status)%Z -> List.NoDup (dict_keys d) -> plain_failure d ->
  exists p,
    Azure.upstream_error_payload status (VDict d) = Ret (VDict p) /\
    ErrorPayload (VDict p) /\
    dict_get "errorSource" p = Some (VStr "OS NGD API") /\
    (truthy (default (VStr EmptyString) (dict_get "description" d)) = false ->
     p = [("code", VInt status);
          ("description", VDict (dict_remove "code" d));
          ("errorSource", VStr "OS NGD API")]).
Proof.
  intros Hst Hnd Hpf. unfold Azure.upstream_error_payload.
  assert (Htr : truthy (VInt status) = true).
  { cbn [truthy]. destruct (status =? 0)%Z eqn:E; [lia|reflexivity]. }
  destruct (truthy (default (VStr EmptyString) (dict_get "description" d))) eqn:Ht;
    cbn [negb obind].
  - (* a description that is a string *)
    unfold plain_failure in Hpf.
    destruct (dict_get "description" d) as [descr|] eqn:Hd; [|discriminate].
    cbn [default from_option id] in Ht |- *.
    destruct Hpf as [Hf|[[s ->] Hcode]]; [congruence|].
    set (amended :=
           str_replace "Supported parameters are" "Supported NGD parameters are" s
           +:+ ". Additional supported Catalyst parameters for this function are: {attr}.").
    assert (Hjr : exists jr s',
               (if str_prefix "Not supported query parameter" s
                then Ret (dict_set "description" (VStr amended) d)
                else Ret d) = Ret jr /\
               dict_get "code" jr = dict_get "code" d /\
               dict_get "description" jr = Some (VStr s') /\
               List.NoDup (dict_keys jr)).
    { destruct (str_prefix _ s).
      - exists (dict_set "description" (VStr amended) d), amended.
        split; [reflexivity|]. split; [apply dict_get_set_ne; discriminate|].
        split; [apply dict_get_set_eq|].
        rewrite (dict_keys_set_present _ _ _ _ Hd). exact Hnd.
      - exists d, s. auto. }
    destruct Hjr as (jr & s' & -> & Hc & Hds & Hndj). cbn [obind].
    rewrite Hc.
    assert (Hjr2 : exists jr2 c,
               (if negb (truthy (default VNone (dict_get "code" d)))
                then Azure.dict_union [("code", VInt status)] jr else jr) = jr2 /\
               dict_get "code" jr2 = Some (VInt c) /\ (400 <= c)%Z /\
               dict_get "description" jr2 = Some (VStr s')).
    { destruct (dict_get "code" d) as [c|] eqn:Hcd.
      - destruct Hcode as (n & -> & Hn). cbn [default from_option id truthy].
        destruct (n =? 0)%Z eqn:E; [lia|]. cbn [negb].
        exists jr, n. rewrite Hc. auto.
      - cbn [default from_option id truthy negb].
        exists (Azure.dict_union [("code", VInt status)] jr), status.
        split; [reflexivity|].
        rewrite !dict_get_union by exact Hndj. rewrite Hc, Hds. auto. }
    destruct Hjr2 as (jr2 & c & -> & Hc2 & Hge & Hd2).
    eexists. split; [reflexivity|]. split; [|split].
    + exists (dict_set "errorSource" (VStr "OS NGD API") jr2), c, (VStr s').
      split; [reflexivity|].
      rewrite !dict_get_set_ne by discriminate. auto.
    + apply dict_get_set_eq.
    + discriminate.
  - (* no description *)
    cbn [dict_get String.eqb Ascii.eqb Bool.eqb default from_option id].
    rewrite Htr. cbn [negb dict_set String.eqb Ascii.eqb Bool.eqb].
    eexists. split; [reflexivity|]. split; [|split].
    + eexists. exists status, (VDict (dict_remove "code" d)).
      split; [reflexivity|]. cbn. auto.
    + reflexivity.
    + reflexivity.
Qed.





Section Response.
Context {U : Type}.

(** X8: a failed request comes back as an error payload.  When the
    upstream answers with a status from 400 on and a JSON object whose
    description is missing, empty or a string (and, in the last case, whose
    code is missing or an integer from 400 on), [ngd_items_request] returns
    an error payload marked with the source [OS NGD API]; without a
    description the payload is the status and the rest of the body. *)
Theorem ngd_items_request_upstream_error (svc : services U) kw (w : world U)
    collection response d :
  kw_collection kw = Some collection ->
  default false (kw_use_latest_collection kw) = false ->
  plain_request w kw ->
  contents w (kw_filter_params kw) = [] ->
  (forall url q h u, exists u', get_items svc url q h u = (Ret response, u')) ->
  json_body response = inl (VDict d) ->
  (400 <= status_code response)%Z ->
  List.NoDup (dict_keys d) -> plain_failure d ->
  exists p w',
    Azure.ngd_items_request svc kw w = Some (Ret (VDict p), w') /\
    ErrorPayload (VDict p) /\
    dict_get "errorSource" p = Some (VStr "OS NGD API") /\
    (truthy (default (VStr EmptyString) (dict_get "description" d)) = false ->
     p = [("code", VInt (status_code response));
          ("description", VDict (dict_remove "code" d));
          ("errorSource", VStr "OS NGD API")]).
Proof.
  intros Hc Hl Hp Hfp Hsvc Hbody Hst Hnd Hpf.
  destruct (normalise_crs_total
              (with_spatial_filter (kw_wkt kw) (contents w (kw_query_params kw))))
    as [q' Hq].
  rewrite (ngd_items_request_run _ _ _ _ _ Hc Hl Hp Hfp Hq).
  destruct (upstream_error_payload_spec _ _ Hst Hnd Hpf) as (p & Hp1 & Hp2 & Hp3 & Hp4).
  exists p.
  destruct (Hsvc (items_url collection) q'
              (dict_remove "host" (contents w (kw_headers kw))) (ext w)) as [u' Hu].
  unfold bind at 1, external at 1. cbn [ext grown with_heap]. rewrite Hu.
  unfold respond. rewrite Hbody.
  destruct (400 <=? status_code response)%Z eqn:E; [|lia].
  unfold lift. rewrite Hp1. eexists. split; [reflexivity|]. auto.
Qed.










(** X10: with [use_latest_collection], [ngd_items_request] does what it
    does for the collection that the resolver's answer holds under the name
    given, and for the collection [None] when the answer does not hold that
    name.  The answer to a name the catalogue lacks is the payload with code
    404, which does not hold it: the payload is dropped and the items of a
    collection called [None] are requested. *)
Theorem ngd_items_request_latest (svc : services U) kw (w : world U) name answer :
  kw_collection kw = Some (VStr name) ->
  default false (kw_use_latest_collection kw) = true ->
  (forall w0,
     Azure.get_specific_latest_collections svc [VStr name] w0
     = Some (Ret (VDict answer), w0)) ->
  Azure.ngd_items_request svc kw w
  = Azure.ngd_items_request svc (for_named kw (default VNone (dict_get name answer))) w.
Proof.
  intros Hc Hl Hspec. unfold Azure.ngd_items_request.
  rewrite Hc, Hl. cbn [kw_collection kw_use_latest_collection kw_add_metadata
    kw_query_params kw_filter_params kw_headers kw_wkt kw_request_limit kw_limit
    for_named default from_option id]. cbv zeta.
  apply bind_ext. intros query_params w1.
  apply bind_ext. intros filter_params w2.
  apply bind_ext. intros headers w3.
  unfold bind at 1. unfold bind at 1. rewrite Hspec.
  reflexivity.
Qed.

End Response.

Lemma ngd_items_request_upstream_error_witness :
  exists p w',
    Azure.ngd_items_request (answering forbidden) (request_kwargs "POINT (1 2)")
      (request_world tt) = Some (Ret (VDict p), w') /\
    ErrorPayload (VDict p) /\
    dict_get "errorSource" p = Some (VStr "OS NGD API") /\
    (truthy (default (VStr EmptyString)
               (dict_get "description" [("message", VStr "Forbidden")])) = false ->
     p = [("code", VInt 403);
          ("description", VDict (dict_remove "code" [("message", VStr "Forbidden")]));
          ("errorSource", VStr "OS NGD API")]).
Proof.
  apply (ngd_items_request_upstream_error (answering forbidden)
           (request_kwargs "POINT (1 2)") (request_world tt)
           (VStr "bld-fts-buildingline-2") forbidden [("message", VStr "Forbidden")]).
  - reflexivity.
  - reflexivity.
  - repeat split; simpl; lia.
  - reflexivity.
  - intros url q h u. exists u. reflexivity.
  - reflexivity.
  - simpl. lia.
  - repeat constructor; cbn; intuition discriminate.
  - exact I.
Defined.


Lemma ngd_items_request_latest_witness :
  Azure.ngd_items_request catalogue_services (latest_kwargs "nosuch") (start [])
  = Azure.ngd_items_request catalogue_services
      (for_named (latest_kwargs "nosuch") VNone) (start []) /\
  exists r w',
    Azure.ngd_items_request catalogue_services (latest_kwargs "nosuch") (start [])
    = Some (r, w') /\
    ext w' = ["https://api.os.uk/features/ngd/ofa/v1/collections/None/items/"].
Proof.
  split.
  - apply (ngd_items_request_latest catalogue_services (latest_kwargs "nosuch") (start [])
             "nosuch"
             [("code", VInt 404);
              ("description", VStr ("Collection " +:+ py_repr (VStr "nosuch") +:+
                 " is not a supported Collection base name. The name must not include a version suffix. Please refer to the documentation for a list of supported Collections."));
              ("help", VStr "https://api.os.uk/features/ngd/ofa/v1/collections")]).
    + reflexivity.
    + reflexivity.
    + intros [h e u]. reflexivity.
  - eexists. eexists. split; vm_compute; reflexivity.
Defined.

(** ** The number of requests of the pagination coordinator *)

Section Logs.
Context {U : Type}.

Lemma logs_weaken {A} (P Q : journal -> outcome A -> Prop) (c : M (U * journal) A) :
  (forall evs r, P evs r -> Q evs r) -> logs P c -> logs Q c.
Proof.
  intros HPQ Hc w r w' H. destruct (Hc _ _ _ H) as (evs & Hj & HP). eauto.
Qed.

Lemma logs_ret {A} (P : journal -> outcome A -> Prop) (a : A) :
  P [] (Ret a) -> logs (U := U) P (ret a).
Proof. intros HP w r w' [= <- <-]. exists []. rewrite app_nil_r. auto. Qed.


(** A quiet step, then the rest. *)
Lemma logs_bind_quiet {A B} (P : journal -> outcome B -> Prop)
    (c : M (U * journal) A) (k : A -> M (U * journal) B) :
  quiet c ->
  (forall e, P [] (Raise e)) ->
  (forall a w w', c w = Some (Ret a, w') -> logs P (k a)) ->
  logs P (bind c k).
Proof.
  intros Hq He Hk w r w' H.
  apply bind_inv in H as [(a & w1 & H1 & H2)|(e & H1 & ->)].
  - destruct (Hk _ _ _ H1 _ _ _ H2) as (evs & Hj & HP).
    exists evs. rewrite Hj, (Hq _ _ _ H1). auto.
  - exists []. rewrite app_nil_r. split; [eapply Hq; eauto|apply He].
Qed.

(** A call of the wrapped function, then the rest. *)
Lemma logs_call {B} (P : journal -> outcome B -> Prop) (func : callable U) kw
    (k : value -> M (U * journal) B) :
  (forall e, P [Called kw (Raise e)] (Raise e)) ->
  (forall jr, logs (fun evs r => P (Called kw (Ret jr) :: evs) r) (k jr)) ->
  logs P (bind (traced func kw) k).
Proof.
  intros He Hk w r w' H.
  apply bind_inv in H as [(jr & w1 & H1 & H2)|(e & H1 & ->)].
  - destruct (Hk jr _ _ _ H2) as (evs & Hj & HP).
    exists (Called kw (Ret jr) :: evs).
    rewrite Hj, (traced_inv _ _ _ _ _ H1), <- app_assoc. auto.
  - exists [Called kw (Raise e)]. rewrite (traced_inv _ _ _ _ _ H1). auto.
Qed.

Lemma limit_loop_calls (func : callable U) kw q rl l bc fb fuel :
  forall rc off fs,
    logs (page_calls kw q rl l rc off)
      (Azure.limit_loop fuel (traced func) kw q rl l bc fb rc off fs).
Proof.
  assert (Hnil : forall rc off r,
             match r with
             | Ret (inr (rc', _)) => rc' = rc
             | _ => True
             end -> page_calls kw q rl l rc off [] r).
  { intros rc off r Hr. split; [constructor|]. split; [|split].
    - intros n _ Hle. simpl. lia.
    - intros lim _ _. now left.
    - destruct r as [[?|[rc' ?]]|]; auto. subst. simpl. lia. }
  induction fuel as [|fuel IH]; intros rc off fs; cbn [Azure.limit_loop];
    destruct (negb (Azure.eq_opt rc rl) && _) eqn:Hcond;
    try solve [apply logs_ret; apply Hnil; reflexivity].
  - intros w r w' H. discriminate.
  - apply andb_prop in Hcond as [Hrl Hl].
    assert (Hone : forall r,
               match r with
               | Ret (inr (rc', _)) => rc' = (rc + 1)%Z
               | _ => True
               end ->
               forall ri, page_calls kw q rl l rc off [Called (Azure.for_page kw q) ri] r).
    { intros r Hr ri. split; [repeat constructor; eauto|]. split; [|split].
      - intros n -> Hle. cbn [Azure.eq_opt] in Hrl.
        apply negb_true_iff, Z.eqb_neq in Hrl. simpl. lia.
      - intros lim -> Hlim. right. cbn [Azure.falsy] in Hl.
        destruct (lim =? 0)%Z eqn:E; [lia|]. cbn [orb] in Hl.
        apply Z.ltb_lt in Hl. simpl. lia.
      - destruct r as [[?|[rc' ?]]|]; auto; subst; simpl; lia. }
    apply logs_bind_quiet.
    { destruct (Azure.eq_opt rc bc); auto with quiet. }
    { intros e. apply Hnil. exact I. }
    intros _ _ _ _.
    apply logs_bind_quiet; [auto with quiet|intros e; apply Hnil; exact I|].
    intros _ _ _ _.
    destruct (kw_add_metadata kw).
    { intros w r w' H. cbv [bind raise] in H. injection H as <- <-.
      exists []. rewrite app_nil_r. split; [reflexivity|]. apply Hnil. exact I. }
    apply logs_call; [intros e; apply Hone; exact I|]. intros jr.
    apply logs_bind_quiet; [auto with quiet|intros e; apply Hone; exact I|].
    intros is_error _ _ _.
    destruct is_error; [apply logs_ret; apply Hone; exact I|].
    apply logs_bind_quiet; [auto with quiet|intros e; apply Hone; exact I|].
    intros page _ _ _.
    apply logs_bind_quiet; [auto with quiet|intros e; apply Hone; exact I|].
    intros page' _ _ _.
    apply logs_bind_quiet; [auto with quiet|intros e; apply Hone; exact I|].
    intros next _ _ _.
    destruct next as [|link next]; [apply logs_ret; apply Hone; reflexivity|].
    eapply logs_weaken; [|apply IH].
    intros evs r (Hc & Hb1 & Hb2 & Hr). split; [|split; [|split]].
    + constructor; eauto.
    + intros n Hn Hle. pose proof (Hn) as Hn'. subst rl. cbn [Azure.eq_opt] in Hrl.
      apply negb_true_iff, Z.eqb_neq in Hrl.
      specialize (Hb1 n eq_refl ltac:(lia)). cbn [List.length]. lia.
    + intros lim Hlim Hpos. right. pose proof (Hb2 lim Hlim Hpos) as [->|Hlt].
      * subst l. cbn [Azure.falsy] in Hl.
        destruct (lim =? 0)%Z eqn:E; [lia|]. cbn [orb] in Hl.
        apply Z.ltb_lt in Hl. simpl. lia.
      * cbn [List.length]. lia.
    + destruct r as [[?|[rc' ?]]|]; auto. cbn [List.length]. lia.
Qed.

(** X11: the pagination coordinator keeps to its bounds, whatever the
    wrapped function answers.  It calls the wrapped function at most
    [request_limit] times (50 when none is given); with a [limit] the last
    call starts at an offset below it, so that there are at most
    [ceil(limit / 100)] calls; and the [numberOfRequests] of the result it
    assembles is the number of calls it made. *)
Theorem limit_extension_request_bounds (svc : services U) (func : callable U)
    (fuel : nat) (kw : kwargs) (w : world (U * journal)) r w' :
  Azure.limit_extension (traced_services svc) fuel (traced func) kw w = Some (r, w') ->
  exists calls,
    journal_of w' = journal_of w ++ calls /\
    Forall (fun ev => exists kwi ri, ev = Called kwi ri) calls /\
    (forall n, default (Some 50%Z) (kw_request_limit kw) = Some n -> (0 <= n)%Z ->
               (Z.of_nat (List.length calls) <= n)%Z) /\
    (forall lim, default None (kw_limit kw) = Some lim -> (0 < lim)%Z ->
                 (100 * (Z.of_nat (List.length calls) - 1) < lim)%Z) /\
    (forall res, r = Ret res ->
       Azure.is_error_response res = Ret true \/
       py_item res "numberOfRequests" = Ret (VInt (Z.of_nat (List.length calls)))).
Proof.
  unfold Azure.limit_extension. intros H.
  apply bind_inv in H as [(query_params & w1 & H1 & H)|(e & H1 & _)];
    rewrite copy_or_empty_run in H1; [|discriminate].
  injection H1 as <- <-.
  apply bind_inv in H as [(q & w2 & H2 & H)|(e & H2 & _)]; [|discriminate].
  injection H2 as <- <-.
  assert (Hnone : exists calls : journal,
             journal_of (with_heap w (heap w ++ [contents w (kw_query_params kw)]))
             = journal_of w ++ calls /\
             Forall (fun ev => exists kwi ri, ev = Called kwi ri) calls /\
             (forall n, default (Some 50%Z) (kw_request_limit kw) = Some n -> (0 <= n)%Z ->
                        (Z.of_nat (List.length calls) <= n)%Z) /\
             (forall lim, default None (kw_limit kw) = Some lim -> (0 < lim)%Z ->
                          (100 * (Z.of_nat (List.length calls) - 1) < lim)%Z)).
  { exists []. rewrite app_nil_r. split; [reflexivity|]. split; [constructor|].
    split; intros; simpl; lia. }
  destruct (dict_mem _ _).
  { injection H as <- <-. destruct Hnone as (calls & ? & ? & ? & ?).
    exists calls. repeat (split; [assumption|]).
    intros res [= <-]. left. reflexivity. }
  destruct (match default None (kw_limit kw) with Some _ => _ | None => _ end)
    as [batch_count final_batchsize].
  destruct (_ && _).
  { injection H as <- <-. destruct Hnone as (calls & ? & ? & ? & ?).
    exists calls. repeat (split; [assumption|]). discriminate. }
  clear Hnone.
  assert (Hloop : forall res w1,
             Azure.limit_loop fuel (traced func) kw (List.length (heap w))
               (default (Some 50%Z) (kw_request_limit kw)) (default None (kw_limit kw))
               batch_count final_batchsize 0 0 []
               (with_heap w (heap w ++ [contents w (kw_query_params kw)]))
             = Some (res, w1) ->
             exists calls,
               journal_of w1 = journal_of w ++ calls /\
               Forall (fun ev => exists kwi ri, ev = Called kwi ri) calls /\
               (forall n, default (Some 50%Z) (kw_request_limit kw) = Some n -> (0 <= n)%Z ->
                          (Z.of_nat (List.length calls) <= n)%Z) /\
               (forall lim, default None (kw_limit kw) = Some lim -> (0 < lim)%Z ->
                            (100 * (Z.of_nat (List.length calls) - 1) < lim)%Z) /\
               match res with
               | Ret (inr (rc', _)) => rc' = Z.of_nat (List.length calls)
               | _ => True
               end).
  { intros res w1 Hrun.
    destruct (limit_loop_calls _ _ _ _ _ _ _ _ _ _ _ _ _ _ Hrun)
      as (calls & Hj & Hc & Hb1 & Hb2 & Hr).
    exists calls. split; [exact Hj|]. split; [|split; [|split]].
    - eapply Forall_impl; [exact Hc|]. intros ev [ri ->]. eauto.
    - intros n Hn Hle. specialize (Hb1 n Hn Hle). lia.
    - intros lim Hl Hpos. destruct (Hb2 lim Hl Hpos) as [->|Hlt]; simpl; lia.
    - destruct res as [[?|[rc' ?]]|]; auto. }
  apply bind_inv in H as [(res & w1 & H1 & H)|(e & H1 & ->)];
    destruct (Hloop _ _ H1) as (calls & Hj & Hc & Hb1 & Hb2 & Hr); exists calls.
  2:{ repeat (split; [assumption|]). discriminate. }
  destruct res as [jr|[request_count features]].
  - injection H as <- <-. repeat (split; [assumption|]).
    intros res [= <-]. left.
    exact (limit_loop_early _ _ _ _ _ _ _ _ _ _ _ _ _ _ H1).
  - apply bind_inv in H as [(t & w2 & H2 & H)|(e & H2 & _)]; [|discriminate].
    injection H2 as <- <-. injection H as <- <-.
    repeat (split; [assumption|]).
    intros res [= <-]. right. subst request_count. reflexivity.
Qed.

End Logs.

Lemma limit_extension_request_bounds_witness :
  exists r w',
    Azure.limit_extension (traced_services (idle_services nat)) 5
      (traced (scripted [full_page; full_page; full_page])) two_requests
      (start (0%nat, [])) = Some (r, w') /\
    exists calls,
      journal_of w' = [] ++ calls /\
      Forall (fun ev => exists kwi ri, ev = Called kwi ri) calls /\
      (forall n, Some 2%Z = Some n -> (0 <= n)%Z ->
                 (Z.of_nat (List.length calls) <= n)%Z) /\
      (forall lim, None = Some lim -> (0 < lim)%Z ->
                   (100 * (Z.of_nat (List.length calls) - 1) < lim)%Z) /\
      (forall res, r = Ret res ->
         Azure.is_error_response res = Ret true \/
         py_item res "numberOfRequests" = Ret (VInt (Z.of_nat (List.length calls)))).
Proof.
  eexists. eexists. split; [vm_compute; reflexivity|].
  apply (limit_extension_request_bounds (idle_services nat)
           (scripted [full_page; full_page; full_page]) 5 two_requests
           (start (0%nat, []))).
  vm_compute. reflexivity.
Defined.

(** ** The pagination loop comes to an end *)

Section Termination.
Context {U : Type}.

Lemma total_ret {A} (a : A) : total (U := U) (ret a).
Proof. intros w. eexists. eexists. reflexivity. Qed.

Lemma total_raise {A} e : total (U := U) (A := A) (raise e).
Proof. intros w. eexists. eexists. reflexivity. Qed.

Lemma total_lift {A} (c : outcome A) : total (U := U) (lift c).
Proof. intros w. eexists. eexists. reflexivity. Qed.

Lemma total_deref l : total (U := U) (deref l).
Proof. intros w. eexists. eexists. reflexivity. Qed.

Lemma total_update l f : total (U := U) (update l f).
Proof. intros w. eexists. eexists. reflexivity. Qed.

Lemma total_observe {A} (f : U -> outcome A) : total (observe f).
Proof. intros w. eexists. eexists. reflexivity. Qed.

Lemma total_copy_or_empty x : total (U := U) (copy_or_empty x).
Proof. intros w. rewrite copy_or_empty_run. eauto. Qed.

Lemma total_bind {A B} (c : M U A) (k : A -> M U B) :
  total c -> (forall a, total (k a)) -> total (bind c k).
Proof.
  intros Hc Hk w. destruct (Hc w) as ([a|e] & w1 & H1); unfold bind; rewrite H1.
  - apply Hk.
  - eauto.
Qed.

(** Fuel that covers what [request_limit] leaves, or what [limit] leaves. *)
Lemma limit_loop_total (func : callable U) kw q rl l bc fb :
  (forall kw, total (func kw)) ->
  forall fuel rc off fs,
    (exists n, rl = Some n /\ (rc <= n)%Z /\ (Z.to_nat (n - rc) <= fuel)%nat) \/
    (exists lim, l = Some lim /\ (0 < lim)%Z /\
                 (Z.to_nat ((lim - off + 99) / 100) <= fuel)%nat) ->
    total (Azure.limit_loop fuel func kw q rl l bc fb rc off fs).
Proof.
  intros Hfunc.
  assert (Hdiv : forall a, (100 <= a)%Z -> (1 <= a / 100)%Z /\
                           ((a - 100) / 100 = a / 100 - 1)%Z).
  { intros a Ha. split.
    - apply Z.div_le_lower_bound; lia.
    - replace (a - 100)%Z with (a + (-1) * 100)%Z by lia.
      rewrite Z.div_add by lia. lia. }
  assert (Hsmall : forall a, (a < 100)%Z -> (a / 100 <= 0)%Z).
  { intros a Ha. destruct (Z.le_gt_cases 0 a).
    - rewrite Z.div_small by lia. lia.
    - assert (a / 100 < 0)%Z by (apply Z.div_lt_upper_bound; lia). lia. }
  induction fuel as [|fuel IH]; intros rc off fs Hfuel; cbn [Azure.limit_loop];
    destruct (negb (Azure.eq_opt rc rl) && _) eqn:Hcond; try apply total_ret;
    apply andb_prop in Hcond as [Hrl Hl].
  - exfalso. destruct Hfuel as [(n & -> & Hle & Hf)|(lim & -> & Hpos & Hf)].
    + cbn [Azure.eq_opt] in Hrl. apply negb_true_iff, Z.eqb_neq in Hrl. lia.
    + cbn [Azure.falsy] in Hl. destruct (lim =? 0)%Z eqn:E; [lia|]. cbn [orb] in Hl.
      apply Z.ltb_lt in Hl.
      destruct (Hdiv (lim - off + 99)%Z ltac:(lia)) as [H1 _]. lia.
  - apply total_bind.
    { destruct (Azure.eq_opt rc bc); [apply total_update|apply total_ret]. }
    intros _. apply total_bind; [apply total_update|]. intros _.
    apply total_bind.
    { destruct (kw_add_metadata kw); [apply total_raise|apply Hfunc]. }
    intros jr. apply total_bind; [apply total_lift|]. intros is_error.
    destruct is_error; [apply total_ret|].
    apply total_bind; [apply total_lift|]. intros page.
    apply total_bind; [apply total_lift|]. intros page'.
    apply total_bind; [apply total_lift|]. intros next.
    destruct next; [apply total_ret|]. apply IH.
    destruct Hfuel as [(n & -> & Hle & Hf)|(lim & -> & Hpos & Hf)].
    + left. exists n. cbn [Azure.eq_opt] in Hrl.
      apply negb_true_iff, Z.eqb_neq in Hrl. split; [reflexivity|]. lia.
    + right. exists lim. split; [reflexivity|]. split; [exact Hpos|].
      cbn [Azure.falsy] in Hl. destruct (lim =? 0)%Z eqn:E; [lia|]. cbn [orb] in Hl.
      apply Z.ltb_lt in Hl.
      destruct (Hdiv (lim - off + 99)%Z ltac:(lia)) as [H1 H2].
      replace (lim - (off + 100) + 99)%Z with (lim - off + 99 - 100)%Z by lia.
      rewrite H2. lia.
Qed.

(** X12: the pagination coordinator finishes.  If the wrapped function
    always answers, a run returns or raises once the loop is given as many
    turns as [request_limit] allows (50 when none is given), or as many as
    [limit] allows, that is [ceil(limit / 100)]. *)
Theorem limit_extension_terminates (svc : services U) (func : callable U)
    (fuel : nat) (kw : kwargs) :
  (forall kw, total (func kw)) ->
  (exists n, default (Some 50%Z) (kw_request_limit kw) = Some n /\ (0 <= n)%Z /\
             (Z.to_nat n <= fuel)%nat) \/
  (exists lim, default None (kw_limit kw) = Some lim /\ (0 < lim)%Z /\
               (Z.to_nat ((lim + 99) / 100) <= fuel)%nat) ->
  total (Azure.limit_extension svc fuel func kw).
Proof.
  intros Hfunc Hfuel. unfold Azure.limit_extension.
  apply total_bind; [apply total_copy_or_empty|]. intros query_params.
  apply total_bind; [apply total_deref|]. intros q.
  destruct (dict_mem _ _); [apply total_ret|].
  destruct (match default None (kw_limit kw) with Some _ => _ | None => _ end)
    as [batch_count final_batchsize].
  destruct (_ && _); [apply total_raise|].
  apply total_bind.
  - apply limit_loop_total; [exact Hfunc|].
    destruct Hfuel as [(n & Hn & Hle & Hf)|(lim & Hl & Hpos & Hf)].
    + left. exists n. split; [exact Hn|]. split; [lia|].
      replace (n - 0)%Z with n by lia. exact Hf.
    + right. exists lim. split; [exact Hl|]. split; [exact Hpos|].
      replace (lim - 0 + 99)%Z with (lim + 99)%Z by lia. exact Hf.
  - intros [jr|[request_count features]]; [apply total_ret|].
    apply total_bind; [apply total_observe|]. intros time_stamp. apply total_ret.
Qed.

End Termination.

Lemma limit_extension_terminates_witness :
  exists r w',
    Azure.limit_extension (idle_services unit) 3 (always full_page) (with_limit 250)
      (start tt) = Some (r, w').
Proof.
  apply (limit_extension_terminates (idle_services unit) (always full_page) 3
           (with_limit 250)).
  - intros kw w. eexists. eexists. reflexivity.
  - right. exists 250%Z. split; [reflexivity|]. split; [lia|]. vm_compute. lia.
Defined.

(** ** What the wrapped function is shown *)

Section Sights.
Context {U : Type}.

Lemma watched_inv (func : callable U) kw (w : world (U * list sight)) r w' :
  watched func kw w = Some (r, w') ->
  sights_of w' = sights_of w ++ [sight_at kw w] /\
  exists w0, func kw (behind w) = Some (r, w0) /\
             heap w' = heap w0 /\ environ w' = environ w0.
Proof.
  unfold watched. destruct (func kw (behind w)) as [[r0 w0]|] eqn:E; [|discriminate].
  intros [= <- <-]. split; [reflexivity|]. exists w0. auto.
Qed.

Lemma update_inv {V} l f (w : world V) r w' :
  update l f w = Some (r, w') ->
  r = Ret tt /\ w' = with_heap w (<[l := f (default [] (heap w !! l))]> (heap w)).
Proof. intros [= <- <-]. auto. Qed.

Lemma lift_run {V A} (c : outcome A) (w : world V) r w' :
  lift c w = Some (r, w') -> r = c /\ w' = w.
Proof. intros [= <- <-]. auto. Qed.

(** The calls of the pagination loop, one after the other: each is shown
    the offset of its page, and the call that [batch_count] names is shown
    the size of the last batch. *)
Lemma limit_loop_offsets (func : callable U) kw q rl l bc fb fuel :
  grows func ->
  forall rc off fs (w : world (U * list sight)) r w',
    (q < List.length (heap w))%nat ->
    Azure.limit_loop fuel (watched func) kw q rl l bc fb rc off fs w = Some (r, w') ->
    exists seen,
      sights_of w' = sights_of w ++ seen /\
      forall i s,
        seen !! i = Some s ->
        dict_get "offset" (seen_params s) = Some (VInt (off + 100 * Z.of_nat i)) /\
        (bc = Some (rc + Z.of_nat i)%Z ->
         dict_get "limit" (seen_params s) = Some (Azure.int_or_none fb)).
Proof.
  intros Hgrows.
  induction fuel as [|fuel IH]; intros rc off fs w r w' Hq; cbn [Azure.limit_loop];
    destruct (negb _ && _);
    try solve [intros [= <- <-]; exists []; rewrite app_nil_r;
               split; [reflexivity|intros [|i] s; discriminate]].
  - discriminate.
  - intros H.
    (* the two assignments *)
    set (q1 := if Azure.eq_opt rc bc
               then dict_set "limit" (Azure.int_or_none fb) (default [] (heap w !! q))
               else default [] (heap w !! q)).
    set (w2 := with_heap w (<[q := dict_set "offset" (VInt off) q1]> (heap w))).
    assert (H2 : bind (update q (dict_set "offset" (VInt off)))
                   (fun _ =>
                      bind
                        match kw_add_metadata kw with
                        | Some _ =>
                            raise (TypeError "got multiple values for keyword argument 'add_metadata'")
                        | None => watched func (Azure.for_page kw q)
                        end
                        (fun json_response =>
                           bind (lift (Azure.is_error_response json_response))
                             (fun is_error =>
                                if (is_error : bool) then ret (inl json_response)
                                else
                                  bind (lift (py_item json_response "features"))
                                    (fun page =>
                                       bind (lift (py_iter page))
                                         (fun page =>
                                            bind (lift (Azure.next_links json_response))
                                              (fun next =>
                                                 match next with
                                                 | [] => ret (inr ((rc + 1)%Z, fs ++ page))
                                                 | _ :: _ =>
                                                     Azure.limit_loop fuel (watched func) kw q rl l
                                                       bc fb (rc + 1)%Z (off + 100)%Z (fs ++ page)
                                                 end))))))
                   (if Azure.eq_opt rc bc
                    then with_heap w
                           (<[q := dict_set "limit" (Azure.int_or_none fb)
                                     (default [] (heap w !! q))]> (heap w))
                    else w)
                 = Some (r, w')).
    { destruct (Azure.eq_opt rc bc); exact H. }
    clear H.
    assert (H3 : bind
                   match kw_add_metadata kw with
                   | Some _ =>
                       raise (TypeError "got multiple values for keyword argument 'add_metadata'")
                   | None => watched func (Azure.for_page kw q)
                   end
                   (fun json_response =>
                      bind (lift (Azure.is_error_response json_response))
                        (fun is_error =>
                           if (is_error : bool) then ret (inl json_response)
                           else
                             bind (lift (py_item json_response "features"))
                               (fun page =>
                                  bind (lift (py_iter page))
                                    (fun page =>
                                       bind (lift (Azure.next_links json_response))
                                         (fun next =>
                                            match next with
                                            | [] => ret (inr ((rc + 1)%Z, fs ++ page))
                                            | _ :: _ =>
                                                Azure.limit_loop fuel (watched func) kw q rl l
                                                  bc fb (rc + 1)%Z (off + 100)%Z (fs ++ page)
                                            end))))) w2
                 = Some (r, w')).
    { unfold w2, q1. destruct (Azure.eq_opt rc bc); cbn [bind update] in H2.
      - cbn [heap with_heap] in H2.
        rewrite list_lookup_insert_eq in H2 by exact Hq.
        rewrite list_insert_insert_eq in H2. exact H2.
      - exact H2. }
    clear H2.
    assert (Hseen : seen_params (sight_at (Azure.for_page kw q) w2)
                    = dict_set "offset" (VInt off) q1).
    { unfold sight_at, contents, w2. cbn [kw_query_params Azure.for_page heap with_heap].
      rewrite list_lookup_insert_eq by exact Hq. reflexivity. }
    assert (Hfirst : dict_get "offset" (dict_set "offset" (VInt off) q1)
                     = Some (VInt (off + 100 * Z.of_nat 0)) /\
                     (bc = Some (rc + Z.of_nat 0)%Z ->
                      dict_get "limit" (dict_set "offset" (VInt off) q1)
                      = Some (Azure.int_or_none fb))).
    { split.
      - rewrite dict_get_set_eq. do 2 f_equal. lia.
      - intros ->. unfold q1. cbn [Azure.eq_opt].
        replace (rc =? rc + Z.of_nat 0)%Z with true by (symmetry; apply Z.eqb_eq; lia).
        rewrite dict_get_set_ne by discriminate. apply dict_get_set_eq. }
    assert (Hq2 : (q < List.length (heap w2))%nat).
    { unfold w2. cbn [heap with_heap]. rewrite length_insert. exact Hq. }
    destruct (kw_add_metadata kw).
    { cbv [bind raise] in H3. injection H3 as <- <-. exists []. rewrite app_nil_r.
      split; [reflexivity|intros [|i] s; discriminate]. }
    assert (Hone : forall w3 : world (U * list sight),
               sights_of w3 = sights_of w2 ++ [sight_at (Azure.for_page kw q) w2] ->
               exists seen,
                 sights_of w3 = sights_of w ++ seen /\
                 forall i s,
                   seen !! i = Some s ->
                   dict_get "offset" (seen_params s) = Some (VInt (off + 100 * Z.of_nat i)) /\
                   (bc = Some (rc + Z.of_nat i)%Z ->
                    dict_get "limit" (seen_params s) = Some (Azure.int_or_none fb))).
    { intros w3 Hw3. exists [sight_at (Azure.for_page kw q) w2].
      split; [exact Hw3|]. intros [|i] s Hs; [|destruct i; discriminate].
      injection Hs as <-. rewrite Hseen. exact Hfirst. }
    apply bind_inv in H3 as [(jr & w3 & H3 & H)|(e & H3 & ->)];
      apply watched_inv in H3 as (Hs3 & w0 & Hf & Hh3 & _).
    2:{ apply Hone. exact Hs3. }
    assert (Hq3 : (q < List.length (heap w3))%nat).
    { rewrite Hh3. apply Hgrows in Hf. cbn [heap behind] in Hf. lia. }
    apply bind_inv in H as [(is_error & w4 & H4 & H)|(e & H4 & ->)];
      apply lift_run in H4 as [_ ->]; [|apply Hone; exact Hs3].
    destruct is_error; [injection H as <- <-; apply Hone; exact Hs3|].
    apply bind_inv in H as [(page & w5 & H5 & H)|(e & H5 & ->)];
      apply lift_run in H5 as [_ ->]; [|apply Hone; exact Hs3].
    apply bind_inv in H as [(page' & w6 & H6 & H)|(e & H6 & ->)];
      apply lift_run in H6 as [_ ->]; [|apply Hone; exact Hs3].
    apply bind_inv in H as [(next & w7 & H7 & H)|(e & H7 & ->)];
      apply lift_run in H7 as [_ ->]; [|apply Hone; exact Hs3].
    destruct next as [|link next]; [injection H as <- <-; apply Hone; exact Hs3|].
    destruct (IH _ _ _ _ _ _ Hq3 H) as (seen & Hs & Hall).
    exists (sight_at (Azure.for_page kw q) w2 :: seen). split.
    + rewrite Hs, Hs3. cbn [sights_of ext with_heap w2]. rewrite <- app_assoc. reflexivity.
    + intros [|i] s Hi.
      * injection Hi as <-. rewrite Hseen. exact Hfirst.
      * destruct (Hall i s Hi) as [Ho Hl]. split.
        -- rewrite Ho. do 2 f_equal. lia.
        -- intros Hbc. apply Hl. rewrite Hbc. f_equal. lia.
Qed.

Lemma sights_with_heap (w : world (U * list sight)) h :
  sights_of (with_heap w h) = sights_of w.
Proof. reflexivity. Qed.

(** X13: the pages of the pagination coordinator.  Whatever the wrapped
    function does with the mapping it is handed, the call number [i] of a
    run (from 0) finds [offset] set to [100 * i] in its query parameters,
    and, with a [limit], the call number [limit div 100] finds the query
    parameter [limit] set to [limit mod 100]. *)
Theorem limit_extension_offsets (svc : services U) (func : callable U) (fuel : nat)
    (kw : kwargs) (w : world (U * list sight)) r w' :
  grows func ->
  Azure.limit_extension (beside svc) fuel (watched func) kw w = Some (r, w') ->
  exists seen,
    sights_of w' = sights_of w ++ seen /\
    forall i s,
      seen !! i = Some s ->
      dict_get "offset" (seen_params s) = Some (VInt (100 * Z.of_nat i)) /\
      (forall lim,
         default None (kw_limit kw) = Some lim -> lim <> 0%Z ->
         Z.of_nat i = (lim `div` 100)%Z ->
         dict_get "limit" (seen_params s) = Some (VInt (lim `mod` 100))).
Proof.
  intros Hgrows. unfold Azure.limit_extension. intros H.
  apply bind_inv in H as [(query_params & w1 & H1 & H)|(e & H1 & _)];
    rewrite copy_or_empty_run in H1; [|discriminate].
  injection H1 as <- <-.
  apply bind_inv in H as [(q & w2 & H2 & H)|(e & H2 & _)]; [|discriminate].
  injection H2 as <- <-.
  assert (Hnone : exists seen : list sight,
             sights_of (with_heap w (heap w ++ [contents w (kw_query_params kw)]))
             = sights_of w ++ seen /\
             forall i s,
               seen !! i = Some s ->
               dict_get "offset" (seen_params s) = Some (VInt (100 * Z.of_nat i)) /\
               (forall lim,
                  default None (kw_limit kw) = Some lim -> lim <> 0%Z ->
                  Z.of_nat i = (lim `div` 100)%Z ->
                  dict_get "limit" (seen_params s) = Some (VInt (lim `mod` 100)))).
  { exists []. rewrite app_nil_r. split; [reflexivity|]. intros [|i] s; discriminate. }
  destruct (dict_mem _ _); [injection H as <- <-; exact Hnone|].
  destruct (match default None (kw_limit kw) with Some _ => _ | None => _ end)
    as [batch_count final_batchsize] eqn:Hdm.
  destruct (_ && _); [injection H as <- <-; exact Hnone|]. clear Hnone.
  assert (Hloop : forall res w1,
             Azure.limit_loop fuel (watched func) kw (List.length (heap w))
               (default (Some 50%Z) (kw_request_limit kw)) (default None (kw_limit kw))
               batch_count final_batchsize 0 0 []
               (with_heap w (heap w ++ [contents w (kw_query_params kw)]))
             = Some (res, w1) ->
             exists seen,
               sights_of w1 = sights_of w ++ seen /\
               forall i s,
                 seen !! i = Some s ->
                 dict_get "offset" (seen_params s) = Some (VInt (100 * Z.of_nat i)) /\
                 (forall lim,
                    default None (kw_limit kw) = Some lim -> lim <> 0%Z ->
                    Z.of_nat i = (lim `div` 100)%Z ->
                    dict_get "limit" (seen_params s) = Some (VInt (lim `mod` 100)))).
  { intros res w1 Hrun.
    apply (limit_loop_offsets _ _ _ _ _ _ _ _ Hgrows) in Hrun.
    2:{ cbn [heap with_heap]. rewrite length_app. simpl. lia. }
    destruct Hrun as (seen & Hs & Hall). exists seen. split; [exact Hs|].
    intros i s Hi. destruct (Hall i s Hi) as [Ho Hl]. split; [exact Ho|].
    intros lim Hlim Hne Hidx. rewrite Hlim in Hdm.
    destruct (lim =? 0)%Z eqn:E; [apply Z.eqb_eq in E; contradiction|].
    injection Hdm as <- <-. apply Hl. f_equal. lia. }
  apply bind_inv in H as [(res & w1 & H1 & H)|(e & H1 & ->)];
    destruct (Hloop _ _ H1) as (seen & Hs & Hall); exists seen; (split; [|exact Hall]).
  2:{ exact Hs. }
  destruct res as [jr|[request_count features]].
  - injection H as <- <-. exact Hs.
  - apply bind_inv in H as [(t & w2 & H2 & H)|(e & H2 & _)]; [|discriminate].
    injection H2 as <- <-. injection H as <- <-. exact Hs.
Qed.

End Sights.

Lemma limit_extension_offsets_witness :
  exists r w',
    Azure.limit_extension (beside (idle_services unit)) 5 (watched (always full_page))
      limited_kwargs (request_world (tt, [])) = Some (r, w') /\
    exists seen,
      sights_of w' = [] ++ seen /\
      forall i s,
        seen !! i = Some s ->
        dict_get "offset" (seen_params s) = Some (VInt (100 * Z.of_nat i)) /\
        (forall lim,
           Some 250%Z = Some lim -> lim <> 0%Z ->
           Z.of_nat i = (lim `div` 100)%Z ->
           dict_get "limit" (seen_params s) = Some (VInt (lim `mod` 100))).
Proof.
  eexists. eexists. split; [vm_compute; reflexivity|].
  eapply (limit_extension_offsets (idle_services unit) (always full_page) 5
            limited_kwargs (request_world (tt, []))).
  - intros kw w r w' [= <- <-]. lia.
  - vm_compute. reflexivity.
Defined.

(** *** The bearer token *)

Lemma env_lookup_store k v e : env_lookup k (env_store k v e) = Some v.
Proof.
  induction e as [|[k' v'] e IH]; simpl.
  - now rewrite String.eqb_refl.
  - destruct (String.eqb k k') eqn:E; simpl; rewrite ?String.eqb_refl, ?E; auto.
Qed.

Section Bearer.
Context {U : Type}.

Lemma refresh_beside (svc : services U) client_id client_secret
    (w : world (U * list sight)) x w' :
  try_permission (Azure.get_access_token (beside svc) client_id client_secret) w
    = Some (x, w') ->
  heap w' = heap w /\ environ w' = environ w /\ sights_of w' = sights_of w.
Proof.
  unfold try_permission, Azure.get_access_token, bind, external.
  cbn [post_token beside].
  destruct (post_token svc client_id client_secret (fst (ext w))) as [resp u].
  destruct resp as [h|e].
  - unfold Azure.response_json. destruct (json_body h) as [body|msg].
    + cbn [ret]. destruct (status_code h =? 401)%Z.
      * cbn [raise]. intros [= <- <-]. auto.
      * unfold lift. destruct (py_item body "access_token") as [tok|e].
        -- intros [= <- <-]. auto.
        -- destruct e; intros [= <- <-]; auto.
    + cbn [raise]. intros [= <- <-]. auto.
  - destruct e; intros [= <- <-]; auto.
Qed.

(** X14: the token the auth decorator passes on.  The first call of the
    wrapped function finds the caller's headers with [Authorization] set to
    the bearer token of the environment (an empty one if there is none);
    if there is a second call, it finds [Authorization] set to the token
    that the environment holds by then, which is the one just obtained. *)
Theorem oauth2_manager_bearer (svc : services U) (func : callable U) (kw : kwargs)
    (w : world (U * list sight)) r w' :
  grows func ->
  Azure.oauth2_manager (beside svc) (watched func) kw w = Some (r, w') ->
  exists s1 rest,
    sights_of w' = sights_of w ++ s1 :: rest /\
    dict_get "Authorization" (seen_headers s1)
    = Some (VStr ("Bearer " +:+
                  default EmptyString (env_lookup "ACCESS_TOKEN" (environ w)))) /\
    (forall k, k <> "Authorization" ->
               dict_get k (seen_headers s1) = dict_get k (contents w (kw_headers kw))) /\
    (rest = [] \/
     exists s2 tok,
       rest = [s2] /\ seen_token s2 = Some tok /\
       dict_get "Authorization" (seen_headers s2) = Some (VStr ("Bearer " +:+ tok))).
Proof.
  intros Hgrows. unfold Azure.oauth2_manager. intros H.
  apply bind_inv in H as [(headers & w1 & H1 & H)|(e & H1 & _)];
    rewrite copy_or_empty_run in H1; [|discriminate].
  injection H1 as <- <-.
  apply bind_inv in H as [(tok & w2 & H2 & H)|(e & H2 & _)]; [|discriminate].
  injection H2 as <- <-. cbn [environ with_heap] in H.
  apply bind_inv in H as [([] & w3 & H3 & H)|(e & H3 & _)]; [|discriminate].
  apply update_inv in H3 as [_ ->]. cbn [heap with_heap] in H.
  rewrite lookup_fresh in H. cbn [default from_option id] in H.
  set (n := List.length (heap w)) in *.
  set (h0 := contents w (kw_headers kw)) in *.
  set (token := default EmptyString (env_lookup "ACCESS_TOKEN" (environ w))) in *.
  set (h1 := dict_set "Authorization" (VStr ("Bearer " +:+ token)) h0) in *.
  set (w3 := with_heap (with_heap w (heap w ++ [h0])) (<[n := h1]> (heap w ++ [h0]))) in *.
  set (kw1 := Azure.with_headers kw (Some n)) in *.
  assert (Hn : (n < List.length (heap w ++ [h0]))%nat).
  { rewrite length_app. simpl. unfold n. lia. }
  assert (Hs1 : seen_headers (sight_at kw1 w3) = h1).
  { unfold sight_at, contents, w3, kw1.
    cbn [kw_headers Azure.with_headers heap with_heap seen_headers].
    rewrite list_lookup_insert_eq by exact Hn. reflexivity. }
  assert (Hfirst : forall (w4 : world (U * list sight)) rest,
             sights_of w4 = sights_of w3 ++ sight_at kw1 w3 :: rest ->
             rest = [] \/
             (exists s2 tok,
                rest = [s2] /\ seen_token s2 = Some tok /\
                dict_get "Authorization" (seen_headers s2)
                = Some (VStr ("Bearer " +:+ tok))) ->
             exists s1 rest,
               sights_of w4 = sights_of w ++ s1 :: rest /\
               dict_get "Authorization" (seen_headers s1)
               = Some (VStr ("Bearer " +:+ token)) /\
               (forall k, k <> "Authorization" ->
                          dict_get k (seen_headers s1) = dict_get k h0) /\
               (rest = [] \/
                exists s2 tok,
                  rest = [s2] /\ seen_token s2 = Some tok /\
                  dict_get "Authorization" (seen_headers s2)
                  = Some (VStr ("Bearer " +:+ tok)))).
  { intros w4 rest Hw4 Hrest. exists (sight_at kw1 w3), rest.
    split; [exact Hw4|]. rewrite Hs1. unfold h1.
    split; [apply dict_get_set_eq|]. split; [|exact Hrest].
    intros k Hk. apply dict_get_set_ne. congruence. }
  apply bind_inv in H as [(response & w4 & H4 & H)|(e & H4 & ->)];
    apply watched_inv in H4 as (Hs4 & w0 & Hf & Hh4 & He4).
  2:{ apply (Hfirst _ []); [exact Hs4|now left]. }
  assert (Hn4 : (n < List.length (heap w4))%nat).
  { rewrite Hh4. apply Hgrows in Hf. cbn [heap behind w3 with_heap] in Hf.
    rewrite length_insert in Hf. lia. }
  apply bind_inv in H as [(code & w5 & H5 & H)|(e & H5 & ->)];
    apply lift_run in H5 as [_ ->].
  2:{ apply (Hfirst _ []); [exact Hs4|now left]. }
  destruct (negb (py_eq code (VInt 401))).
  { injection H as <- <-. apply (Hfirst _ []); [exact Hs4|now left]. }
  apply bind_inv in H as [(client_id & w6 & H6 & H)|(e & H6 & _)]; [|discriminate].
  injection H6 as <- <-.
  apply bind_inv in H as [(client_secret & w7 & H7 & H)|(e & H7 & _)]; [|discriminate].
  injection H7 as <- <-.
  apply bind_inv in H as [(refreshed & w8 & H8 & H)|(e & H8 & ->)];
    apply refresh_beside in H8 as (Hh8 & He8 & Hs8).
  2:{ apply (Hfirst _ []); [rewrite Hs8; exact Hs4|now left]. }
  destruct refreshed as [access_token|].
  2:{ injection H as <- <-. apply (Hfirst _ []); [rewrite Hs8; exact Hs4|now left]. }
  destruct access_token as [| | |fresh| |];
    try (cbv [bind Azure.setenv_value raise] in H; injection H as <- <-;
         apply (Hfirst _ []); [rewrite Hs8; exact Hs4|now left]).
  apply bind_inv in H as [([] & w9 & H9 & H)|(e & H9 & _)]; [|discriminate].
  cbn [Azure.setenv_value] in H9. injection H9 as <-.
  apply bind_inv in H as [([] & w10 & H10 & H)|(e & H10 & _)]; [|discriminate].
  apply update_inv in H10 as [_ ->]. cbn [heap with_heap] in H.
  match type of H with
  | watched func ?k ?w = _ => set (w10 := w) in *
  end.
  apply watched_inv in H as (Hs & _).
  apply (Hfirst _ [sight_at kw1 w10]).
  - rewrite Hs. change (sights_of w10) with (sights_of w8).
    rewrite Hs8, Hs4, <- app_assoc. reflexivity.
  - right. exists (sight_at kw1 w10), fresh. split; [reflexivity|]. split.
    + unfold sight_at, w10. cbn [seen_token environ with_heap]. apply env_lookup_store.
    + unfold sight_at, contents, w10, kw1.
      cbn [seen_headers kw_headers Azure.with_headers heap with_heap].
      rewrite list_lookup_insert_eq by (rewrite Hh8; exact Hn4).
      cbn [default from_option id py_str]. apply dict_get_set_eq.
Qed.

End Bearer.

Lemma oauth2_manager_bearer_witness :
  exists r w',
    Azure.oauth2_manager (beside (token_services token_granted))
      (watched (scripted [stale; full_page])) (on_collection "bld-fts-buildingline-2")
      (start (0%nat, [])) = Some (r, w') /\
    exists s1 rest,
      sights_of w' = [] ++ s1 :: rest /\
      dict_get "Authorization" (seen_headers s1) = Some (VStr "Bearer ") /\
      (forall k, k <> "Authorization" -> dict_get k (seen_headers s1) = dict_get k []) /\
      (rest = [] \/
       exists s2 tok,
         rest = [s2] /\ seen_token s2 = Some tok /\
         dict_get "Authorization" (seen_headers s2) = Some (VStr ("Bearer " +:+ tok))).
Proof.
  eexists. eexists. split; [vm_compute; reflexivity|].
  eapply (oauth2_manager_bearer (token_services token_granted)
            (scripted [stale; full_page]) (on_collection "bld-fts-buildingline-2")
            (start (0%nat, []))).
  - intros kw w r w' [= <- <-]. reflexivity.
  - vm_compute. reflexivity.
Defined.

(** ** The parts of a search area *)

Lemma geometry_nested_ind (P : geometry -> Prop) :
  (forall kind wkt is_empty, P (Atomic kind wkt is_empty)) ->
  (forall wkt geoms, Forall P geoms -> P (Multi wkt geoms)) ->
  forall g, P g.
Proof.
  intros HA HM. fix IH 1. intros [kind wkt e|wkt geoms]; [apply HA|].
  apply HM. induction geoms as [|g geoms IHg]; constructor; [apply IH|exact IHg].
Qed.

Lemma flat_map_atoms (gs : list geometry) :
  forallb is_atomic gs = true -> List.flat_map Azure.multilevel_explode gs = gs.
Proof.
  induction gs as [|g gs IH]; [reflexivity|]. cbn [forallb List.flat_map].
  intros H. apply andb_prop in H as [Hg Hgs]. rewrite (IH Hgs).
  destruct g; [reflexivity|discriminate].
Qed.

(** X15: [multilevel_explode] gives the single geometries of a shape, in
    their order: every part it returns is a point, a line or a polygon; a
    single geometry is its own only part; a collection of single
    geometries has its members for parts; and exploding the parts again
    gives the same parts. *)
Theorem multilevel_explode_parts (shape : geometry) :
  forallb is_atomic (Azure.multilevel_explode shape) = true /\
  (is_atomic shape = true -> Azure.multilevel_explode shape = [shape]) /\
  (forall wkt geoms,
     shape = Multi wkt geoms -> forallb is_atomic geoms = true ->
     Azure.multilevel_explode shape = geoms) /\
  List.flat_map Azure.multilevel_explode (Azure.multilevel_explode shape)
  = Azure.multilevel_explode shape.
Proof.
  assert (Hatoms : forallb is_atomic (Azure.multilevel_explode shape) = true).
  { induction shape as [kind wkt e|wkt geoms IH] using geometry_nested_ind; [reflexivity|].
    cbn [Azure.multilevel_explode]. induction IH as [|g geoms Hg _ IHg]; [reflexivity|].
    cbn [List.flat_map]. rewrite forallb_app, Hg, IHg. reflexivity. }
  split; [exact Hatoms|]. split; [|split].
  - destruct shape; [reflexivity|discriminate].
  - intros wkt geoms -> Hg. cbn [Azure.multilevel_explode]. apply flat_map_atoms. exact Hg.
  - apply flat_map_atoms. exact Hatoms.
Qed.

Lemma multilevel_explode_parts_witness :
  Azure.multilevel_explode two_points
  = [Atomic Point "POINT (0 0)" false; Atomic Point "POINT (1 1)" false].
Proof.
  apply (proj1 (proj2 (proj2 (multilevel_explode_parts two_points)))
           "MULTIPOINT ((0 0), (1 1))").
  - reflexivity.
  - reflexivity.
Defined.

Section Parts_called.
Context {U : Type}.



End Parts_called.


(** ** The caller's mappings and the exported compositions *)

Section FrameFanOut.
Context {U : Type} (svc : services U).

Lemma search_parts_frames (func : callable U) kw n parts :
  keeps_heap func ->
  forall search_area search_areas,
    frames n (Azure.search_parts func kw parts search_area search_areas).
Proof.
  intros Hfunc. induction parts as [|geom rest IH]; intros search_area search_areas;
    cbn [Azure.search_parts].
  - apply neutral_frames. auto with frame.
  - apply frames_bind; [apply Hfunc|]. intros jr _.
    apply frames_bind; [apply neutral_frames; auto with frame|]. intros is_error _.
    destruct is_error; [apply neutral_frames; auto with frame|].
    destruct jr; try solve [apply neutral_frames; auto with frame].
    apply IH.
Qed.

Lemma multigeometry_keeps_heap (func : callable U) :
  keeps_heap func -> keeps_heap (Azure.multigeometry_search_extension svc func).
Proof.
  intros Hfunc kw n. unfold Azure.multigeometry_search_extension.
  destruct (kw_wkt kw) as [wkt|]; [|apply neutral_frames; auto with frame].
  destruct (match wkt with WktStr _ => _ | WktGeom _ => _ end) as [full_geom|];
    [|apply neutral_frames; auto with frame].
  apply frames_bind; [apply search_parts_frames; exact Hfunc|].
  intros [jr|search_areas] _; [apply neutral_frames; auto with frame|].
  destruct (default false _); apply neutral_frames; [auto with frame|].
  unfold Azure.flatten_search_areas, now.
  repeat (apply neutral_bind; [auto with frame|intros]). auto with frame.
Qed.

Lemma fetch_collections_frames (func : callable U) kw hier n collection :
  keeps_heap func ->
  forall results, frames n (Azure.fetch_collections func kw hier collection results).
Proof.
  intros Hfunc. induction collection as [|col rest IH]; intros results;
    cbn [Azure.fetch_collections].
  - apply neutral_frames. auto with frame.
  - apply frames_bind; [apply Hfunc|]. intros jr _.
    apply frames_bind.
    { apply neutral_frames. destruct jr; auto with frame. }
    intros code _.
    apply frames_bind.
    { apply neutral_frames. destruct (py_eq code (VInt 404)); auto with frame.
      apply neutral_bind; auto with frame. }
    intros not_supported _.
    destruct not_supported; [apply neutral_frames; auto with frame|].
    apply frames_bind; [apply neutral_frames; auto with frame|]. intros failed _.
    destruct failed; [apply neutral_frames; auto with frame|].
    destruct (Azure.hashable col); [apply IH|apply neutral_frames; auto with frame].
Qed.

Lemma multiple_collections_keeps_heap (func : callable U) :
  keeps_heap func -> keeps_heap (Azure.multiple_collections_extension svc func).
Proof.
  intros Hfunc kw n. unfold Azure.multiple_collections_extension.
  destruct (kw_collection kw) as [collection|]; [|apply neutral_frames; auto with frame].
  apply frames_bind.
  { apply neutral_frames. destruct (default false (kw_use_latest_collection kw));
      [|auto with frame].
    unfold Azure.apply_latest_collection.
    apply neutral_bind; [auto with frame|intros c].
    apply neutral_bind; [auto with frame|intros [hv nv]].
    apply neutral_bind; [apply neutral_get_specific|].
    intros latest. destruct latest; auto with frame. }
  intros cols _.
  apply frames_bind; [apply fetch_collections_frames; exact Hfunc|].
  intros [jr|results] _; [apply neutral_frames; auto with frame|].
  destruct (default false _); apply neutral_frames; [auto with frame|].
  unfold now. repeat (apply neutral_bind; [auto with frame|intros]). auto with frame.
Qed.

(** X17: none of the sixteen compositions the library exports writes to an
    object of the caller's: when a call of any of them returns or raises,
    every dictionary object that existed before the call, the three
    mappings passed among them, holds what it held. *)
Theorem exported_compositions_keep_caller_mappings (fuel : nat) (func : callable U)
    (kw : kwargs) (w : world U) r w' (l : nat) :
  In func (exported svc fuel) ->
  func kw w = Some (r, w') ->
  (l < List.length (heap w))%nat ->
  heap w' !! l = heap w !! l.
Proof.
  intros Hin Hrun Hl.
  apply (keeps_heap_lookup func kw w r w' l); [|exact Hrun|exact Hl].
  pose proof (ngd_items_request_keeps_heap svc) as Hitems.
  pose proof (oauth2_manager_keeps_heap svc _ Hitems) as Hauth.
  pose proof (limit_extension_keeps_heap svc _ fuel Hitems) as Hlimit.
  pose proof (limit_extension_keeps_heap svc _ fuel Hauth) as Hauth_limit.
  pose proof (multigeometry_keeps_heap _ Hitems) as Hgeom.
  pose proof (multigeometry_keeps_heap _ Hauth) as Hauth_geom.
  pose proof (multigeometry_keeps_heap _ Hlimit) as Hlimit_geom.
  pose proof (multigeometry_keeps_heap _ Hauth_limit) as Hauth_limit_geom.
  cbn [exported In] in Hin.
  repeat (destruct Hin as [<-|Hin];
          [first [ exact Hitems | exact Hauth | exact Hlimit | exact Hauth_limit
                 | exact Hgeom | exact Hauth_geom | exact Hlimit_geom
                 | exact Hauth_limit_geom
                 | apply multiple_collections_keeps_heap; assumption ]|]).
  destruct Hin.
Qed.

End FrameFanOut.

Lemma exported_compositions_keep_caller_mappings_witness :
  exists r w',
    Azure.items_limit_geom_col (answering one_feature) 3 composed_kwargs
      (request_world tt) = Some (r, w') /\
    heap w' !! 0%nat = Some [("crs", VInt 27700); ("filter", VStr "a=1")].
Proof.
  eexists. eexists. split; [vm_compute; reflexivity|].
  change (Some [("crs", VInt 27700); ("filter", VStr "a=1")])
    with (heap (request_world tt) !! 0%nat).
  eapply (exported_compositions_keep_caller_mappings (answering one_feature) 3
            (Azure.items_limit_geom_col (answering one_feature) 3)
            composed_kwargs (request_world tt)).
  - cbn [exported In]. do 8 right. left. reflexivity.
  - vm_compute. reflexivity.
  - vm_compute. lia.
Defined.

(** ** The version resolver *)

Section Resolver.
Context {U : Type}.

(** X18: the version resolver on a catalogue of names base-version.
    Whatever the status of the response, [get_latest_collection_versions]
    without [flag_recent_updates] returns a mapping with exactly one entry
    for every base name of the catalogue, which maps the base name to the
    name with the largest version the catalogue has for it. *)
Theorem get_latest_collection_versions_lookup (svc : services U) (w : world U)
    (days : Z) response u' body collections_data (entries : list (string * N)) :
  get_collections svc (ext w) = (Ret response, u') ->
  json_body response = inl (VDict body) ->
  dict_get "collections" body = Some (VList collections_data) ->
  catalogue_of collections_data entries ->
  exists output_lookup,
    Azure.get_latest_collection_versions svc false days w
    = Some (Ret (VDict output_lookup),
            {| heap := heap w; environ := environ w; ext := u' |}) /\
    List.NoDup (dict_keys output_lookup) /\
    (forall b, In b (dict_keys output_lookup) <-> In b (map fst entries)) /\
    (forall b v,
       dict_get b output_lookup = Some v ->
       exists n,
         In (b, n) entries /\ v = VStr (name_of (b, n)) /\
         forall m, In (b, m) entries -> (m <= n)%N).
Proof.
  intros Hget Hbody Hcols Hcat.
  destruct (azure_latest_versions collections_data entries Hcat)
    as (output_lookup & Hout & Hnd & Hkeys & Hvals).
  exists output_lookup. split; [|auto].
  unfold Azure.get_latest_collection_versions.
  unfold bind at 1, external at 1. rewrite Hget.
  unfold bind at 1, Azure.response_json at 1. rewrite Hbody. cbn [ret].
  unfold bind at 1, lift at 1. cbn [py_item]. unfold dict_item. rewrite Hcols.
  unfold bind at 1, lift at 1. cbn [py_iter].
  unfold bind at 1, lift at 1. rewrite Hout. reflexivity.
Qed.

Lemma latest_versions_data_ids (output_lookup : dict) collections_data :
  forall acc out,
    Forall (fun c => exists i, py_item c "id" = Ret i /\
                               py_in i (dict_values output_lookup) = true) acc ->
    for_each
      (fun acc c =>
         let? i := py_item c "id" in
         Ret (if py_in i (dict_values output_lookup) then acc ++ [c] else acc))
      collections_data acc = Ret out ->
    Forall (fun c => exists i, py_item c "id" = Ret i /\
                               py_in i (dict_values output_lookup) = true) out.
Proof.
  induction collections_data as [|c cs IH]; intros acc out Hacc; cbn [for_each].
  - intros [= <-]. exact Hacc.
  - destruct (py_item c "id") as [i|e] eqn:Hi; cbn [obind]; [|discriminate].
    destruct (py_in i (dict_values output_lookup)) eqn:Hin; apply IH; [|exact Hacc].
    apply Forall_app. split; [exact Hacc|]. constructor; [eauto|constructor].
Qed.

Lemma recent_collections_ids (svc : services U) (output_lookup : dict)
    (recent_update_cutoff : Z) data :
  Forall (fun c => exists i, py_item c "id" = Ret i /\
                             py_in i (dict_values output_lookup) = true) data ->
  forall acc (w : world U) out w',
    Forall (fun i => py_in i (dict_values output_lookup) = true) acc ->
    for_eachM
      (fun acc collection_data =>
         let* version_startdate := lift (Azure.version_startdate collection_data) in
         let* time_obj := lift (strptime svc version_startdate) in
         if (recent_update_cutoff <? time_obj)%Z
         then let* collection := lift (py_item collection_data "id") in
              ret (acc ++ [collection])
         else ret acc)
      data acc w = Some (Ret out, w') ->
    w' = w /\ Forall (fun i => py_in i (dict_values output_lookup) = true) out.
Proof.
  induction 1 as [|c data (i & Hi & Hin) _ IH]; intros acc w out w' Hacc; cbn [for_eachM].
  - intros [= <- <-]. auto.
  - intros H. apply bind_inv in H as [(acc' & w1 & H1 & H)|(e & _ & [=])].
    assert (w1 = w /\ Forall (fun i => py_in i (dict_values output_lookup) = true) acc')
      as [-> Hacc'].
    { apply bind_inv in H1 as [(start & w2 & H2 & H1)|(e & _ & [=])].
      injection H2 as _ <-.
      apply bind_inv in H1 as [(time_obj & w3 & H3 & H1)|(e & _ & [=])].
      injection H3 as _ <-.
      destruct (recent_update_cutoff <? time_obj)%Z.
      - rewrite Hi in H1. cbv [bind lift ret] in H1. injection H1 as <- <-.
        split; [reflexivity|]. apply Forall_app. split; [exact Hacc|]. repeat constructor. exact Hin.
      - injection H1 as <- <-. auto. }
    apply (IH _ _ _ _ Hacc' H).
Qed.

(** X19: with [flag_recent_updates], [get_latest_collection_versions]
    returns the mapping it returns without the flag, the number of days it
    was given, and a list of collections each of which is a value of that
    mapping: only latest versions are reported as recent. *)
Theorem get_latest_collection_versions_recent (svc : services U) (w : world U)
    (days : Z) res w' :
  Azure.get_latest_collection_versions svc true days w = Some (Ret res, w') ->
  exists output_lookup recent_collections,
    res = flagged output_lookup days recent_collections /\
    Azure.get_latest_collection_versions svc false days w
    = Some (Ret (VDict output_lookup), w') /\
    Forall (fun c => py_in c (dict_values output_lookup) = true) recent_collections.
Proof.
  unfold Azure.get_latest_collection_versions. intros H.
  apply bind_inv in H as [(response & w1 & H1 & H)|(e & _ & [=])].
  unfold bind at 1. rewrite H1.
  apply bind_inv in H as [(body & w2 & H2 & H)|(e & _ & [=])].
  unfold bind at 1. rewrite H2.
  apply bind_inv in H as [(cd & w3 & H3 & H)|(e & _ & [=])].
  unfold bind at 1. rewrite H3.
  apply bind_inv in H as [(cd' & w4 & H4 & H)|(e & _ & [=])].
  unfold bind at 1. rewrite H4.
  apply bind_inv in H as [(output_lookup & w5 & H5 & H)|(e & _ & [=])].
  unfold bind at 1. rewrite H5.
  cbn [negb] in H |- *.
  apply bind_inv in H as [(recent_update_cutoff & w0 & H0 & H)|(e & _ & [=])].
  injection H0 as _ <-.
  apply bind_inv in H as [(data & w6 & H6 & H)|(e & _ & [=])].
  apply lift_run in H6 as [H6 ->].
  apply bind_inv in H as [(recent & w7 & H7 & H)|(e & _ & [=])].
  injection H as <- <-.
  symmetry in H6. apply (latest_versions_data_ids _ _ [] _ ltac:(constructor)) in H6.
  destruct (recent_collections_ids svc _ recent_update_cutoff _ H6 [] _ _ _
              ltac:(constructor) H7) as [-> Hrec].
  exists output_lookup, recent. auto.
Qed.




End Resolver.

Lemma get_latest_collection_versions_lookup_witness :
  exists output_lookup,
    Azure.get_latest_collection_versions catalogue_services false 31 (start [])
    = Some (Ret (VDict output_lookup), {| heap := []; environ := []; ext := [] |}) /\
    List.NoDup (dict_keys output_lookup) /\
    (forall b, In b (dict_keys output_lookup) <-> In b (map fst example_entries)) /\
    (forall b v,
       dict_get b output_lookup = Some v ->
       exists n,
         In (b, n) example_entries /\ v = VStr (name_of (b, n)) /\
         forall m, In (b, m) example_entries -> (m <= n)%N).
Proof.
  apply (get_latest_collection_versions_lookup catalogue_services (start []) 31
           {| status_code := 200; json_body := inl example_catalogue |} []
           [("collections", VList [
               VDict [("id", VStr "bld-fts-buildingline-1")];
               VDict [("id", VStr "bld-fts-buildingline-2")];
               VDict [("id", VStr "trn-ntwk-street-1")]])]
           [VDict [("id", VStr "bld-fts-buildingline-1")];
            VDict [("id", VStr "bld-fts-buildingline-2")];
            VDict [("id", VStr "trn-ntwk-street-1")]]
           example_entries).
  - reflexivity.
  - reflexivity.
  - reflexivity.
  - repeat constructor.
Defined.

Lemma get_latest_collection_versions_recent_witness :
  exists res w' output_lookup recent_collections,
    Azure.get_latest_collection_versions fresh_catalogue true 31 (start tt)
    = Some (Ret res, w') /\
    res = flagged output_lookup 31 recent_collections /\
    Azure.get_latest_collection_versions fresh_catalogue false 31 (start tt)
    = Some (Ret (VDict output_lookup), w') /\
    Forall (fun c => py_in c (dict_values output_lookup) = true) recent_collections.
Proof.
  eexists. eexists.
  assert (H : Azure.get_latest_collection_versions fresh_catalogue true 31 (start tt)
              = Some (Ret (flagged
                             [("bld-fts-buildingline", VStr "bld-fts-buildingline-2");
                              ("trn-ntwk-street", VStr "trn-ntwk-street-1")] 31
                             [VStr "bld-fts-buildingline-2"]),
                      start tt))
    by (vm_compute; reflexivity).
  destruct (get_latest_collection_versions_recent fresh_catalogue (start tt) 31 _ _ H)
    as (output_lookup & recent & H1 & H2 & H3).
  exists output_lookup, recent. split; [exact H|]. auto.
Defined.


(** *** Names with and without a version *)

Lemma partition_versions_strings names :
  Forall (fun s => s <> EmptyString) names ->
  forall has_version no_version,
    for_each
      (fun '(has_version, no_version) c =>
         let? versioned := Azure.ends_with_digit c in
         if (versioned : bool)
         then Ret (has_version ++ [c], no_version)
         else Ret (has_version, no_version ++ [c]))
      (map VStr names) (has_version, no_version)
    = Ret (has_version ++ map VStr (List.filter names_version names),
           no_version ++ map VStr (List.filter (fun s => negb (names_version s)) names)).
Proof.
  induction 1 as [|s names Hs _ IH]; intros has_version no_version; cbn [map for_each].
  - now rewrite !app_nil_r.
  - cbn [Azure.ends_with_digit List.filter].
    destruct (Azure.str_last s) as [a|] eqn:Hlast.
    + assert (Hv : names_version s = is_digit a).
      { unfold names_version. rewrite Hlast. reflexivity. }
      rewrite Hv. cbn [obind].
      destruct (is_digit a); cbn [negb map obind]; rewrite IH, <- app_assoc; reflexivity.
    + exfalso. unfold Azure.str_last in Hlast.
      destruct s as [|c s]; [congruence|]. cbn [list_ascii_of_string] in Hlast.
      revert Hlast. generalize (list_ascii_of_string s). intros l. clear Hs.
      revert c. induction l as [|x l IHl]; intros c; [discriminate|].
      cbn [last]. apply IHl.
Qed.

Lemma specific_latest_distinct (latest : dict) names :
  List.NoDup names ->
  forall acc,
    (forall n, In n names -> ~ In n (dict_keys acc)) ->
    (forall n, In n names -> dict_get n latest <> None) ->
    Azure.specific_latest latest (map VStr names) acc
    = Ret (inl (acc ++ map (fun n => (n, default VNone (dict_get n latest))) names)).
Proof.
  induction 1 as [|s names Hs Hnd IH]; intros acc Hfresh Hall; cbn [map Azure.specific_latest].
  - now rewrite app_nil_r.
  - cbn [Azure.hashable].
    destruct (dict_get s latest) as [v|] eqn:Hv; [|destruct (Hall s (or_introl eq_refl) Hv)].
    rewrite dict_set_fresh by (apply Hfresh; now left).
    rewrite IH.
    + rewrite <- app_assoc. reflexivity.
    + intros n Hn. unfold dict_keys. rewrite map_app, in_app_iff. cbn [map fst In].
      intros [Hi|[<-|[]]]; [|contradiction].
      apply (Hfresh n); [now right|exact Hi].
    + intros n Hn. apply Hall. now right.
Qed.

Section Latest.
Context {U : Type}.

(** X21: [apply_latest_collection] on names that all resolve.  The names
    without a version are replaced by what the resolver's mapping has for
    them, the names with a version are kept, and the result lists the
    replaced names first and the kept names after them: the order in which
    the caller gave the collections is not the order in which they are
    fetched. *)
Theorem apply_latest_collection_order (svc : services U) (w : world U)
    (names : list string) latest w1 :
  Azure.get_latest_collection_versions svc false 31 w = Some (Ret (VDict latest), w1) ->
  Forall (fun s => s <> EmptyString) names ->
  List.NoDup (List.filter (fun s => negb (names_version s)) names) ->
  (forall n, In n names -> names_version n = false -> dict_get n latest <> None) ->
  Azure.apply_latest_collection svc (VList (map VStr names)) w
  = Some (Ret (map (fun n => default VNone (dict_get n latest))
                 (List.filter (fun s => negb (names_version s)) names)
               ++ map VStr (List.filter names_version names)),
          w1).
Proof.
  intros Hlatest Hne Hnd Hall. unfold Azure.apply_latest_collection.
  unfold bind at 1, lift at 1. cbn [py_iter].
  unfold bind at 1, lift at 1. unfold Azure.partition_versions.
  rewrite (partition_versions_strings names Hne [] []). cbn [app].
  unfold Azure.get_specific_latest_collections.
  unfold bind at 1. unfold bind at 1. rewrite Hlatest.
  unfold bind at 1, lift at 1.
  rewrite (specific_latest_distinct latest _ Hnd []).
  - cbn [app ret]. unfold dict_values. rewrite map_map. reflexivity.
  - intros n _ [].
  - intros n Hn. apply filter_In in Hn as [Hn Hv]. apply Hall; [exact Hn|].
    apply negb_true_iff. exact Hv.
Qed.

End Latest.

Lemma apply_latest_collection_order_witness :
  Azure.apply_latest_collection catalogue_services
    (VList (map VStr ["bld-fts-buildingline-1"; "trn-ntwk-street"])) (start [])
  = Some (Ret ([VStr "trn-ntwk-street-1"] ++ [VStr "bld-fts-buildingline-1"]), start []).
Proof.
  apply (apply_latest_collection_order catalogue_services (start [])
           ["bld-fts-buildingline-1"; "trn-ntwk-street"]
           [("bld-fts-buildingline", VStr "bld-fts-buildingline-2");
            ("trn-ntwk-street", VStr "trn-ntwk-street-1")] (start [])).
  - vm_compute. reflexivity.
  - repeat constructor; discriminate.
  - repeat constructor. intros [].
  - intros n [<-|[<-|[]]]; intros Hv; try discriminate.
Defined.

(** ** The resolver of the Flask variant *)

Lemma pretty_N_go_digits x s :
  forallb is_digit (list_ascii_of_string s) = true ->
  forallb is_digit (list_ascii_of_string (pretty_N_go x s)) = true.
Proof.
  revert s. induction (N.lt_wf_0 x) as [x _ IH]. intros s Hs.
  destruct (decide (x = 0)%N) as [->|Hx].
  - rewrite pretty_N_go_0. exact Hs.
  - rewrite pretty_N_go_step by lia. apply IH.
    + apply N.div_lt; lia.
    + cbn [list_ascii_of_string forallb]. rewrite Hs.
      destruct (pretty_N_char_digit (x `mod` 10)%N) as (Hd & _ & _).
      { apply N.mod_lt. lia. }
      rewrite Hd. reflexivity.
Qed.

Lemma pretty_N_digits (n : N) :
  forallb is_digit (list_ascii_of_string (pretty n)) = true /\ pretty n <> EmptyString.
Proof.
  split.
  - unfold pretty, pretty_N. destruct (decide (n = 0)%N); [reflexivity|].
    apply pretty_N_go_digits. reflexivity.
  - intros E. pose proof (digits_value_pretty n) as H. rewrite E in H.
    simpl in H. injection H as <-. discriminate.
Qed.

Lemma strip_version_name e : Flask.strip_version (name_of e) = fst e.
Proof.
  unfold Flask.strip_version, name_of.
  rewrite split_last_hyphen_name by apply pretty_hyphen_free.
  destruct (pretty_N_digits (snd e)) as [Hd Hne]. rewrite Hd.
  destruct (String.eqb_spec (pretty (snd e)) EmptyString); [contradiction|reflexivity].
Qed.

Lemma last_segment_name e : Flask.last_segment (name_of e) = pretty (snd e).
Proof.
  unfold Flask.last_segment, name_of.
  rewrite split_last_hyphen_name by apply pretty_hyphen_free. reflexivity.
Qed.

Lemma version_key e : py_int (Flask.last_segment (name_of e)) = Ret (Z.of_N (snd e)).
Proof. rewrite last_segment_name. apply py_int_pretty. Qed.

Lemma str_prefix_app b s : str_prefix b (b +:+ s) = true.
Proof.
  induction b as [|c b IH]; [destruct s; reflexivity|].
  change (String c b +:+ s) with (String c (b +:+ s)). cbn [str_prefix].
  rewrite Ascii.eqb_refl. exact IH.
Qed.

Lemma max_by_version_entries es :
  forall e0,
    exists e1,
      Flask.max_by_version (name_of e0) (Z.of_N (snd e0)) (map name_of es)
      = Ret (name_of e1) /\
      In e1 (e0 :: es) /\
      forall e, In e (e0 :: es) -> (snd e <= snd e1)%N.
Proof.
  induction es as [|e es IH]; intros e0; cbn [map Flask.max_by_version].
  - exists e0. split; [reflexivity|]. split; [now left|].
    intros e [<-|[]]. lia.
  - rewrite version_key. cbn [obind].
    destruct (Z.of_N (snd e0) <? Z.of_N (snd e))%Z eqn:E.
    + apply Z.ltb_lt in E. destruct (IH e) as (e1 & H1 & Hin & Hmax).
      exists e1. split; [exact H1|]. split; [now right|].
      intros x [<-|Hx]; [|apply Hmax; exact Hx].
      specialize (Hmax e (or_introl eq_refl)). lia.
    + apply Z.ltb_ge in E. destruct (IH e0) as (e1 & H1 & Hin & Hmax).
      exists e1. split; [exact H1|]. split.
      * destruct Hin as [<-|Hin]; [now left|now right; right].
      * intros x [<-|[<-|Hx]].
        -- apply Hmax. now left.
        -- specialize (Hmax e0 (or_introl eq_refl)). lia.
        -- apply Hmax. now right.
Qed.

Lemma distinct_spec l :
  List.NoDup (Flask.distinct l) /\ forall x, In x (Flask.distinct l) <-> In x l.
Proof.
  induction l as [|a l [Hnd Hin]]; cbn [Flask.distinct].
  - split; [constructor|tauto].
  - split.
    + constructor.
      * rewrite filter_In. intros [_ H]. rewrite String.eqb_refl in H. discriminate.
      * apply List.NoDup_filter. exact Hnd.
    + intros x. cbn [In]. rewrite filter_In, Hin.
      destruct (String.eqb_spec a x) as [->|Hne]; cbn [negb]; intuition congruence.
Qed.

Lemma filter_names (f : string -> bool) (g : string * N -> bool) entries :
  (forall e, In e entries -> f (name_of e) = g e) ->
  List.filter f (map name_of entries) = map name_of (List.filter g entries).
Proof.
  induction entries as [|e entries IH]; intros H; [reflexivity|].
  cbn [map List.filter]. rewrite (H e (or_introl eq_refl)).
  rewrite IH by (intros x Hx; apply H; now right).
  destruct (g e); reflexivity.
Qed.

Lemma dict_get_keys k (d : dict) : In k (dict_keys d) <-> dict_get k d <> None.
Proof.
  induction d as [|[k0 v0] d IH]; simpl; [tauto|].
  destruct (String.eqb_spec k k0) as [->|Hne].
  - split; [discriminate|auto].
  - rewrite <- IH. intuition congruence.
Qed.

Lemma flask_all_versions entries (Hfree : prefix_free entries) b :
  In b (map fst entries) ->
  List.filter (fun c => str_prefix b c) (map name_of entries)
  = map name_of (List.filter (fun e => String.eqb b (fst e)) entries).
Proof.
  intros Hb. apply in_map_iff in Hb as (e0 & <- & He0).
  apply filter_names. intros e He.
  destruct (String.eqb_spec (fst e0) (fst e)) as [Heq|Hne].
  - rewrite Heq. unfold name_of. apply str_prefix_app.
  - destruct (str_prefix (fst e0) (name_of e)) eqn:Hp; [|reflexivity].
    exfalso. apply Hne. symmetry. apply (Hfree e0 e He0 He Hp).
Qed.

Lemma flask_latest_of entries (Hfree : prefix_free entries) b :
  In b (map fst entries) ->
  exists n,
    Flask.latest_of (List.filter (fun c => str_prefix b c) (map name_of entries))
    = Ret (name_of (b, n)) /\
    In (b, n) entries /\
    forall m, In (b, m) entries -> (m <= n)%N.
Proof.
  intros Hb. rewrite (flask_all_versions entries Hfree b Hb).
  apply in_map_iff in Hb as (e0 & Hb & He0).
  destruct (List.filter (fun e => String.eqb b (fst e)) entries) as [|e es] eqn:Hf.
  - exfalso. assert (Hin : In e0 (List.filter (fun e => String.eqb b (fst e)) entries)).
    { apply filter_In. split; [exact He0|]. rewrite Hb. apply String.eqb_refl. }
    rewrite Hf in Hin. destruct Hin.
  - cbn [map Flask.latest_of]. rewrite version_key. cbn [obind].
    destruct (max_by_version_entries es e) as (e1 & H1 & Hin & Hmax).
    rewrite <- Hf in Hin, Hmax.
    apply filter_In in Hin as [Hin Hb1]. apply String.eqb_eq in Hb1.
    exists (snd e1). replace (b, snd e1) with e1 by (destruct e1; simpl in *; congruence).
    split; [exact H1|]. split; [exact Hin|].
    intros m Hm. apply (Hmax (b, m)). apply filter_In. split; [exact Hm|].
    apply String.eqb_refl.
Qed.

Lemma flask_loop entries (Hfree : prefix_free entries) bases :
  List.NoDup bases ->
  (forall b, In b bases -> In b (map fst entries)) ->
  forall acc,
    (forall b, In b bases -> ~ In b (dict_keys acc)) ->
    exists added,
      for_each
        (fun (output_lookup : dict) base_name =>
           let? latest_version :=
             Flask.latest_of
               (List.filter (fun c => str_prefix base_name c) (map name_of entries)) in
           Ret (dict_set base_name (VStr latest_version) output_lookup))
        bases acc
      = Ret (acc ++ added) /\
      dict_keys added = bases /\
      forall b v,
        In (b, v) added ->
        exists n,
          In (b, n) entries /\ v = VStr (name_of (b, n)) /\
          forall m, In (b, m) entries -> (m <= n)%N.
Proof.
  induction 1 as [|b bases Hb Hnd IH]; intros Hbases acc Hfresh; cbn [for_each].
  - exists []. rewrite app_nil_r. split; [reflexivity|]. split; [reflexivity|].
    intros b v [].
  - destruct (flask_latest_of entries Hfree b (Hbases b (or_introl eq_refl))) as (n & Hl & Hin & Hmax).
    rewrite Hl. cbn [obind].
    rewrite dict_set_fresh by (apply Hfresh; now left).
    destruct (IH (fun x Hx => Hbases x (or_intror Hx)) (acc ++ [(b, VStr (name_of (b, n)))]))
      as (added & Hrun & Hkeys & Hspec).
    { intros x Hx. unfold dict_keys. rewrite map_app, in_app_iff. cbn [map fst In].
      intros [Hi|[<-|[]]]; [|contradiction].
      apply (Hfresh x); [now right|exact Hi]. }
    exists ((b, VStr (name_of (b, n))) :: added). split; [|split].
    + rewrite Hrun, <- app_assoc. reflexivity.
    + unfold dict_keys in *. cbn [map fst]. rewrite Hkeys. reflexivity.
    + intros x v [[= <- <-]|Hx]; [eauto|apply Hspec; exact Hx].
Qed.

(** X22: where the Flask variant of the resolver is right.  On a catalogue
    of names base-version in which no base name begins the name of an entry
    of another base name, the Flask variant returns one entry for every base
    name, with the name of its largest version, and so does the Azure
    variant, on every catalogue: there the two agree on every base name. *)
Theorem flask_latest_versions_prefix_free (entries : list (string * N)) :
  prefix_free entries ->
  exists flask azure,
    Flask.output_lookup_of (map name_of entries) = Ret flask /\
    Azure.output_lookup_of (map entry_of entries) = Ret azure /\
    resolves entries flask /\ resolves entries azure /\
    forall b, dict_get b flask = dict_get b azure.
Proof.
  intros Hfree.
  destruct (azure_latest_versions (map entry_of entries) entries) as (azure & Ha & Hra).
  { clear. induction entries as [|e entries IH]; constructor; [reflexivity|exact IH]. }
  destruct (distinct_spec (map Flask.strip_version (map name_of entries))) as [Hnd Hin].
  assert (Hbases : forall b,
             In b (Flask.distinct (map Flask.strip_version (map name_of entries)))
             <-> In b (map fst entries)).
  { intros b. rewrite Hin, map_map.
    rewrite (map_ext _ fst strip_version_name). reflexivity. }
  destruct (flask_loop entries Hfree _ Hnd (fun b Hb => proj1 (Hbases b) Hb) [])
    as (flask & Hf & Hkeys & Hspec); [intros b _ []|].
  cbn [app] in Hf.
  assert (Hrf : resolves entries flask).
  { split; [rewrite Hkeys; exact Hnd|]. split.
    - intros b. rewrite Hkeys. apply Hbases.
    - intros b v Hv. apply Hspec. apply dict_get_In. exact Hv. }
  exists flask, azure. split; [exact Hf|]. split; [exact Ha|].
  split; [exact Hrf|]. split; [exact Hra|].
  intros b. destruct Hrf as (_ & Hkf & Hvf). destruct Hra as (_ & Hka & Hva).
  destruct (dict_get b flask) as [v|] eqn:Hbf.
  - assert (Hba : dict_get b azure <> None).
    { apply dict_get_keys, Hka, Hkf, dict_get_keys. congruence. }
    destruct (dict_get b azure) as [v'|] eqn:Hbv; [|congruence].
    destruct (Hvf b v Hbf) as (n & Hn & -> & Hmax).
    destruct (Hva b v' Hbv) as (n' & Hn' & -> & Hmax').
    specialize (Hmax n' Hn'). specialize (Hmax' n Hn).
    replace n' with n by lia. reflexivity.
  - destruct (dict_get b azure) as [v'|] eqn:Hbv; [|reflexivity].
    exfalso. assert (Hk : In b (dict_keys flask)).
    { apply Hkf, Hka, dict_get_keys. congruence. }
    apply dict_get_keys in Hk. congruence.
Qed.

Lemma flask_latest_versions_prefix_free_witness :
  exists flask azure,
    Flask.output_lookup_of (map name_of example_entries) = Ret flask /\
    Azure.output_lookup_of (map entry_of example_entries) = Ret azure /\
    resolves example_entries flask /\ resolves example_entries azure /\
    forall b, dict_get b flask = dict_get b azure.
Proof.
  apply (flask_latest_versions_prefix_free example_entries).
  intros e1 e2 H1 H2.
  cbn [example_entries In] in H1, H2.
  repeat (destruct H1 as [<-|H1]); try destruct H1;
    repeat (destruct H2 as [<-|H2]); try destruct H2;
    vm_compute; intros H; congruence.
Defined.

(** ** The collection fan-out, flattened *)

Section Collections_called.
Context {U : Type}.


End Collections_called.







Section Collections_merged.
Context {U : Type}.


End Collections_merged.


(** ** The Flask variant: a single collection *)

(** X24: [get_single_latest_collection] of the Flask variant never returns
    the name it is asked for.  Given a name, a string, it raises: the
    resolver returns a pair, and the name is used as an index into that
    pair, which is a [TypeError] whenever the catalogue itself could be
    read. *)
Theorem flask_get_single_latest_collection_raises {U : Type} (svc : services U)
    (name : string) (flag_recent_updates : bool) (recent_update_days : Z)
    (w : world U) r w' :
  FlaskCalls.get_single_latest_collection svc (VStr name)
    flag_recent_updates recent_update_days w = Some (r, w') ->
  exists e,
    r = Raise e /\
    forall latest w1,
      FlaskCalls.get_latest_collection_versions svc flag_recent_updates
        recent_update_days w = Some (Ret latest, w1) ->
      exists msg, e = TypeError msg.
Proof.
  unfold FlaskCalls.get_single_latest_collection. intros H.
  apply bind_inv in H as [([lookup recent] & w1 & H1 & H)|(e & H1 & ->)].
  - injection H as <- <-. eexists. split; [reflexivity|].
    intros latest w2 _. eauto.
  - exists e. split; [reflexivity|]. intros latest w2 H2. congruence.
Qed.

Lemma flask_get_single_latest_collection_raises_witness :
  exists r w' e,
    FlaskCalls.get_single_latest_collection fresh_catalogue
      (VStr "bld-fts-buildingline") true 31 (start tt) = Some (r, w') /\
    r = Raise e /\
    forall latest w1,
      FlaskCalls.get_latest_collection_versions fresh_catalogue true 31 (start tt)
      = Some (Ret latest, w1) ->
      exists msg, e = TypeError msg.
Proof.
  eexists. eexists.
  assert (H : FlaskCalls.get_single_latest_collection fresh_catalogue
                (VStr "bld-fts-buildingline") true 31 (start tt)
              = Some (Raise (TypeError "tuple indices must be integers or slices, not str"),
                      start tt))
    by (vm_compute; reflexivity).
  destruct (flask_get_single_latest_collection_raises fresh_catalogue
              "bld-fts-buildingline" true 31 (start tt) _ _ H) as (e & He & Hty).
  exists e. split; [exact H|]. split; [exact He|exact Hty].
Defined.

(** ** The Flask variant: the attribute filter *)

Lemma str_join_fold sep (l : list string) p q :
  fold_left (fun acc t => acc +:+ sep +:+ t) l (p +:+ q)
  = p +:+ fold_left (fun acc t => acc +:+ sep +:+ t) l q.
Proof.
  assert (Hassoc : forall x y z : string, (x +:+ y) +:+ z = x +:+ (y +:+ z)).
  { induction x as [|c x IHx]; intros y z; [reflexivity|].
    change (String c ((x +:+ y) +:+ z) = String c (x +:+ (y +:+ z))).
    f_equal. apply IHx. }
  revert q. induction l as [|t l IH]; intros q; [reflexivity|].
  cbn [fold_left]. rewrite <- IH. f_equal. apply Hassoc.
Qed.

Lemma str_join_app sep (a b : list string) :
  a <> [] -> b <> [] ->
  str_join sep (a ++ b) = str_join sep a +:+ sep +:+ str_join sep b.
Proof.
  destruct a as [|x a]; [congruence|]. destruct b as [|y b]; [congruence|].
  intros _ _. cbn [str_join app]. rewrite fold_left_app. cbn [fold_left].
  rewrite str_join_fold. f_equal. apply str_join_fold.
Qed.

(** X25: the filter builder of the Flask variant, called with keyword
    arguments (whose names are distinct), writes one predicate per
    argument, a string value between single quotes and any other value as
    [str] prints it, and joins them with [and]: the filter of two groups of
    arguments is the filter of the first, [and], the filter of the
    second. *)
Theorem flask_construct_filter_param_and (a b : dict) :
  List.NoDup (dict_keys (a ++ b)) -> a <> [] -> b <> [] ->
  Flask.construct_filter_param (a ++ b)
  = Flask.construct_filter_param a +:+ "and" +:+ Flask.construct_filter_param b /\
  forall k v,
    Flask.construct_filter_param [(k, v)]
    = "(" +:+ k +:+ "=" +:+
      (match v with VStr s => "'" +:+ s +:+ "'" | _ => py_str v end) +:+ ")".
Proof.
  intros Hnd Ha Hb. split.
  - destruct flask_construct_filter_param_spec as (_ & _ & Hspec).
    unfold dict_keys in Hnd. rewrite map_app in Hnd.
    rewrite (Hspec (a ++ b)) by (unfold dict_keys; rewrite map_app; exact Hnd).
    rewrite (Hspec a) by (apply NoDup_app_remove_r in Hnd; exact Hnd).
    rewrite (Hspec b) by (apply NoDup_app_remove_l in Hnd; exact Hnd).
    rewrite map_app. apply str_join_app.
    + destruct a; [congruence|discriminate].
    + destruct b; [congruence|discriminate].
  - intros k v. destruct flask_construct_filter_param_spec as (_ & _ & Hspec).
    rewrite (Hspec [(k, v)]) by (repeat constructor; cbn; tauto).
    destruct v; reflexivity.
Qed.

Lemma flask_construct_filter_param_and_witness :
  Flask.construct_filter_param
    ([("oslandcovertierb", VStr "Water")] ++ [("height", VInt 3)])
  = Flask.construct_filter_param [("oslandcovertierb", VStr "Water")] +:+ "and" +:+
    Flask.construct_filter_param [("height", VInt 3)].
Proof.
  apply (flask_construct_filter_param_and
           [("oslandcovertierb", VStr "Water")] [("height", VInt 3)]).
  - repeat constructor; cbn; intuition discriminate.
  - discriminate.
  - discriminate.
Defined.
